(** * oasis-jsbridge: argument handling of the Java <-> JavaScript bridge

    A shallow embedding of
    - [Parameter.kt]            (reflection side: [Parameter])
    - [JavaMethod.cpp]          (JS -> Java calls, Duktape and QuickJS variants)
    - [JavaScriptMethod.cpp]    (Java -> JS calls, Duktape and QuickJS variants)
    - [JavaScriptObject.cpp]    (registration of a proxied JS object)
    together with the properties of these functions that the design
    document states. *)

From Stdlib Require Import ZArith Lia DecimalString.
From stdpp Require Import base option list strings gmap.

Local Open Scope string_scope.
Local Open Scope list_scope.
#[local] Set Warnings "-register-all".

(** ** Outcomes of fallible code

    Both the Kotlin and the C++ code signal failure by throwing.  A
    computation that may throw an [E] returns an [Outcome E A]. *)

Inductive Outcome (E A : Type) : Type :=
| Returns (a : A)
| Throws (e : E).
Arguments Returns {E A} a.
Arguments Throws {E A} e.

Definition obind {E A B} (c : Outcome E A) (k : A -> Outcome E B) : Outcome E B :=
  match c with
  | Returns a => k a
  | Throws e => Throws e
  end.

Definition omap {E A B} (f : A -> B) (c : Outcome E A) : Outcome E B :=
  obind c (fun a => Returns (f a)).

(** [try c catch (t: Throwable) { h t }] *)
Definition ocatch {E A} (c : Outcome E A) (h : E -> Outcome E A) : Outcome E A :=
  match c with
  | Returns a => Returns a
  | Throws e => h e
  end.

(** ** Parameter.kt *)

Module Reflection.

(** A [Throwable], identified by its class name. *)
Record Throwable : Type := mkThrowable { throwableClass : string }.

(** [java.lang.reflect.Method], as far as the code looks at it. *)
Record JMethod : Type := mkJMethod {
  jm_name : string;
  jm_declaringClass : string
}.

(** [java.lang.Class<*>], as far as the code looks at it. *)
Inductive JClass : Type :=
| mkClass (name : string) (canonicalName : option string) (isPrimitive : bool)
          (componentType : option JClass) (methods : list JMethod).

Definition c_name (c : JClass) : string := let 'mkClass n _ _ _ _ := c in n.
Definition c_canonicalName (c : JClass) : option string := let 'mkClass _ n _ _ _ := c in n.
Definition c_isPrimitive (c : JClass) : bool := let 'mkClass _ _ b _ _ := c in b.
Definition c_componentType (c : JClass) : option JClass := let 'mkClass _ _ _ t _ := c in t.
Definition c_methods (c : JClass) : list JMethod := let 'mkClass _ _ _ _ m := c in m.

(** [kotlin.reflect.KFunction<*>] *)
Record KFunction : Type := mkKFunction { kf_name : string }.

(** [kotlin.reflect.KClass<*>].  Querying [memberFunctions] can throw:
    kotlin-reflect v1.3.31 and v1.3.40 do so for a lambda. *)
Record KClass : Type := mkKClass {
  kc_java : JClass;
  kc_javaObjectType : JClass;
  kc_memberFunctions : Outcome Throwable (list KFunction)
}.

(** [kotlin.reflect.KType], its classifier and its type projections.
    The projection of a star argument has no type. *)
Inductive KType : Type :=
| mkKType (classifier : option KClassifier) (arguments : list KTypeProjection)
          (isMarkedNullable : bool) (toString : string)
with KClassifier : Type :=
| ClassifierType (t : KType)
| ClassifierClass (k : KClass)
| ClassifierTypeParameter (name : string)
with KTypeProjection : Type :=
| mkKTypeProjection (type : option KType).

Definition kt_classifier (t : KType) : option KClassifier :=
  let 'mkKType c _ _ _ := t in c.
Definition kt_arguments (t : KType) : list KTypeProjection :=
  let 'mkKType _ a _ _ := t in a.
Definition kt_isMarkedNullable (t : KType) : bool :=
  let 'mkKType _ _ n _ := t in n.
Definition kt_toString (t : KType) : string :=
  let 'mkKType _ _ _ s := t in s.
Definition ktp_type (p : KTypeProjection) : option KType :=
  let 'mkKTypeProjection t := p in t.

(** [classifier as? KClass<*>] *)
Definition asKClass (c : option KClassifier) : option KClass :=
  match c with
  | Some (ClassifierClass k) => Some k
  | _ => None
  end.

(** [kotlinType.arguments.firstOrNull()?.type] *)
Definition firstArgumentType (t : KType) : option KType :=
  match kt_arguments t with
  | [] => None
  | p :: _ => ktp_type p
  end.

(** The class [Method] of the bridge is built by one of three
    constructors; a value of it is identified by the constructor and its
    arguments. *)
Inductive Method : Type :=
| MethodOfKFunction (f : KFunction) (isLambda : bool)
| MethodOfJava (m : JMethod)
| MethodOfJavaGeneric (m : JMethod) (typeArguments : list KTypeProjection) (isLambda : bool).

(** [internal open class Parameter].  ([Parameter] is a reserved word
    here; the JNI code calls the class [jsBridgeParameter].) *)
Record JsBridgeParameter : Type := mkParameter {
  parentMethod : option Method;
  kotlinType : option KType;
  javaClass : option JClass;
  name : option string;
  isOptional : bool
}.

(** [Any::class.java] *)
Definition objectMethods : list JMethod :=
  map (fun n => mkJMethod n "java.lang.Object")
      ["wait"; "wait"; "wait"; "equals"; "toString"; "hashCode"; "getClass";
       "notify"; "notifyAll"].
Definition AnyClass : JClass :=
  mkClass "java.lang.Object" (Some "java.lang.Object") false None objectMethods.

(** [String.startsWith] *)
Fixpoint startsWith (s prefix : string) {struct prefix} : bool :=
  match prefix with
  | EmptyString => true
  | String c p =>
      match s with
      | EmptyString => false
      | String d r => if Ascii.eqb c d then startsWith r p else false
      end
  end.

Section WithClassLoader.

(** [Class.forName]: throws when the class cannot be located. *)
Variable forName : string -> Outcome Throwable JClass.

(** [private fun findJavaClass(kotlinType: KType): Class<*>?] *)
Fixpoint findJavaClass (kotlinType : KType) : Outcome Throwable (option JClass) :=
  match kotlinType with
  | mkKType (Some (ClassifierType kotlinClassifier)) _ _ _ =>
      findJavaClass kotlinClassifier
  | mkKType (Some (ClassifierClass kotlinClassifier)) arguments _ toString =>
      if startsWith toString "kotlin.Array" then
        let componentClass :=
          asKClass (match arguments with
                    | [] => None
                    | mkKTypeProjection None :: _ => None
                    | mkKTypeProjection (Some t) :: _ => kt_classifier t
                    end) in
        match componentClass with
        | Some cc =>
            if c_isPrimitive (kc_java cc) then
              let componentJvmName :=
                default "java.lang.Object" (c_canonicalName (kc_javaObjectType cc)) in
              omap Some (forName ("[L" +:+ componentJvmName +:+ ";"))
            else Returns (Some (kc_javaObjectType kotlinClassifier))
        | None => Returns (Some (kc_javaObjectType kotlinClassifier))
        end
      else Returns (Some (kc_java kotlinClassifier))
  | _ => Returns None
  end.

(** [constructor(kotlinType: KType)] *)
Definition Parameter_ofKType (kotlinType : KType) : Outcome Throwable JsBridgeParameter :=
  obind (findJavaClass kotlinType) (fun jc =>
  Returns (mkParameter None (Some kotlinType) jc None false)).

(** [constructor(javaClass: Class<*>)] *)
Definition Parameter_ofClass (javaClass : JClass) : JsBridgeParameter :=
  mkParameter None None (Some javaClass) (Some (c_name javaClass)) false.

(** [fun getJavaName(): String?] *)
Definition getJavaName (p : JsBridgeParameter) : option string :=
  c_name <$> javaClass p.

(** [fun isNullable(): Boolean] *)
Definition isNullable (p : JsBridgeParameter) : bool :=
  match kotlinType p with
  | Some t => kt_isMarkedNullable t
  | None => false
  end.

(** The [try] block of [invokeMethod].  [Returns (Some r)] is
    [return@lazy r]; [Returns None] leaves the block at its end. *)
Definition invokeMethod_try (p : JsBridgeParameter) : Outcome Throwable (option (option Method)) :=
  match kotlinType p with
  | Some kt =>
      let kotlinClass := asKClass (kt_classifier kt) in
      obind (match kotlinClass with
             | Some k =>
                 omap (fun fs => find (fun f => String.eqb (kf_name f) "invoke") fs)
                      (kc_memberFunctions k)
             | None => Returns None
             end) (fun kotlinFunction =>
      Returns (Some ((fun f => MethodOfKFunction f true) <$> kotlinFunction)))
  | None => Returns None
  end.

(** [javaClass?.methods?.firstOrNull { it.name == "invoke" }] *)
Definition javaInvoke (p : JsBridgeParameter) : option JMethod :=
  match javaClass p with
  | Some c => find (fun m => String.eqb (jm_name m) "invoke") (c_methods c)
  | None => None
  end.

(** What follows the [try] block of [invokeMethod]. *)
Definition invokeMethod_java (p : JsBridgeParameter) : option Method :=
  match javaInvoke p with
  | None => None
  | Some javaMethod =>
      match kotlinType p with
      | None => Some (MethodOfJava javaMethod)
      | Some kt => Some (MethodOfJavaGeneric javaMethod (kt_arguments kt) true)
      end
  end.

(** [val invokeMethod: Method? by lazy { ... }] *)
Definition invokeMethod (p : JsBridgeParameter) : Outcome Throwable (option Method) :=
  obind (ocatch (invokeMethod_try p) (fun t => Returns None)) (fun r =>
  match r with
  | Some result => Returns result
  | None => Returns (invokeMethod_java p)
  end).

(** [fun getComponentType(): Parameter?] *)
Definition getComponentType (p : JsBridgeParameter) : Outcome Throwable (option JsBridgeParameter) :=
  let javaComponentType := javaClass p ≫= c_componentType in
  let otherwise :=
    match kotlinType p with
    | None =>
        match javaComponentType with
        | None => Returns (Some (Parameter_ofClass AnyClass))
        | Some c => Returns (Some (Parameter_ofClass c))
        end
    | Some kt =>
        match firstArgumentType kt with
        | Some genericParameterType =>
            omap Some (Parameter_ofKType genericParameterType)
        | None => Returns None
        end
    end in
  match javaComponentType with
  | Some c => if c_isPrimitive c then Returns (Some (Parameter_ofClass c)) else otherwise
  | None => otherwise
  end.

(** [fun getGenericParameter(): Parameter?] *)
Definition getGenericParameter (p : JsBridgeParameter) : Outcome Throwable (option JsBridgeParameter) :=
  match kotlinType p with
  | None => Returns (Some (Parameter_ofClass AnyClass))
  | Some kt =>
      match firstArgumentType kt with
      | Some genericParameterType =>
          omap Some (Parameter_ofKType genericParameterType)
      | None => Returns None
      end
  end.

End WithClassLoader.

End Reflection.

(** ** Parameter.kt: what a parameter tells about its parent method *)

Module ParameterAccessors.
Import Reflection.

Section WithMethodClass.

(** The properties [javaMethod] and [name] of the bridge's class
    [Method]. *)
Variable javaMethodOf : Method -> option JMethod.
Variable nameOf : Method -> option string.

(** [fun getParentMethodName(): String] *)
Definition getParentMethodName (p : JsBridgeParameter) : string :=
  let className :=
    default "<Unknown>" (jm_declaringClass <$> (parentMethod p ≫= javaMethodOf)) in
  let methodName := default "<Unknown>" (parentMethod p ≫= nameOf) in
  className +:+ "::" +:+ methodName.

End WithMethodClass.

End ParameterAccessors.

(** ** Values and effects of the native (JNI) code *)

Module Native.

(** A Java value as held by a [JValue].  A default-constructed [JValue]
    is the null reference. *)
Inductive JValue : Type :=
| JNull
| JPrimitive (z : Z)
| JObject (ref : Z)
| JArray (elements : list JValue).

(** A JavaScript value.  Functions, plain objects and arrays are the
    object values; [JSException] is QuickJS's [JS_EXCEPTION] marker. *)
Inductive JSValue : Type :=
| JSUndefined
| JSNull
| JSBool (b : bool)
| JSNumber (z : Z)
| JSString (s : string)
| JSFunction (id : Z) (props : list (string * JSValue))
| JSObject (props : list (string * JSValue))
| JSArray (elements : list JSValue)
| JSException.

(** What a C++ [throw] carries.  [duk_internal_exception] is what the
    Duktape API throws; it is not derived from [std::exception].
    [undefined_behaviour] stands for an access outside a vector or
    array, on which the source says nothing: no handler of the modelled
    code catches it. *)
Inductive Thrown : Type :=
| std_invalid_argument (what : string)
| std_runtime_error (what : string)
| std_exception (what : string)
| JsException (error : JSValue)
| duk_internal_exception (what : string)
| undefined_behaviour (container : string) (index : Z).

(** [catch (const std::exception &)].  [JsException] is taken to derive
    from [std::exception], as the other exception classes of the bridge. *)
Definition is_std_exception (e : Thrown) : bool :=
  match e with
  | duk_internal_exception _ | undefined_behaviour _ _ => false
  | _ => true
  end.

(** [catch (const std::invalid_argument &)] *)
Definition is_std_invalid_argument (e : Thrown) : bool :=
  match e with
  | std_invalid_argument _ => true
  | _ => false
  end.

(** [e.what()]; the text of a [JsException] is not modelled. *)
Definition what (e : Thrown) : string :=
  match e with
  | std_invalid_argument w | std_runtime_error w | std_exception w => w
  | JsException _ => "JsException"
  | duk_internal_exception w => w
  | undefined_behaviour _ _ => ""
  end.

(** [alog_warn] calls of the modelled code. *)
Inductive LogEntry : Type :=
| NotEnoughParameters (methodName : string) (expected received : Z)
| RegisteringPromise.

(** *** Integer types (LP64) *)

Definition SIZE_BITS : Z := 64.
Definition INT_MAX : Z := 2 ^ 31 - 1.

(** Conversion to [size_t], and [size_t] arithmetic: modulo [2^64]. *)
Definition to_size_t (z : Z) : Z := z mod 2 ^ SIZE_BITS.
(** Conversion of a [size_t] to [ssize_t]. *)
Definition to_ssize_t (z : Z) : Z := (z + 2 ^ 63) mod 2 ^ SIZE_BITS - 2 ^ 63.
(** Conversion to [int]. *)
Definition to_int (z : Z) : Z := (z + 2 ^ 31) mod 2 ^ 32 - 2 ^ 31.

(** [std::to_string] *)
Definition to_string (z : Z) : string := NilZero.string_of_int (Z.to_int z).

(** *** Computations with state and exceptions

    A computation over a state [S] returns or throws, and leaves a
    state behind in both cases. *)

Definition M (S A : Type) : Type := S -> Outcome Thrown A * S.

Definition ret {S A} (a : A) : M S A := fun s => (Returns a, s).
Definition throw {S A} (e : Thrown) : M S A := fun s => (Throws e, s).
Definition bind {S A B} (c : M S A) (k : A -> M S B) : M S B :=
  fun s =>
    match c s with
    | (Returns a, s') => k a s'
    | (Throws e, s') => (Throws e, s')
    end.
(** [try { c } catch (const X &) { h }], where [handles] tells the
    objects of class [X]. *)
Definition try_catch {S A} (c : M S A) (handles : Thrown -> bool)
    (h : Thrown -> M S A) : M S A :=
  fun s =>
    match c s with
    | (Returns a, s') => (Returns a, s')
    | (Throws e, s') => if handles e then h e s' else (Throws e, s')
    end.
(** A pure fallible step. *)
Definition lift {S A} (o : Outcome Thrown A) : M S A := fun s => (o, s).

Declare Scope cpp_scope.
Delimit Scope cpp_scope with cpp.
Notation "x <- c ;; k" := (bind c (fun x => k))
  (at level 100, c at next level, right associativity) : cpp_scope.
Notation "c ;;; k" := (bind c (fun _ => k))
  (at level 100, right associativity) : cpp_scope.

(** [v[i]] and [v[i] = x] on a [std::vector]: defined inside the vector only. *)
Definition vector_at {S A} (container : string) (v : list A) (i : Z) : M S A :=
  if (0 <=? i)%Z then
    match v !! Z.to_nat i with
    | Some x => ret x
    | None => throw (undefined_behaviour container i)
    end
  else throw (undefined_behaviour container i).

Definition vector_set {S A} (container : string) (v : list A) (i : Z) (x : A)
    : M S (list A) :=
  if ((0 <=? i) && (i <? Z.of_nat (length v)))%Z
  then ret (<[Z.to_nat i := x]> v)
  else throw (undefined_behaviour container i).

(** [v.back()] *)
Definition vector_back {S A} (container : string) (v : list A) : M S A :=
  match last v with
  | Some x => ret x
  | None => throw (undefined_behaviour container (-1))
  end.

Definition size {A} (v : list A) : Z := Z.of_nat (length v).

End Native.

(** ** The two script engines, as far as the bridge drives them *)

Module JsValues.
Import Native.

(** Property tables list every property reachable from the object, own
    or inherited. *)
Definition properties (v : JSValue) : option (list (string * JSValue)) :=
  match v with
  | JSFunction _ ps | JSObject ps => Some ps
  | JSArray _ => Some []
  | _ => None
  end.

Fixpoint lookup_property (key : string) (ps : list (string * JSValue)) : option JSValue :=
  match ps with
  | [] => None
  | (k, v) :: rest => if String.eqb k key then Some v else lookup_property key rest
  end.

Definition is_object (v : JSValue) : bool :=
  match v with
  | JSFunction _ _ | JSObject _ | JSArray _ => true
  | _ => false
  end.

Definition is_null (v : JSValue) : bool :=
  match v with JSNull => true | _ => false end.

Definition is_undefined (v : JSValue) : bool :=
  match v with JSUndefined => true | _ => false end.

Definition is_callable (v : JSValue) : bool :=
  match v with JSFunction _ _ => true | _ => false end.

Definition has_property (v : JSValue) (key : string) : bool :=
  match properties v with
  | Some ps => bool_decide (is_Some (lookup_property key ps))
  | None => false
  end.

(** [obj[key]] of an object value; [undefined] when there is none. *)
Definition get_property (v : JSValue) (key : string) : JSValue :=
  match properties v with
  | Some ps => default JSUndefined (lookup_property key ps)
  | None => JSUndefined
  end.

(** What calling a script function does is the engine's business: it
    returns a value or throws a script error. *)
Definition CallSemantics : Type :=
  JSValue -> JSValue -> list JSValue -> Outcome JSValue JSValue.

End JsValues.

Module Duktape.
Import Native JsValues.
Local Open Scope Z_scope.
Local Open Scope cpp_scope.

(** The value stack of the current activation, bottom first (index 0),
    and the warnings logged so far. *)
Record Context : Type := mkContext {
  stack : list JSValue;
  log : list LogEntry
}.

Definition Duk : Type -> Type := M Context.

(** Errors thrown by the Duktape API itself are not [std::exception]s. *)
Definition duk_error {A} (what : string) : Duk A :=
  throw (duk_internal_exception what).

Definition alog_warn (e : LogEntry) : Duk unit :=
  fun ctx => (Returns (), mkContext (stack ctx) (log ctx ++ [e])).

Definition duk_get_top : Duk Z :=
  fun ctx => (Returns (size (stack ctx)), ctx).

Definition set_stack (st : list JSValue) : Duk unit :=
  fun ctx => (Returns (), mkContext st (log ctx)).

Definition get_stack : Duk (list JSValue) :=
  fun ctx => (Returns (stack ctx), ctx).

Definition duk_push (v : JSValue) : Duk unit :=
  st <- get_stack ;; set_stack (st ++ [v]).

(** [duk_pop_n]: throws when fewer than [n] values are on the stack. *)
Definition duk_pop_n (n : Z) : Duk unit :=
  st <- get_stack ;;
  if (0 <=? n) && (n <=? size st)
  then set_stack (take (length st - Z.to_nat n) st)
  else duk_error "invalid count".

Definition duk_pop : Duk unit := duk_pop_n 1.
Definition duk_pop_2 : Duk unit := duk_pop_n 2.

(** [duk_normalize_index]: a negative index counts from the top. *)
Definition normalize (st : list JSValue) (idx : Z) : option nat :=
  let i := if idx <? 0 then size st + idx else idx in
  if (0 <=? i) && (i <? size st) then Some (Z.to_nat i) else None.

Definition value_at (st : list JSValue) (idx : Z) : option JSValue :=
  normalize st idx ≫= λ i, st !! i.

Definition duk_normalize_index (idx : Z) : Duk Z :=
  st <- get_stack ;;
  match normalize st idx with
  | Some i => ret (Z.of_nat i)
  | None => duk_error "invalid stack index"
  end.

Definition duk_require_value (idx : Z) : Duk JSValue :=
  st <- get_stack ;;
  match value_at st idx with
  | Some v => ret v
  | None => duk_error "invalid stack index"
  end.

(** Type tests answer [false] at an invalid index. *)
Definition duk_test (f : JSValue -> bool) (idx : Z) : Duk bool :=
  st <- get_stack ;;
  ret (match value_at st idx with Some v => f v | None => false end).

Definition duk_is_object : Z -> Duk bool := duk_test is_object.
Definition duk_is_null : Z -> Duk bool := duk_test is_null.
Definition duk_is_callable : Z -> Duk bool := duk_test is_callable.

Definition duk_require_function (idx : Z) : Duk unit :=
  b <- duk_is_callable idx ;;
  if b then ret () else duk_error "function required".

Definition duk_require_object (idx : Z) : Duk unit :=
  b <- duk_is_object idx ;;
  if b then ret () else duk_error "object required".

(** [duk_has_prop_string] *)
Definition duk_has_prop_string (idx : Z) (key : string) : Duk bool :=
  v <- duk_require_value idx ;;
  if is_object v then ret (has_property v key) else duk_error "object required".

(** [duk_get_prop_string]: pushes the property value ([undefined] if
    there is none) and tells whether the property exists. *)
Definition duk_get_prop_string (idx : Z) (key : string) : Duk bool :=
  v <- duk_require_value idx ;;
  if is_undefined v || is_null v then duk_error "not object coercible"
  else duk_push (get_property v key) ;;; ret (has_property v key).

(** [duk_push_heapptr] / [duk_get_heapptr]: a heap pointer is
    represented by the value it points to. *)
Definition duk_push_heapptr (ptr : JSValue) : Duk unit := duk_push ptr.
Definition duk_get_heapptr (idx : Z) : Duk JSValue := duk_require_value idx.

Definition duk_push_string (s : string) : Duk unit := duk_push (JSString s).

(** [duk_remove] *)
Definition duk_remove (idx : Z) : Duk unit :=
  st <- get_stack ;;
  match normalize st idx with
  | Some i => set_stack (delete i st)
  | None => duk_error "invalid stack index"
  end.

Definition DUK_EXEC_SUCCESS : Z := 0.
Definition DUK_EXEC_ERROR : Z := 1.

(** Replace the top [n] values by the result (or the error) of a call. *)
Definition finish_call (n : nat) (r : Outcome JSValue JSValue) : Duk Z :=
  st <- get_stack ;;
  let rest := take (length st - n) st in
  match r with
  | Returns v => set_stack (rest ++ [v]) ;;; ret DUK_EXEC_SUCCESS
  | Throws err => set_stack (rest ++ [err]) ;;; ret DUK_EXEC_ERROR
  end.

(** [duk_pcall]:  [... func arg1 ... argN] -> [... retval] *)
Definition duk_pcall (call : CallSemantics) (nargs : Z) : Duk Z :=
  st <- get_stack ;;
  if (0 <=? nargs) && (nargs + 1 <=? size st) then
    let n := Z.to_nat nargs in
    let args := drop (length st - n) st in
    match st !! (length st - n - 1)%nat with
    | Some func => finish_call (S n) (call func JSUndefined args)
    | None => duk_error "invalid call args"
    end
  else duk_error "invalid call args".

(** [duk_pcall_prop]:  [... obj ... key arg1 ... argN] -> [... obj ... retval] *)
Definition duk_pcall_prop (call : CallSemantics) (obj_idx : Z) (nargs : Z) : Duk Z :=
  st <- get_stack ;;
  if (0 <=? nargs) && (nargs + 1 <=? size st) then
    let n := Z.to_nat nargs in
    let args := drop (length st - n) st in
    match value_at st obj_idx, st !! (length st - n - 1)%nat with
    | Some obj, Some (JSString key) =>
        finish_call (S n) (call (get_property obj key) obj args)
    | _, _ => duk_error "invalid call args"
    end
  else duk_error "invalid call args".

(** The abstract class [JavaType], Duktape flavour.  Its subclasses are
    the marshallers; every operation works on the value stack. *)
Record JavaType : Type := mkJavaType {
  pop : Duk JValue;
  popArray : Z -> bool -> Duk JValue;
  push : JValue -> Duk Z;
  pushArray : JValue -> bool -> Duk Z;
  isDeferred : bool
}.

End Duktape.

Module QuickJs.
Import Native JsValues.
Local Open Scope Z_scope.
Local Open Scope cpp_scope.

(** What the bridge does to the engine and to the log, in order. *)
Inductive Event : Type :=
| Logged (e : LogEntry)
| Dup (v : JSValue)
| Free (v : JSValue).

Definition Qjs : Type -> Type := M (list Event).

Definition emit (e : Event) : Qjs unit := fun tr => (Returns (), tr ++ [e]).

Definition alog_warn (e : LogEntry) : Qjs unit := emit (Logged e).
Definition JS_FreeValue (v : JSValue) : Qjs unit := emit (Free v).
Definition JS_DupValue (v : JSValue) : Qjs JSValue := emit (Dup v) ;;; ret v.

(** [JS_AUTORELEASE_VALUE(ctx, v)]: [v] is freed when the scope is left,
    by a return or by an exception. *)
Definition autorelease {A} (v : JSValue) (scope : Qjs A) : Qjs A :=
  fun tr => let '(r, tr') := scope tr in (r, tr' ++ [Free v]).

Definition JS_NewArray : JSValue := JSArray [].

(** [JS_SetPropertyUint32] on an array *)
Definition JS_SetPropertyUint32 (this : JSValue) (idx : Z) (v : JSValue) : JSValue :=
  match this with
  | JSArray els =>
      let i := Z.to_nat idx in
      JSArray (<[i := v]> (els ++ replicate (S i - length els) JSUndefined))
  | other => other
  end.

(** [JS_GetPropertyUint32] *)
Definition JS_GetPropertyUint32 (this : JSValue) (idx : Z) : JSValue :=
  match this with
  | JSArray els => default JSUndefined (els !! Z.to_nat idx)
  | _ => JSUndefined
  end.

Definition JS_IsException (v : JSValue) : bool :=
  match v with JSException => true | _ => false end.

(** [JS_Call]: a script error shows as [JS_EXCEPTION]. *)
Definition JS_Call (call : CallSemantics) (func this : JSValue) (args : list JSValue)
    : JSValue :=
  match call func this args with
  | Returns v => v
  | Throws _ => JSException
  end.

(** The abstract class [JavaType], QuickJS flavour: conversions between
    values, each of which may throw. *)
Record JavaType : Type := mkJavaType {
  toJava : JSValue -> Outcome Thrown JValue;
  toJavaArray : JSValue -> Outcome Thrown JValue;
  fromJava : JValue -> Outcome Thrown JSValue;
  fromJavaArray : JValue -> Outcome Thrown JSValue;
  isDeferred : bool
}.

End QuickJs.

(** ** JavaMethod.cpp: a Java method (or lambda) called from JavaScript *)

Module JavaMethod.
Import Native JsValues.
Local Open Scope Z_scope.
Local Open Scope cpp_scope.

(** [class JavaMethod].  [T] is the engine's [JavaType] and [Body] the
    type of the computation that [m_methodBody] runs. *)
Record JavaMethod (T Body : Type) : Type := mkJavaMethod {
  m_methodName : string;
  m_isLambda : bool;
  m_isVarArgs : bool;
  m_argumentTypes : list T;
  m_returnValueType : T;
  m_methodBody : JValue -> list JValue -> Body
}.
Arguments mkJavaMethod {T Body}.
Arguments m_methodName {T Body}.
Arguments m_isLambda {T Body}.
Arguments m_isVarArgs {T Body}.
Arguments m_argumentTypes {T Body}.
Arguments m_returnValueType {T Body}.
Arguments m_methodBody {T Body}.

(** The [what()] of the exception for too many arguments. *)
Definition tooManyParameters (methodName : string) (minArgs argCount : Z) : string :=
  "Too many parameters when calling Java method " +:+ methodName
  +:+ " (expected: " +:+ to_string minArgs
  +:+ ", received: " +:+ to_string argCount +:+ ")".

(** *** [#if defined(DUKTAPE)] *)
Module Duk.
Import Duktape.

Abbreviation Method := (JavaMethod JavaType (Duk Z)).

(** [minArgs], of type [size_t] *)
Definition minArgs (m : Method) : Z :=
  if m_isVarArgs m
  then to_size_t (size (m_argumentTypes m) - 1)
  else size (m_argumentTypes m).

(** The loop [for (ssize_t i = minArgs - 1; i >= 0; --i)]: [loadArguments n]
    runs its iterations [i = n - 1, ..., 0]. *)
Fixpoint loadArguments (m : Method) (n : nat) (argCount : Z) (args : list JValue)
    : Duk (list JValue) :=
  match n with
  | O => ret args
  | S n' =>
      let i := Z.of_nat n' in
      argumentType <- vector_at "m_argumentTypes" (m_argumentTypes m) i ;;
      value <- (if i >=? argCount
                then ret JNull
                else pop argumentType) ;;
      args' <- vector_set "args" args i value ;;
      loadArguments m n' argCount args'
  end.

(** [duk_ret_t JavaMethod::invoke(const JsBridgeContext *, const JniRef<jobject> &javaThis) const].
    [argCount] is an [int] and [minArgs] a [size_t]: comparing them and
    subtracting one from the other is done in [size_t].  [popArray]
    receives the [size_t] value of [argCount - minArgs]; the conversion
    to its parameter type belongs to the declaration of [JavaType]. *)
Definition invoke (m : Method) (javaThis : JValue) : Duk Z :=
  argCount <- duk_get_top ;;
  let minArgs := minArgs m in
  (if to_size_t argCount <? minArgs
   then alog_warn (NotEnoughParameters (m_methodName m) minArgs argCount)
   else ret ()) ;;;
  if negb (m_isVarArgs m) && (to_size_t argCount >? minArgs) then
    throw (std_invalid_argument (tooManyParameters (m_methodName m) minArgs argCount))
  else
    let args := replicate (length (m_argumentTypes m)) JNull in
    args <- (if m_isVarArgs m then
               argumentType <- vector_back "m_argumentTypes" (m_argumentTypes m) ;;
               array <- popArray argumentType (to_size_t (argCount - minArgs)) true ;;
               vector_set "args" args (to_size_t (size args - 1)) array
             else ret args) ;;
    args <- loadArguments m (Z.to_nat (to_ssize_t (to_size_t (minArgs - 1)) + 1))
                          argCount args ;;
    m_methodBody m javaThis args.

End Duk.

(** *** [#elif defined(QUICKJS)] *)
Module Qjs.
Import QuickJs.

Abbreviation Method := (JavaMethod JavaType (Qjs JSValue)).

(** [minArgs], of type [int] *)
Definition minArgs (m : Method) : Z :=
  to_int (if m_isVarArgs m
          then to_size_t (size (m_argumentTypes m) - 1)
          else size (m_argumentTypes m)).

(** [argv[i]] *)
Definition argv_at (argv : list JSValue) (i : Z) : Qjs JSValue :=
  vector_at "argv" argv i.

(** The loop [for (int i = 0; i < minArgs; ++i)]: [loadArguments n i]
    runs the [n] iterations that start at [i]. *)
Fixpoint loadArguments (m : Method) (n : nat) (i : Z) (argv : list JSValue)
    (args : list JValue) : Qjs (list JValue) :=
  match n with
  | O => ret args
  | S n' =>
      argumentType <- vector_at "m_argumentTypes" (m_argumentTypes m) i ;;
      value <- (if i >=? size argv
                then ret JNull
                else v <- argv_at argv i ;; lift (toJava argumentType v)) ;;
      args' <- vector_set "args" args i value ;;
      loadArguments m n' (i + 1) argv args'
  end.

(** The loop [for (int i = 0; i < varArgCount; ++i)] *)
Fixpoint fillVarArgs (n : nat) (i : Z) (argv : list JSValue) (minArgs : Z)
    (varArgArray : JSValue) : Qjs JSValue :=
  match n with
  | O => ret varArgArray
  | S n' =>
      v <- argv_at argv (minArgs + i) ;;
      d <- JS_DupValue v ;;
      fillVarArgs n' (i + 1) argv minArgs (JS_SetPropertyUint32 varArgArray i d)
  end.

(** [JSValue JavaMethod::invoke(const JsBridgeContext *, const JniRef<jobject> &javaThis, int argc, JSValueConst *argv) const].
    [argc] is the length of [argv]. *)
Definition invoke (m : Method) (javaThis : JValue) (argv : list JSValue) : Qjs JSValue :=
  let argc := size argv in
  let minArgs := minArgs m in
  (if argc <? minArgs
   then alog_warn (NotEnoughParameters (m_methodName m) minArgs argc)
   else ret ()) ;;;
  if negb (m_isVarArgs m) && (argc >? minArgs) then
    throw (std_invalid_argument (tooManyParameters (m_methodName m) minArgs argc))
  else
    let args := replicate (length (m_argumentTypes m)) JNull in
    args <- loadArguments m (Z.to_nat minArgs) 0 argv args ;;
    args <- (if m_isVarArgs m then
               argumentType <- vector_back "m_argumentTypes" (m_argumentTypes m) ;;
               let varArgCount := argc - minArgs in
               varArgArray <- fillVarArgs (Z.to_nat varArgCount) 0 argv minArgs JS_NewArray ;;
               array <- lift (toJavaArray argumentType varArgArray) ;;
               args' <- vector_set "args" args (to_size_t (size args - 1)) array ;;
               JS_FreeValue varArgArray ;;;
               ret args'
             else ret args) ;;
    m_methodBody m javaThis args.

End Qjs.

End JavaMethod.

(** ** JavaScriptMethod.cpp: a JavaScript function called from Java *)

Module JavaScriptMethod.
Import Native JsValues.
Import Reflection(JsBridgeParameter).
Local Open Scope Z_scope.
Local Open Scope cpp_scope.

(** [MethodInterface]: what the JNI cache answers about a [jsBridgeMethod]. *)
Record MethodInterface : Type := mkMethodInterface {
  getName : string;
  isVarArgs : bool;
  getParameters : list JsBridgeParameter;
  getReturnParameter : JsBridgeParameter;
  getJavaMethod : Z
}.

(** [class JavaScriptMethod]; [T] is the engine's [JavaType]. *)
Record JavaScriptMethod (T : Type) : Type := mkJavaScriptMethod {
  m_methodName : string;
  m_returnValueType : T;
  m_returnValueParameter : JsBridgeParameter;
  m_argumentTypes : list T;
  m_isLambda : bool;
  m_isVarArgs : bool
}.
Arguments mkJavaScriptMethod {T}.
Arguments m_methodName {T}.
Arguments m_returnValueType {T}.
Arguments m_returnValueParameter {T}.
Arguments m_argumentTypes {T}.
Arguments m_isLambda {T}.
Arguments m_isVarArgs {T}.

(** [JObjectArrayLocalRef]: a null reference or a Java object array. *)
Definition JObjectArray : Type := option (list JValue).

(** [args.isNull() ? 0 : args.getLength()] *)
Definition numberOfArguments (args : JObjectArray) : Z :=
  match args with
  | None => 0
  | Some l => size l
  end.

(** [JObjectArrayLocalRef::getElement].  The run stops at an access
    outside the array, or to a null array, and tells the index. *)
Definition getElement {S} (args : JObjectArray) (i : Z) : M S JValue :=
  match args with
  | Some l => vector_at "JObjectArrayLocalRef" l i
  | None => throw (undefined_behaviour "JObjectArrayLocalRef" i)
  end.

(** [JniContext::getArrayLength] *)
Definition getArrayLength {S} (array : JValue) : M S Z :=
  match array with
  | JArray elements => ret (size elements)
  | _ => throw (undefined_behaviour "GetArrayLength" 0)
  end.

(** *** The constructor *)
Section Constructor.

Context {T : Type}.

(** [JavaTypeProvider::makeUniqueType(parameter, boxed)]; the parameter
    reference may be null. *)
Variable makeUniqueType : option JsBridgeParameter -> bool -> Outcome Thrown T.

(** [ParameterInterface::getGenericParameter] *)
Variable getGenericParameter : JsBridgeParameter -> option JsBridgeParameter.

(** The loop [for (jsize i = 0; i < numParameters; ++i)] that creates the
    [JavaType] instances.  [parameters] are the elements from index [i]
    on, and [m_argumentTypes] holds the entries assigned so far, which
    are those of the indices below [i]. *)
Fixpoint createJavaTypes (m_isVarArgs : bool) (numParameters : Z) (i : Z)
    (parameters : list JsBridgeParameter) (m_argumentTypes : list T)
    : Outcome Thrown (list T) :=
  match parameters with
  | [] => Returns m_argumentTypes
  | parameter :: rest =>
      if m_isVarArgs && (to_size_t i =? to_size_t (numParameters - 1)) then
        let varArgParameter := getGenericParameter parameter in
        obind (makeUniqueType varArgParameter false (*boxed*)) (fun javaType =>
        Returns (m_argumentTypes ++ [javaType]))
      else
        obind (makeUniqueType (Some parameter) true (*boxed*)) (fun javaType =>
        createJavaTypes m_isVarArgs numParameters (i + 1) rest
                        (m_argumentTypes ++ [javaType]))
  end.

(** [JavaScriptMethod::JavaScriptMethod(const JsBridgeContext *, const JniRef<jsBridgeMethod> &method, std::string methodName, bool isLambda)] *)
Definition new_JavaScriptMethod (methodInterface : MethodInterface)
    (methodName : string) (isLambda : bool) : Outcome Thrown (JavaScriptMethod T) :=
  let m_isVarArgs := isVarArgs methodInterface in
  let returnParameter := getReturnParameter methodInterface in
  obind (makeUniqueType (Some returnParameter) true (*boxed*)) (fun m_returnValueType =>
  let parameters := getParameters methodInterface in
  let numParameters := size parameters in
  obind (createJavaTypes m_isVarArgs numParameters 0 parameters []) (fun m_argumentTypes =>
  Returns (mkJavaScriptMethod methodName m_returnValueType returnParameter
                              m_argumentTypes isLambda m_isVarArgs))).

End Constructor.

(** *** [#if defined(DUKTAPE)] *)
Module Duk.
Import Duktape.

Abbreviation Method := (JavaScriptMethod JavaType).

Section Invoke.

(** The engine's call semantics, [JavaTypeProvider::getDeferredType] and
    [ExceptionHandler::getCurrentJsException]. *)
Variable call : CallSemantics.
Variable getDeferredType : JsBridgeParameter -> JavaType.
Variable getCurrentJsException : Duk Thrown.

(** The loop [for (jsize i = 0; i < numArguments; ++i)]: [pushArguments n i]
    runs at most [n] iterations from index [i] on and returns the final
    [numArguments]. *)
Fixpoint pushArguments (m : Method) (n : nat) (i : Z) (numArguments : Z)
    (args : JObjectArray) : Duk Z :=
  match n with
  | O => ret numArguments
  | S n' =>
      arg <- getElement args i ;;
      argumentType <- vector_at "m_argumentTypes" (m_argumentTypes m) i ;;
      step <- try_catch
                (if m_isVarArgs m && (i =? numArguments - 1) then
                   pushed <- pushArray argumentType arg true (*expand*) ;;
                   ret (Some (i + pushed))
                 else
                   push argumentType arg ;;; ret None)
                is_std_exception
                (fun e =>
                   duk_pop_n ((if m_isLambda m then 1 else 2) + i) ;;;
                   throw e) ;;
      match step with
      | Some numArguments' => ret numArguments'
      | None => pushArguments m n' (i + 1) numArguments args
      end
  end.

(** The branch [if (ret == DUK_EXEC_SUCCESS)] *)
Definition popResult (m : Method) (awaitJsPromise : bool) : Duk JValue :=
  isDeferred <- (if awaitJsPromise then
                   isObject <- duk_is_object (-1) ;;
                   if isObject then duk_has_prop_string (-1) "then" else ret false
                 else ret false) ;;
  if isDeferred && negb (Duktape.isDeferred (m_returnValueType m)) then
    pop (getDeferredType (m_returnValueParameter m))
  else
    pop (m_returnValueType m).

(** The set-up of the call: the object or function is pushed and checked,
    and for a method the key follows.  Returns [jsLambdaOrObjectIdx].
    ([CHECK_STACK] only asserts, in debug builds, that the stack is
    balanced when the scope is left; it is not part of the model.) *)
Definition pushTarget (m : Method) (jsHeapPtr : JSValue) : Duk Z :=
  duk_push_heapptr jsHeapPtr ;;;
  jsLambdaOrObjectIdx <- duk_normalize_index (-1) ;;
  (if m_isLambda m then
     duk_require_function jsLambdaOrObjectIdx
   else
     duk_require_object jsLambdaOrObjectIdx ;;;
     duk_push_string (m_methodName m)) ;;;
  ret jsLambdaOrObjectIdx.

(** The call itself; returns [ret]. *)
Definition callTarget (m : Method) (jsLambdaOrObjectIdx numArguments : Z) : Duk Z :=
  if m_isLambda m then
    duk_pcall call numArguments
  else
    r <- duk_pcall_prop call jsLambdaOrObjectIdx numArguments ;;
    duk_remove jsLambdaOrObjectIdx ;;;
    ret r.

(** [invoke] up to and including the call. *)
Definition performCall (m : Method) (jsHeapPtr : JSValue) (args : JObjectArray) : Duk Z :=
  jsLambdaOrObjectIdx <- pushTarget m jsHeapPtr ;;
  let numArguments := numberOfArguments args in
  numArguments <- pushArguments m (Z.to_nat numArguments) 0 numArguments args ;;
  callTarget m jsLambdaOrObjectIdx numArguments.

(** [JValue JavaScriptMethod::invoke(const JsBridgeContext *, void *jsHeapPtr, const JObjectArrayLocalRef &args, bool awaitJsPromise) const] *)
Definition invoke (m : Method) (jsHeapPtr : JSValue) (args : JObjectArray)
    (awaitJsPromise : bool) : Duk JValue :=
  ret <- performCall m jsHeapPtr args ;;
  if ret =? DUK_EXEC_SUCCESS then
    try_catch (popResult m awaitJsPromise) is_std_exception (fun e => throw e)
  else
    e <- getCurrentJsException ;;
    throw e.

End Invoke.
End Duk.

(** *** [#elif defined(QUICKJS)] *)
Module Qjs.
Import QuickJs.

Abbreviation Method := (JavaScriptMethod JavaType).

Section Invoke.

Variable call : CallSemantics.
Variable getDeferredType : JsBridgeParameter -> JavaType.
Variable getCurrentJsException : Qjs Thrown.

(** The inner loop [for (int j = 0; j < varArgCount; ++j, ++i)] *)
Fixpoint expandVarArgs (n : nat) (j i : Z) (varArgJsArray : JSValue)
    (jsArgs : list JSValue) : Qjs (list JSValue) :=
  match n with
  | O => ret jsArgs
  | S n' =>
      let elementJsValue := JS_GetPropertyUint32 varArgJsArray j in
      jsArgs' <- vector_set "jsArgs" jsArgs i elementJsValue ;;
      expandVarArgs n' (j + 1) (i + 1) varArgJsArray jsArgs'
  end.

(** The loops [for (... j = 0; j < n; ++j) JS_FreeValue(ctx, jsArgs[j])];
    [freeArgs n j] runs the [n] iterations that start at [j]. *)
Fixpoint freeArgs (n : nat) (j : Z) (jsArgs : list JSValue) : Qjs unit :=
  match n with
  | O => ret ()
  | S n' =>
      v <- vector_at "jsArgs" jsArgs j ;;
      JS_FreeValue v ;;;
      freeArgs n' (j + 1) jsArgs
  end.

(** The loop [for (jsize i = 0; i < numJsArguments; ++i)]: [convertArguments n i]
    runs at most [n] iterations from index [i] on. *)
Fixpoint convertArguments (m : Method) (n : nat) (i : Z) (numJavaArguments : Z)
    (varArgJavaArray : JValue) (varArgCount : Z) (javaArgs : JObjectArray)
    (jsArgs : list JSValue) : Qjs (list JSValue) :=
  match n with
  | O => ret jsArgs
  | S n' =>
      javaArg <- getElement javaArgs i ;;
      argumentType <- vector_at "m_argumentTypes" (m_argumentTypes m) i ;;
      step <- try_catch
                (if m_isVarArgs m && (i >=? numJavaArguments - 1) then
                   varArgJsArray <- lift (fromJavaArray argumentType varArgJavaArray) ;;
                   jsArgs' <- expandVarArgs (Z.to_nat varArgCount) 0 i varArgJsArray jsArgs ;;
                   JS_FreeValue varArgJsArray ;;;
                   ret (inl jsArgs')
                 else
                   v <- lift (fromJava argumentType javaArg) ;;
                   jsArgs' <- vector_set "jsArgs" jsArgs i v ;;
                   ret (inr jsArgs'))
                is_std_exception
                (fun e =>
                   freeArgs (Z.to_nat i) 0 jsArgs ;;;
                   throw e) ;;
      match step with
      | inl jsArgs' => ret jsArgs'
      | inr jsArgs' =>
          convertArguments m n' (i + 1) numJavaArguments varArgJavaArray
                           varArgCount javaArgs jsArgs'
      end
  end.

(** What follows the call: the result [ret] of [JS_Call] is marshalled. *)
Definition convertResult (m : Method) (awaitJsPromise : bool) (ret : JSValue)
    : Qjs JValue :=
  if JS_IsException ret then
    e <- getCurrentJsException ;;
    throw e
  else
    let isDeferred := awaitJsPromise && is_object ret && has_property ret "then" in
    if isDeferred && negb (QuickJs.isDeferred (m_returnValueType m)) then
      lift (toJava (getDeferredType (m_returnValueParameter m)) ret)
    else
      lift (toJava (m_returnValueType m) ret).

(** The block [if (m_isVarArgs) { ... }] at the start: returns
    [varArgJavaArray], [varArgCount] and [numJsArguments]. *)
Definition readVarArgs (m : Method) (javaArgs : JObjectArray) : Qjs (JValue * Z * Z) :=
  let numJavaArguments := numberOfArguments javaArgs in
  if m_isVarArgs m then
    varArgJavaArray <- getElement javaArgs (numJavaArguments - 1) ;;
    varArgCount <- getArrayLength varArgJavaArray ;;
    ret (varArgJavaArray, varArgCount, numJavaArguments + (varArgCount - 1))
  else ret (JNull, 0, numJavaArguments).

(** [invoke] up to the call: returns [numJsArguments] and [jsArgs]. *)
Definition marshalArguments (m : Method) (javaArgs : JObjectArray)
    : Qjs (Z * list JSValue) :=
  let numJavaArguments := numberOfArguments javaArgs in
  varArgs <- readVarArgs m javaArgs ;;
  let '(varArgJavaArray, varArgCount, numJsArguments) := varArgs in
  let jsArgs := replicate (Z.to_nat numJsArguments) JSUndefined in
  jsArgs <- convertArguments m (Z.to_nat numJsArguments) 0 numJavaArguments
                             varArgJavaArray varArgCount javaArgs jsArgs ;;
  ret (numJsArguments, jsArgs).

(** [JValue JavaScriptMethod::invoke(const JsBridgeContext *, JSValueConst jsMethod, JSValueConst jsThis, const JObjectArrayLocalRef &javaArgs, bool awaitJsPromise) const] *)
Definition invoke (m : Method) (jsMethod jsThis : JSValue) (javaArgs : JObjectArray)
    (awaitJsPromise : bool) : Qjs JValue :=
  marshalled <- marshalArguments m javaArgs ;;
  let '(numJsArguments, jsArgs) := marshalled in
  let ret := JS_Call call jsMethod jsThis jsArgs in
  autorelease ret (
    freeArgs (Z.to_nat numJsArguments) 0 jsArgs ;;;
    convertResult m awaitJsPromise ret).

End Invoke.
End Qjs.

End JavaScriptMethod.

(** ** JavaScriptObject.cpp: a JavaScript object proxied to Java *)

Module JavaScriptObject.
Import Native JsValues.
Import Reflection(JsBridgeParameter).
Import JavaScriptMethod(MethodInterface, getName, getJavaMethod, JavaScriptMethod,
                        new_JavaScriptMethod).
Local Open Scope Z_scope.
Local Open Scope cpp_scope.

(** The double-quote character *)
Definition quote : string := String (Ascii.ascii_of_nat 34) EmptyString.

(** A [std::string] after [std::move] took its content. *)
Definition moved_from : string := EmptyString.

(** [std::unordered_map::emplace]: an existing entry is kept. *)
Definition emplace {V} (k : Z) (v : V) (m : gmap Z V) : gmap Z V :=
  match m !! k with
  | Some _ => m
  | None => <[k := v]> m
  end.

(** [JniContext::fromReflectedMethod]: a [jmethodID] is represented by
    the number that identifies the reflected method. *)
Definition fromReflectedMethod (javaMethod : Z) : Z := javaMethod.

(** [class JavaScriptObject] *)
Record JavaScriptObject (T : Type) : Type := mkJavaScriptObject {
  m_name : string;
  m_jsHeapPtr : JSValue;
  m_methods : gmap Z (JavaScriptMethod T)
}.
Arguments mkJavaScriptObject {T}.
Arguments m_name {T}.
Arguments m_jsHeapPtr {T}.
Arguments m_methods {T}.

Definition noMethodCalled (m_name strMethodName : string) : string :=
  "JS global " +:+ m_name +:+ " has no method called " +:+ strMethodName.

Definition inProxiedMethod (m_name strMethodName : string) (e : Thrown) : string :=
  "In proxied method " +:+ quote +:+ m_name +:+ "." +:+ strMethodName +:+ quote
  +:+ ": " +:+ what e.

(** *** [#if defined(DUKTAPE)] *)
Module Duk.
Import Duktape.

Section Constructor.

Variable makeUniqueType : option JsBridgeParameter -> bool -> Outcome Thrown JavaType.
Variable getGenericParameter : JsBridgeParameter -> option JsBridgeParameter.

Definition notCallable (m_name strMethodName : string) : string :=
  "JS property " +:+ m_name +:+ "." +:+ strMethodName +:+ " not callable".

(** The block [if (check) { ... }] *)
Definition checkMethod (m_name strMethodName : string) : Duk unit :=
  found <- duk_get_prop_string (-1) strMethodName ;;
  if negb found then
    duk_pop_2 ;;;
    throw (std_invalid_argument (noMethodCalled m_name strMethodName))
  else
    callable <- duk_is_callable (-1) ;;
    if negb callable then
      duk_pop_2 ;;;
      throw (std_invalid_argument (notCallable m_name strMethodName))
    else
      duk_pop.

(** The loop [for (jsize i = 0; i < numMethods; ++i)] over the elements
    of [methods]. *)
Fixpoint addMethods (m_name : string) (check : bool) (methods : list MethodInterface)
    (m_methods : gmap Z (JavaScriptMethod JavaType))
    : Duk (gmap Z (JavaScriptMethod JavaType)) :=
  match methods with
  | [] => ret m_methods
  | methodInterface :: rest =>
      let strMethodName := getName methodInterface in
      (if check then checkMethod m_name strMethodName else ret ()) ;;;
      m_methods' <-
        try_catch
          (let javaMethod := getJavaMethod methodInterface in
           let methodId := fromReflectedMethod javaMethod in
           jsMethod <- lift (new_JavaScriptMethod makeUniqueType getGenericParameter
                                                  methodInterface strMethodName false) ;;
           ret (emplace methodId jsMethod m_methods))
          is_std_invalid_argument
          (fun e =>
             duk_pop ;;;
             throw (std_invalid_argument (inProxiedMethod m_name strMethodName e))) ;;
      addMethods m_name check rest m_methods'
  end.

(** [JavaScriptObject::JavaScriptObject(const JsBridgeContext *, std::string strName, duk_idx_t jsObjectIndex, const JObjectArrayLocalRef &methods, bool check)] *)
Definition new_JavaScriptObject (strName : string) (jsObjectIndex : Z)
    (methods : list MethodInterface) (check : bool)
    : Duk (JavaScriptObject JavaType) :=
  let m_name := strName in
  isObject <- duk_is_object jsObjectIndex ;;
  isNull <- (if isObject then duk_is_null jsObjectIndex else ret false) ;;
  if negb isObject || isNull then
    throw (std_invalid_argument ("JavaScript object " +:+ m_name +:+ " cannot be accessed"))
  else
    hasThen <- duk_has_prop_string jsObjectIndex "then" ;;
    (if hasThen then alog_warn RegisteringPromise else ret ()) ;;;
    m_jsHeapPtr <- duk_get_heapptr jsObjectIndex ;;
    duk_push_heapptr m_jsHeapPtr ;;;
    m_methods <- addMethods m_name check methods ∅ ;;
    duk_pop ;;;
    ret (mkJavaScriptObject m_name m_jsHeapPtr m_methods).

End Constructor.
End Duk.

(** *** [#elif defined(QUICKJS)] *)
Module Qjs.
Import QuickJs.

Section Constructor.

Variable makeUniqueType : option JsBridgeParameter -> bool -> Outcome Thrown JavaType.
Variable getGenericParameter : JsBridgeParameter -> option JsBridgeParameter.

Definition notFunction (m_name strMethodName : string) : string :=
  "JS property " +:+ m_name +:+ "." +:+ strMethodName +:+ " is not function".

(** The block [if (check) { ... }] *)
Definition checkMethod (m_name strMethodName : string) (jsObjectValue : JSValue)
    : Qjs unit :=
  let methodValue := get_property jsObjectValue strMethodName in
  autorelease methodValue (
    if is_undefined methodValue then
      throw (std_invalid_argument (noMethodCalled m_name strMethodName))
    else if negb (is_callable methodValue) then
      throw (std_invalid_argument (notFunction m_name strMethodName))
    else ret ()).

(** The loop [for (jsize i = 0; i < numMethods; ++i)] over the elements
    of [methods].  The handler's [m_methods.clear()] empties a map that
    is lost with the exception. *)
Fixpoint addMethods (m_name : string) (jsObjectValue : JSValue) (check : bool)
    (methods : list MethodInterface) (m_methods : gmap Z (JavaScriptMethod JavaType))
    : Qjs (gmap Z (JavaScriptMethod JavaType)) :=
  match methods with
  | [] => ret m_methods
  | methodInterface :: rest =>
      let strMethodName := getName methodInterface in
      (if check then checkMethod m_name strMethodName jsObjectValue else ret ()) ;;;
      m_methods' <-
        try_catch
          (let javaMethod := getJavaMethod methodInterface in
           let methodId := fromReflectedMethod javaMethod in
           jsMethod <- lift (new_JavaScriptMethod makeUniqueType getGenericParameter
                                                  methodInterface strMethodName false) ;;
           ret (emplace methodId jsMethod m_methods))
          is_std_exception
          (fun e =>
             throw (std_invalid_argument (inProxiedMethod m_name strMethodName e))) ;;
      addMethods m_name jsObjectValue check rest m_methods'
  end.

(** [JavaScriptObject::JavaScriptObject(const JsBridgeContext *, std::string strName, JSValueConst jsObjectValue, const JObjectArrayLocalRef &methods, bool check)] *)
Definition new_JavaScriptObject (strName : string) (jsObjectValue : JSValue)
    (methods : list MethodInterface) (check : bool)
    : Qjs (JavaScriptObject JavaType) :=
  let m_name := strName in
  let strName := moved_from in
  if negb (is_object jsObjectValue) || is_null jsObjectValue then
    throw (std_invalid_argument
             ("Cannot register " +:+ strName
              +:+ ". It does not exist or is not a valid object."))
  else
    (if has_property jsObjectValue "then"
     then alog_warn RegisteringPromise else ret ()) ;;;
    m_methods <- addMethods m_name jsObjectValue check methods ∅ ;;
    ret (mkJavaScriptObject m_name jsObjectValue m_methods).

End Constructor.
End Qjs.

End JavaScriptObject.

(** ** JavaScriptObject.cpp: calling a method of the proxied object *)

Module JavaScriptObjectCall.
Import Native JsValues.
Import Reflection(JsBridgeParameter).
Import JavaScriptMethod(JObjectArray, JavaScriptMethod).
Import JavaScriptObject.
Local Open Scope Z_scope.
Local Open Scope cpp_scope.

(** [catch (const std::runtime_error &)]: of the exceptions of the model
    only [std::runtime_error] itself is one. *)
Definition is_std_runtime_error (e : Thrown) : bool :=
  match e with
  | std_runtime_error _ => true
  | _ => false
  end.

Definition couldNotFindMethod (m_name methodName : string) : string :=
  "Could not find method " +:+ m_name +:+ "." +:+ methodName.

Definition errorWhileCalling (m_name methodName : string) (e : Thrown) : string :=
  "Error while calling JS method " +:+ m_name +:+ "." +:+ methodName +:+ ": " +:+ what e.

(** *** [#if defined(DUKTAPE)] *)
Module Duk.
Import Duktape.

Section Call.

Variable callSemantics : CallSemantics.
Variable getDeferredType : JsBridgeParameter -> JavaType.
Variable getCurrentJsException : Duk Thrown.
(** [JniCache::getJavaReflectedMethodName] *)
Variable getJavaReflectedMethodName : Z -> string.

(** [m_jsHeapPtr == nullptr].  A heap pointer is represented by the value
    it points to, and [duk_get_heapptr] returns [NULL] for a value that
    is not allocated on the heap. *)
Definition is_nullptr (ptr : JSValue) : bool :=
  match ptr with
  | JSString _ | JSFunction _ _ | JSObject _ | JSArray _ => false
  | _ => true
  end.

(** [JValue JavaScriptObject::call(const JniLocalRef<jobject> &javaMethod, const JObjectArrayLocalRef &args, bool awaitJsPromise) const] *)
Definition call (this : JavaScriptObject JavaType) (javaMethod : Z)
    (args : JObjectArray) (awaitJsPromise : bool) : Duk JValue :=
  if is_nullptr (m_jsHeapPtr this) then
    throw (std_invalid_argument
             ("JavaScript object " +:+ m_name this +:+ " cannot be accessed"))
  else
    let methodId := fromReflectedMethod javaMethod in
    let getMethodName := getJavaReflectedMethodName javaMethod in
    let methodIt := m_methods this !! methodId in
    try_catch
      (match methodIt with
       | None =>
           throw (std_invalid_argument (couldNotFindMethod (m_name this) getMethodName))
       | Some jsMethod =>
           JavaScriptMethod.Duk.invoke callSemantics getDeferredType
                                       getCurrentJsException jsMethod
                                       (m_jsHeapPtr this) args awaitJsPromise
       end)
      is_std_runtime_error
      (fun e =>
         throw (std_runtime_error (errorWhileCalling (m_name this) getMethodName e))).

End Call.
End Duk.

(** *** [#elif defined(QUICKJS)] *)
Module Qjs.
Import QuickJs.

Section Call.

Variable callSemantics : CallSemantics.
Variable getDeferredType : JsBridgeParameter -> JavaType.
Variable getCurrentJsException : Qjs Thrown.
Variable getJavaReflectedMethodName : Z -> string.
(** [JavaScriptMethod::getName], of JavaScriptMethod.h *)
Variable getName : JavaScriptMethod JavaType -> string.

(** [JValue JavaScriptObject::call(JSValueConst jsObjectValue, const JniLocalRef<jobject> &javaMethod, const JObjectArrayLocalRef &args, bool awaitJsPromise) const] *)
Definition call (this : JavaScriptObject JavaType) (jsObjectValue : JSValue)
    (javaMethod : Z) (args : JObjectArray) (awaitJsPromise : bool) : Qjs JValue :=
  let methodId := fromReflectedMethod javaMethod in
  let getMethodName := getJavaReflectedMethodName javaMethod in
  match m_methods this !! methodId with
  | None =>
      throw (std_runtime_error (couldNotFindMethod (m_name this) getMethodName))
  | Some jsMethod =>
      if negb (is_object jsObjectValue) || is_null jsObjectValue then
        throw (std_invalid_argument
                 ("Cannot call " +:+ m_name this
                  +:+ ". It does not exist or is not a valid object."))
      else
        let jsMethodValue := get_property jsObjectValue (getName jsMethod) in
        autorelease jsMethodValue (
          JavaScriptMethod.Qjs.invoke callSemantics getDeferredType
                                      getCurrentJsException jsMethod
                                      jsMethodValue jsObjectValue args awaitJsPromise)
  end.

End Call.
End Qjs.

End JavaScriptObjectCall.

(** ** JavaMethod.cpp: the constructor and [callLambda] *)

Module JavaMethodConstructor.
Import Native.
Import Reflection(JsBridgeParameter).
Import JavaScriptMethod(MethodInterface, isVarArgs, getParameters, getReturnParameter,
                        getJavaMethod).
Import JavaMethod.
Local Open Scope Z_scope.
Local Open Scope cpp_scope.

Section Constructor.

(** [T] is the engine's [JavaType], [St] the state of the engine and [R]
    what [invoke] returns to it. *)
Context {T St R : Type}.

Variable makeUniqueType : option JsBridgeParameter -> bool -> Outcome Thrown T.
Variable getGenericParameter : JsBridgeParameter -> option JsBridgeParameter.

(** JNI: [MethodInterface::callNativeLambda] runs the Java lambda, which
    returns a reference or leaves a Java exception pending, as
    [JniContext::exceptionCheck] tells; [JniException(jniContext)] is the
    C++ exception made of the pending one. *)
Variable callNativeLambda : MethodInterface -> JValue -> list JValue -> Outcome JValue JValue.
Variable JniException : JValue -> Thrown.

(** [JavaType::callMethod] *)
Variable callMethod : T -> Z -> JValue -> list JValue -> M St JValue.

(** [m_returnValueType->push(result)] or [m_returnValueType->fromJava(result)] *)
Variable returnToScript : T -> JValue -> M St R.

(** [static JValue JavaMethod::callLambda(const JsBridgeContext *, const JniRef<jsBridgeMethod> &method, const JniRef<jobject> &javaThis, const std::vector<JValue> &args)].
    The object array gets the reference of each argument, in order. *)
Definition callLambda (method : MethodInterface) (javaThis : JValue)
    (args : list JValue) : M St JValue :=
  let argArray := args in
  match callNativeLambda method javaThis argArray with
  | Returns ret' => ret ret'
  | Throws pending => throw (JniException pending)
  end.

(** The loop [for (jsize i = 0; i < numParameters; ++i)] that creates the
    [JavaType] instances.  [parameters] are the elements from index [i]
    on, and [m_argumentTypes] holds the entries assigned so far, which
    are those of the indices below [i]. *)
Fixpoint createJavaTypes (m_isLambda m_isVarArgs : bool) (numParameters : Z) (i : Z)
    (parameters : list JsBridgeParameter) (m_argumentTypes : list T)
    : Outcome Thrown (list T) :=
  match parameters with
  | [] => Returns m_argumentTypes
  | parameter :: rest =>
      if m_isVarArgs && (i =? numParameters - 1) then
        let varArgParameter := getGenericParameter parameter in
        obind (makeUniqueType varArgParameter m_isLambda (*boxed*)) (fun javaType =>
        Returns (m_argumentTypes ++ [javaType]))
      else
        obind (makeUniqueType (Some parameter) m_isLambda (*boxed*)) (fun javaType =>
        createJavaTypes m_isLambda m_isVarArgs numParameters (i + 1) rest
                        (m_argumentTypes ++ [javaType]))
  end.

(** [JavaMethod::JavaMethod(const JsBridgeContext *, const JniLocalRef<jsBridgeMethod> &method, std::string methodName, bool isLambda)] *)
Definition new_JavaMethod (methodInterface : MethodInterface) (methodName : string)
    (isLambda : bool) : Outcome Thrown (JavaMethod T (M St R)) :=
  let m_isVarArgs := isVarArgs methodInterface in
  let parameters := getParameters methodInterface in
  let numParameters := size parameters in
  obind (createJavaTypes isLambda m_isVarArgs numParameters 0 parameters [])
        (fun m_argumentTypes =>
  let returnParameter := getReturnParameter methodInterface in
  obind (makeUniqueType (Some returnParameter) isLambda (*boxed*))
        (fun m_returnValueType =>
  let m_methodBody :=
    if isLambda then
      fun javaThis args =>
        result <- callLambda methodInterface javaThis args ;;
        returnToScript m_returnValueType result
    else
      let methodId := JavaScriptObject.fromReflectedMethod (getJavaMethod methodInterface) in
      fun javaThis args =>
        result <- callMethod m_returnValueType methodId javaThis args ;;
        returnToScript m_returnValueType result in
  Returns (mkJavaMethod methodName isLambda m_isVarArgs m_argumentTypes
                        m_returnValueType m_methodBody))).

End Constructor.

(** *** [#if defined(DUKTAPE)] *)
Module Duk.
Definition new_JavaMethod makeUniqueType getGenericParameter callNativeLambda
    JniException callMethod :=
  new_JavaMethod (T := Duktape.JavaType) (St := Duktape.Context) (R := Z)
                 makeUniqueType getGenericParameter callNativeLambda JniException
                 callMethod (fun t result => Duktape.push t result).
End Duk.

(** *** [#elif defined(QUICKJS)] *)
Module Qjs.
Definition new_JavaMethod makeUniqueType getGenericParameter callNativeLambda
    JniException callMethod :=
  new_JavaMethod (T := QuickJs.JavaType) (St := list QuickJs.Event) (R := JSValue)
                 makeUniqueType getGenericParameter callNativeLambda JniException
                 callMethod (fun t result => lift (QuickJs.fromJava t result)).
End Qjs.

End JavaMethodConstructor.


(** ** Notions used to state the properties *)

Module Notions.
Import Native JsValues.
Import Reflection(JsBridgeParameter).
Local Open Scope Z_scope.

(** *** Parameter.kt *)
Section ReflectionNotions.
Import Reflection.

(** The class has a method that is literally named [invoke]. *)
Definition hasJavaInvoke (p : JsBridgeParameter) : Prop :=
  ∃ c jm, javaClass p = Some c ∧ jm ∈ c_methods c ∧ jm_name jm = "invoke".

(** The Kotlin side of a callable wrapper ([FunctionX]): the type, if
    the parameter carries one, is a class type, and the member functions
    of the class, when they can be listed, include one named [invoke]. *)
Definition callableWrapper (p : JsBridgeParameter) : Prop :=
  ∀ kt, kotlinType p = Some kt →
    ∃ k, asKClass (kt_classifier kt) = Some k ∧
         ∀ fs, kc_memberFunctions k = Returns fs →
               ∃ f, find (λ f, String.eqb (kf_name f) "invoke") fs = Some f.






End ReflectionNotions.

(** *** Marshallers *)

(** A computation that returns normally from every state. *)
Definition returns_normally {S A} (c : M S A) : Prop :=
  ∀ s, ∃ a s', c s = (Returns a, s').

Section DuktapeNotions.
Import Duktape JavaScriptMethod.


(** The marshaller through which [invoke] pops the returned value, which
    is the top of the stack [st] that the call left. *)
Definition dukResultMarshaller (getDeferredType : JsBridgeParameter -> JavaType)
    (m : Duk.Method) (awaitJsPromise : bool) (st : list JSValue) : JavaType :=
  if awaitJsPromise
     && match last st with
        | Some ret => is_object ret && has_property ret "then"
        | None => false
        end
     && negb (isDeferred (m_returnValueType m))
  then getDeferredType (m_returnValueParameter m)
  else m_returnValueType m.

(** What [invoke] has pushed before the arguments: the function, or the
    object and the method name. *)
Definition targetValues (m : Duk.Method) (jsHeapPtr : JSValue) : list JSValue :=
  if m_isLambda m then [jsHeapPtr] else [jsHeapPtr; JSString (m_methodName m)].

End DuktapeNotions.

Section QuickJsNotions.
Import QuickJs JavaScriptMethod.

(** The marshaller through which [invoke] passes the value [ret] that
    the script function returned. *)
Definition qjsResultMarshaller (getDeferredType : JsBridgeParameter -> JavaType)
    (m : Qjs.Method) (awaitJsPromise : bool) (ret : JSValue) : JavaType :=
  if awaitJsPromise && is_object ret && has_property ret "then"
     && negb (isDeferred (m_returnValueType m))
  then getDeferredType (m_returnValueParameter m)
  else m_returnValueType m.

End QuickJsNotions.

(** How the marshaller [t] of the parameter [p] at index [i], one of
    [numParameters] parameters, was built. *)
Definition builtAs {T : Type}
    (makeUniqueType : option JsBridgeParameter -> bool -> Outcome Thrown T)
    (getGenericParameter : JsBridgeParameter -> option JsBridgeParameter)
    (variadic : bool) (numParameters : nat) (i : nat)
    (p : JsBridgeParameter) (t : T) : Prop :=
  if variadic && bool_decide (S i = numParameters)
  then makeUniqueType (getGenericParameter p) false = Returns t
  else makeUniqueType (Some p) true = Returns t.

(** *** Diagnostics of the registration *)
Section RegistrationNotions.
Import JavaScriptObject.

(** The text [what] contains the text [name]. *)
Definition mentions (what name : string) : Prop :=
  ∃ before after, what = before +:+ name +:+ after.

(** The same, computed. *)
Fixpoint occurs (name what : string) : bool :=
  Reflection.startsWith what name
  || match what with
     | EmptyString => false
     | String _ rest => occurs name rest
     end.

(** The object has no callable property of that name: the property is
    missing, or its value is not a function. *)
Definition lacksMethod (obj : JSValue) (name : string) : Prop :=
  is_callable (get_property obj name) = false.

(** The [what()] of the exception for the method [name] that the object lacks. *)
Definition dukDiagnostic (m_name : string) (obj : JSValue) (name : string) : string :=
  if has_property obj name
  then Duk.notCallable m_name name
  else noMethodCalled m_name name.

Definition qjsDiagnostic (m_name : string) (obj : JSValue) (name : string) : string :=
  if is_undefined (get_property obj name)
  then noMethodCalled m_name name
  else Qjs.notFunction m_name name.

End RegistrationNotions.

End Notions.

(** ** Notions for the marshalling of whole argument lists *)

Module MarshallingNotions.
Import Native JsValues.
Local Open Scope Z_scope.
Local Open Scope cpp_scope.

(** Pop one value per marshaller off the Duktape stack, the value of the
    last marshaller first, since it is on top; the values are listed in
    the order of the marshallers. *)
Fixpoint popBackwards (types : list Duktape.JavaType) : Duktape.Duk (list JValue) :=
  match types with
  | [] => ret []
  | t :: rest =>
      values <- popBackwards rest ;;
      value <- Duktape.pop t ;;
      ret (value :: values)
  end.

(** Convert script values through the QuickJS marshallers, first to
    last; the first conversion that throws ends the run.  Values without
    a marshaller are left alone. *)
Fixpoint toJavaAll (types : list QuickJs.JavaType) (values : list JSValue)
    : Outcome Thrown (list JValue) :=
  match types, values with
  | t :: types', v :: values' =>
      obind (QuickJs.toJava t v) (fun j => omap (cons j) (toJavaAll types' values'))
  | _, _ => Returns []
  end.

(** The same for Java values on their way to the script. *)
Fixpoint fromJavaAll (types : list QuickJs.JavaType) (values : list JValue)
    : Outcome Thrown (list JSValue) :=
  match types, values with
  | t :: types', v :: values' =>
      obind (QuickJs.fromJava t v) (fun j => omap (cons j) (fromJavaAll types' values'))
  | _, _ => Returns []
  end.

(** What [JS_GetPropertyUint32] reads off a script value at the [count]
    indices from [from] on. *)
Definition elementsOf (array : JSValue) (from count : nat) : list JSValue :=
  map (λ j, QuickJs.JS_GetPropertyUint32 array (Z.of_nat j)) (seq from count).

(** Contracts of a Duktape marshaller for one Java value [a]: [push]
    returns and leaves the script value [x] on top of the stack;
    [pushArray] leaves the script values [xs] there, in this order, and
    returns their number.  Neither writes to the log. *)
Definition pushesOne (t : Duktape.JavaType) (a : JValue) (x : JSValue) : Prop :=
  ∀ ctx, ∃ r,
    Duktape.push t a ctx
    = (Returns r, Duktape.mkContext (Duktape.stack ctx ++ [x]) (Duktape.log ctx)).

Definition pushesAll (t : Duktape.JavaType) (a : JValue) (xs : list JSValue) : Prop :=
  ∀ ctx,
    Duktape.pushArray t a true ctx
    = (Returns (size xs), Duktape.mkContext (Duktape.stack ctx ++ xs) (Duktape.log ctx)).

(** [values] lists, argument by argument, the script values that the
    marshallers of the method push for the Java arguments [args]: one
    value for an argument, and for the last argument of a variadic
    method the values of the expanded array. *)
Definition pushedFor (m : JavaScriptMethod.JavaScriptMethod Duktape.JavaType)
    (args : list JValue) (values : list (list JSValue)) : Prop :=
  length values = length args ∧
  ∀ (k : nat) a, args !! k = Some a →
    ∃ t xs, JavaScriptMethod.m_argumentTypes m !! k = Some t ∧ values !! k = Some xs ∧
      if JavaScriptMethod.m_isVarArgs m && (Z.of_nat k =? size args - 1)
      then pushesAll t a xs
      else ∃ x, xs = [x] ∧ pushesOne t a x.

(** The function that [JavaScriptMethod::invoke] calls and the [this]
    value of the call: the lambda itself, or the property of the object
    that has the name of the method, called on the object. *)
Definition calledFunction {T} (m : JavaScriptMethod.JavaScriptMethod T)
    (jsHeapPtr : JSValue) : JSValue :=
  if JavaScriptMethod.m_isLambda m then jsHeapPtr
  else get_property jsHeapPtr (JavaScriptMethod.m_methodName m).

Definition calledOn {T} (m : JavaScriptMethod.JavaScriptMethod T)
    (jsHeapPtr : JSValue) : JSValue :=
  if JavaScriptMethod.m_isLambda m then JSUndefined else jsHeapPtr.

(** A Duktape marshaller that does on the value stack what a QuickJS
    marshaller does on values: where the conversion of the top value (of
    the top values, for an array) returns, [pop] ([popArray]) removes
    what it converted and returns the same Java value. *)
Definition popsLike (td : Duktape.JavaType) (tq : QuickJs.JavaType) : Prop :=
  (∀ st v lg j,
      QuickJs.toJava tq v = Returns j →
      Duktape.pop td (Duktape.mkContext (st ++ [v]) lg)
      = (Returns j, Duktape.mkContext st lg)) ∧
  (∀ st vs lg a,
      QuickJs.toJavaArray tq (JSArray vs) = Returns a →
      Duktape.popArray td (size vs) true (Duktape.mkContext (st ++ vs) lg)
      = (Returns a, Duktape.mkContext st lg)).

End MarshallingNotions.

(** ** Notions for the method table of a proxied object *)

Module DispatchNotions.
Import Native.
Import JavaScriptMethod(MethodInterface, getJavaMethod, JavaScriptMethod).
Import JavaScriptObject.
Local Open Scope Z_scope.

(** The first of the methods, in the order of the array, whose
    reflected method has the given id. *)
Definition firstWithId (methods : list MethodInterface) (methodId : Z)
    : option MethodInterface :=
  find (λ mi, fromReflectedMethod (getJavaMethod mi) =? methodId) methods.

(** The table after the methods were added one by one, where [build]
    gives the invoker of a method. *)
Definition tableOf {T} (build : MethodInterface → JavaScriptMethod T)
    (methods : list MethodInterface) (table : gmap Z (JavaScriptMethod T))
    : gmap Z (JavaScriptMethod T) :=
  foldl (λ acc mi, emplace (fromReflectedMethod (getJavaMethod mi)) (build mi) acc)
        table methods.

(** The events of the QuickJS check of the listed methods: the value of
    each property is fetched, and freed. *)
Definition checkedProperties (check : bool) (obj : JSValue)
    (methods : list MethodInterface) : list QuickJs.Event :=
  if check
  then map (λ mi, QuickJs.Free (JsValues.get_property obj (JavaScriptMethod.getName mi)))
           methods
  else [].

End DispatchNotions.

(** ** Sample inputs, marshallers and methods *)

Module Samples.
Import Reflection.

(** A class loader that knows no class. *)
Definition noClass : string -> Outcome Throwable JClass :=
  fun _ => Throws (mkThrowable "java.lang.ClassNotFoundException").

Definition intClass : JClass := mkClass "int" (Some "int") true None [].
Definition integerClass : JClass :=
  mkClass "java.lang.Integer" (Some "java.lang.Integer") false None
          (mkJMethod "intValue" "java.lang.Integer" :: objectMethods).


(** [kotlin.Int] *)
Definition intType : KType :=
  mkKType (Some (ClassifierClass (mkKClass intClass integerClass (Returns []))))
          [] false "kotlin.Int".

(** [(Int) -> Unit], that is [kotlin.jvm.functions.Function1], seen
    through a kotlin-reflect whose [memberFunctions] throws. *)
Definition function1Class : JClass :=
  mkClass "kotlin.jvm.functions.Function1" (Some "kotlin.jvm.functions.Function1")
          false None [mkJMethod "invoke" "kotlin.jvm.functions.Function1"].
Definition function1Type : KType :=
  mkKType (Some (ClassifierClass
                   (mkKClass function1Class function1Class
                             (Throws (mkThrowable "kotlin.reflect.jvm.internal.KotlinReflectionInternalError")))))
          [mkKTypeProjection (Some intType)] false "(kotlin.Int) -> kotlin.Unit".
Definition function1Parameter : JsBridgeParameter :=
  mkParameter None (Some function1Type) (Some function1Class) (Some "cb") false.

End Samples.

Module NativeSamples.
Import Native JsValues.
Local Open Scope Z_scope.
Local Open Scope cpp_scope.

Definition sampleToJava (v : JSValue) : JValue :=
  match v with
  | JSNumber z => JPrimitive z
  | JSUndefined | JSNull => JNull
  | _ => JObject 0
  end.

Definition sampleToJs (v : JValue) : JSValue :=
  match v with
  | JPrimitive z => JSNumber z
  | JNull => JSNull
  | JObject _ => JSObject []
  | JArray _ => JSArray []
  end.

(** A marshaller that takes every value, and one that refuses null. *)
Module Duk.
Import Duktape.

Definition popAny : Duk JValue :=
  st <- get_stack ;;
  match last st with
  | Some v => set_stack (take (length st - 1) st) ;;; ret (sampleToJava v)
  | None => ret JNull
  end.

Definition popArrayAny (count : Z) (expanded : bool) : Duk JValue :=
  st <- get_stack ;;
  duk_pop_n count ;;;
  ret (JArray (map sampleToJava (drop (length st - Z.to_nat count) st))).

Definition pushAny (v : JValue) : Duk Z :=
  duk_push (sampleToJs v) ;;; ret 1.

Definition pushNonNull (v : JValue) : Duk Z :=
  match v with
  | JNull => throw (std_invalid_argument "Cannot convert null")
  | _ => pushAny v
  end.

Definition pushArrayAny (array : JValue) (expand : bool) : Duk Z :=
  match array with
  | JArray elements =>
      st <- get_stack ;;
      set_stack (st ++ map sampleToJs elements) ;;;
      ret (size elements)
  | _ => throw (std_invalid_argument "Cannot convert to an array")
  end.

Definition anyType : JavaType :=
  mkJavaType popAny popArrayAny pushAny pushArrayAny false.
Definition nonNullType : JavaType :=
  mkJavaType popAny popArrayAny pushNonNull pushArrayAny false.

(** A method body that answers the number of arguments it got. *)
Definition countingBody (javaThis : JValue) (args : list JValue) : Duk Z :=
  duk_push (JSNumber (size args)) ;;; ret 1.

(** [fun add(a: Any?, b: Any?)] *)
Definition add : JavaMethod.Duk.Method :=
  JavaMethod.mkJavaMethod "add" false false [anyType; anyType] anyType countingBody.

(** [fun join(separator: Any?, vararg parts: Any?)] *)
Definition join : JavaMethod.Duk.Method :=
  JavaMethod.mkJavaMethod "join" false true [anyType; anyType] anyType countingBody.

Definition stackOf (values : list JSValue) : Context := mkContext values [].

End Duk.

Module Qjs.
Import QuickJs.

Definition toJavaArrayAny (v : JSValue) : Outcome Thrown JValue :=
  match v with
  | JSArray elements => Returns (JArray (map sampleToJava elements))
  | _ => Throws (std_invalid_argument "Cannot convert to an array")
  end.

Definition fromJavaNonNull (v : JValue) : Outcome Thrown JSValue :=
  match v with
  | JNull => Throws (std_invalid_argument "Cannot convert null")
  | _ => Returns (sampleToJs v)
  end.

Definition fromJavaArrayAny (v : JValue) : Outcome Thrown JSValue :=
  match v with
  | JArray elements => Returns (JSArray (map sampleToJs elements))
  | _ => Throws (std_invalid_argument "Cannot convert to an array")
  end.

Definition anyType : JavaType :=
  mkJavaType (λ v, Returns (sampleToJava v)) toJavaArrayAny
             (λ v, Returns (sampleToJs v)) fromJavaArrayAny false.
Definition nonNullType : JavaType :=
  mkJavaType (λ v, Returns (sampleToJava v)) toJavaArrayAny
             fromJavaNonNull fromJavaArrayAny false.

Definition countingBody (javaThis : JValue) (args : list JValue) : Qjs JSValue :=
  ret (JSNumber (size args)).

Definition add : JavaMethod.Qjs.Method :=
  JavaMethod.mkJavaMethod "add" false false [anyType; anyType] anyType countingBody.

Definition join : JavaMethod.Qjs.Method :=
  JavaMethod.mkJavaMethod "join" false true [anyType; anyType] anyType countingBody.

End Qjs.

End NativeSamples.

Module ConstructorSamples.
Import Native Reflection JavaScriptMethod.

(** A type provider that records what it was asked for. *)
Definition recordingProvider (p : option JsBridgeParameter) (boxed : bool)
    : Outcome Thrown (option JsBridgeParameter * bool) :=
  Returns (p, boxed).

(** [ParameterInterface::getGenericParameter] calls
    [Parameter.getGenericParameter]. *)
Definition genericParameterOf (p : JsBridgeParameter) : option JsBridgeParameter :=
  match getGenericParameter Samples.noClass p with
  | Returns r => r
  | Throws _ => None
  end.

Definition stringClass : JClass :=
  mkClass "java.lang.String" (Some "java.lang.String") false None
          (mkJMethod "length" "java.lang.String" :: objectMethods).
Definition stringArrayClass : JClass :=
  mkClass "[Ljava.lang.String;" (Some "java.lang.String[]") false (Some stringClass) [].
Definition stringType : KType :=
  mkKType (Some (ClassifierClass (mkKClass stringClass stringClass (Returns []))))
          [] false "kotlin.String".
Definition stringArrayType : KType :=
  mkKType (Some (ClassifierClass (mkKClass stringArrayClass stringArrayClass (Returns []))))
          [mkKTypeProjection (Some stringType)] false "kotlin.Array<out kotlin.String>".

Definition separatorParameter : JsBridgeParameter :=
  mkParameter None (Some stringType) (Some stringClass) (Some "separator") false.
Definition partsParameter : JsBridgeParameter :=
  mkParameter None (Some stringArrayType) (Some stringArrayClass) (Some "parts") false.
Definition partParameter : JsBridgeParameter :=
  mkParameter None (Some stringType) (Some stringClass) None false.
Definition returnParameter : JsBridgeParameter :=
  mkParameter None (Some stringType) (Some stringClass) None false.

(** [fun join(separator: String, vararg parts: String): String] *)
Definition joinInterface : MethodInterface :=
  mkMethodInterface "join" true [separatorParameter; partsParameter] returnParameter 1.

Definition joinMethod : JavaScriptMethod (option JsBridgeParameter * bool) :=
  mkJavaScriptMethod "join" (Some returnParameter, true) returnParameter
                     [(Some separatorParameter, true); (Some partParameter, false)]
                     false true.

End ConstructorSamples.

Module InvokeSamples.
Import Native JsValues JavaScriptMethod.
Local Open Scope Z_scope.
Local Open Scope cpp_scope.

(** A script object with a method [greet] that returns a promise and a
    method [count] that returns the number of its arguments. *)
Definition promise : JSValue := JSObject [("then", JSFunction 3 [])].
Definition greeter : JSValue :=
  JSObject [("greet", JSFunction 1 []); ("count", JSFunction 2 [])].

Definition sampleCall : CallSemantics :=
  fun func this args =>
    match func with
    | JSFunction 1 _ => Returns promise
    | JSFunction _ _ => Returns (JSNumber (size args))
    | _ => Throws (JSString "TypeError: not a function")
    end.

Definition anyParameter : Reflection.JsBridgeParameter :=
  Reflection.Parameter_ofClass Reflection.AnyClass.

Module Duk.
Import Duktape.

(** The marshaller of [Deferred]: the promise becomes a Java object. *)
Definition deferredType : JavaType :=
  mkJavaType (duk_pop ;;; ret (JObject 42)) NativeSamples.Duk.popArrayAny
             NativeSamples.Duk.pushAny NativeSamples.Duk.pushArrayAny true.

Definition currentJsException : Duk Thrown :=
  st <- get_stack ;;
  duk_pop ;;;
  ret (JsException (default JSUndefined (last st))).

(** [fun greet(a: Any, b: Any): Any?] *)
Definition greet : JavaScriptMethod.Duk.Method :=
  mkJavaScriptMethod "greet" NativeSamples.Duk.anyType anyParameter
                     [NativeSamples.Duk.nonNullType; NativeSamples.Duk.nonNullType]
                     false false.

(** [fun count(first: Any?, vararg values: Any?): Any?] *)
Definition count : JavaScriptMethod.Duk.Method :=
  mkJavaScriptMethod "count" NativeSamples.Duk.anyType anyParameter
                     [NativeSamples.Duk.anyType; NativeSamples.Duk.anyType] false true.


End Duk.

Module Qjs.
Import QuickJs.

Definition deferredType : JavaType :=
  mkJavaType (λ _, Returns (JObject 42)) NativeSamples.Qjs.toJavaArrayAny
             (λ v, Returns (NativeSamples.sampleToJs v))
             NativeSamples.Qjs.fromJavaArrayAny true.

Definition currentJsException : Qjs Thrown :=
  ret (JsException (JSString "Error")).

Definition greet : JavaScriptMethod.Qjs.Method :=
  mkJavaScriptMethod "greet" NativeSamples.Qjs.anyType anyParameter
                     [NativeSamples.Qjs.nonNullType; NativeSamples.Qjs.nonNullType]
                     false false.

(** [fun count(vararg values: Any?): Any?] *)
Definition count : JavaScriptMethod.Qjs.Method :=
  mkJavaScriptMethod "count" NativeSamples.Qjs.anyType anyParameter
                     [NativeSamples.Qjs.anyType] false true.

End Qjs.

End InvokeSamples.

Module RegistrationSamples.
Import Native JsValues JavaScriptMethod.

Definition computeInterface : MethodInterface :=
  mkMethodInterface "compute" false [] InvokeSamples.anyParameter 1.
Definition resetInterface : MethodInterface :=
  mkMethodInterface "reset" false [] InvokeSamples.anyParameter 2.

(** [{}] and [{ compute: function () { ... } }] *)
Definition emptyObject : JSValue := JSObject [].
Definition halfCalculator : JSValue := JSObject [("compute", JSFunction 1 [])].

Definition dukProvider (p : option Reflection.JsBridgeParameter) (boxed : bool)
    : Outcome Thrown Duktape.JavaType :=
  Returns NativeSamples.Duk.anyType.
Definition qjsProvider (p : option Reflection.JsBridgeParameter) (boxed : bool)
    : Outcome Thrown QuickJs.JavaType :=
  Returns NativeSamples.Qjs.anyType.

End RegistrationSamples.

Module DispatchSamples.
Import Native JsValues JavaScriptMethod JavaScriptObject.
Import RegistrationSamples.
Local Open Scope Z_scope.

(** The invokers that the sample providers build for a method without
    parameters. *)
Definition dukInvoker (mi : MethodInterface) : JavaScriptMethod Duktape.JavaType :=
  mkJavaScriptMethod (getName mi) NativeSamples.Duk.anyType (getReturnParameter mi)
                     [] false (isVarArgs mi).
Definition qjsInvoker (mi : MethodInterface) : JavaScriptMethod QuickJs.JavaType :=
  mkJavaScriptMethod (getName mi) NativeSamples.Qjs.anyType (getReturnParameter mi)
                     [] false (isVarArgs mi).

(** A provider that knows no type. *)
Definition unsupported : Thrown := std_invalid_argument "Unsupported Java type".
Definition noType {T} (p : option Reflection.JsBridgeParameter) (boxed : bool)
    : Outcome Thrown T :=
  Throws unsupported.

(** A second method of the interface with the id of [compute]. *)
Definition computeAgainInterface : MethodInterface :=
  mkMethodInterface "computeAgain" false [] InvokeSamples.anyParameter 1.

(** [{ compute: function () { ... }, reset: function () { ... } }] *)
Definition calculator : JSValue :=
  JSObject [("compute", JSFunction 2 []); ("reset", JSFunction 2 [])].

(** [JniCache::getJavaReflectedMethodName] for the sample methods *)
Definition methodNames (javaMethod : Z) : string :=
  if javaMethod =? 1 then "compute"
  else if javaMethod =? 2 then "reset"
  else "toString".

Definition dukCalculator : JavaScriptObject Duktape.JavaType :=
  mkJavaScriptObject "calculator" calculator
    (emplace 2 (dukInvoker resetInterface) (emplace 1 (dukInvoker computeInterface) ∅)).
Definition qjsCalculator : JavaScriptObject QuickJs.JavaType :=
  mkJavaScriptObject "calculator" calculator
    (emplace 2 (qjsInvoker resetInterface) (emplace 1 (qjsInvoker computeInterface) ∅)).

End DispatchSamples.

Module LambdaSamples.
Import Native JsValues JavaScriptMethod.
Local Open Scope Z_scope.

(** [{ a: Int, b: Int -> a + b }] as a [jsBridgeMethod] *)
Definition addInterface : MethodInterface :=
  mkMethodInterface "invoke" false
                    [InvokeSamples.anyParameter; InvokeSamples.anyParameter]
                    InvokeSamples.anyParameter 5.

(** The Java side of the lambda: the sum of two numbers; anything else
    makes it throw. *)
Definition javaAdd (method : MethodInterface) (javaThis : JValue) (args : list JValue)
    : Outcome JValue JValue :=
  match args with
  | [JPrimitive a; JPrimitive b] => Returns (JPrimitive (a + b))
  | _ => Throws (JObject 99)
  end.

Definition pendingException (pending : JValue) : Thrown := std_exception "JniException".

Definition noMethodCall {T St} (t : T) (methodId : Z) (javaThis : JValue)
    (args : list JValue) : M St JValue :=
  ret JNull.

End LambdaSamples.

Module AccessorSamples.
Import Reflection.

(** The properties [javaMethod] and [name] of a [Method] *)
Definition javaMethodOf (m : Method) : option JMethod :=
  match m with
  | MethodOfKFunction _ _ => None
  | MethodOfJava jm | MethodOfJavaGeneric jm _ _ => Some jm
  end.
Definition nameOf (m : Method) : option string :=
  match m with
  | MethodOfKFunction f _ => Some (kf_name f)
  | MethodOfJava jm | MethodOfJavaGeneric jm _ _ => Some (jm_name jm)
  end.

(** The parameter [vararg parts: String] of [Joiner.join], with its
    parent method, and marked optional. *)
Definition joinParts : JsBridgeParameter :=
  mkParameter (Some (MethodOfJava (mkJMethod "join" "Joiner")))
              (Some ConstructorSamples.stringArrayType)
              (Some ConstructorSamples.stringArrayClass) (Some "parts") true.

End AccessorSamples.

Module ElementSamples.
Import Reflection.


End ElementSamples.

(** * Properties *)

(** ** Parameter.kt *)

Module ReflectionFacts.
Import Reflection Notions.



Lemma find_None_iff {A} (f : A -> bool) (l : list A) :
  find f l = None ↔ ∀ x, x ∈ l → f x = false.
Proof.
  induction l as [|a l IH]; simpl.
  - split; [intros _ x Hx; inversion Hx | done].
  - destruct (f a) eqn:Hfa.
    + split; [done | intros H; specialize (H a ltac:(left)); congruence].
    + rewrite IH. split.
      * intros H x Hx. inversion Hx; subst; auto.
      * intros H x Hx. apply H. by right.
Qed.

Lemma javaInvoke_None (p : JsBridgeParameter) :
  javaInvoke p = None ↔ ¬ hasJavaInvoke p.
Proof.
  unfold javaInvoke, hasJavaInvoke. destruct (javaClass p) as [c|].
  - rewrite find_None_iff. split.
    + intros H (c' & jm & [= <-] & Hin & Hn).
      specialize (H jm Hin). rewrite Hn in H. discriminate.
    + intros H jm Hin. destruct (String.eqb_spec (jm_name jm) "invoke"); [|done].
      exfalso. apply H. eauto.
  - split; [intros _ (c & jm & [=] & _) | done].
Qed.

Lemma invokeMethod_java_None (p : JsBridgeParameter) :
  invokeMethod_java p = None ↔ ¬ hasJavaInvoke p.
Proof.
  rewrite <- javaInvoke_None. unfold invokeMethod_java.
  destruct (javaInvoke p); [|done]. destruct (kotlinType p); split; done.
Qed.

(** C8.  Resolving [invokeMethod] never throws, whatever the Kotlin
    lookup [memberFunctions] does.  The Kotlin lookup comes first: a
    member function named [invoke] that it finds is the answer.  When the
    lookup throws, the throwable is dropped and the methods of the Java
    class are scanned instead; that scan yields null only if no method of
    the class is literally named [invoke].  For a callable wrapper the
    resolution as a whole therefore yields null only if no method of the
    Java class is named [invoke]. *)
Theorem invokeMethod_lookup_failure_falls_back (p : JsBridgeParameter) :
  (∃ r, invokeMethod p = Returns r) ∧
  (∀ kt k fs f,
      kotlinType p = Some kt → asKClass (kt_classifier kt) = Some k →
      kc_memberFunctions k = Returns fs →
      find (λ f, String.eqb (kf_name f) "invoke") fs = Some f →
      invokeMethod p = Returns (Some (MethodOfKFunction f true))) ∧
  (∀ kt k t,
      kotlinType p = Some kt → asKClass (kt_classifier kt) = Some k →
      kc_memberFunctions k = Throws t →
      invokeMethod p = Returns (invokeMethod_java p) ∧
      (invokeMethod_java p = None ↔ ¬ hasJavaInvoke p)) ∧
  (callableWrapper p → invokeMethod p = Returns None → ¬ hasJavaInvoke p).
Proof.
  split; [|split; [|split]].
  - unfold invokeMethod, invokeMethod_try.
    destruct (kotlinType p) as [kt|]; simpl; [|eauto].
    destruct (asKClass (kt_classifier kt)) as [k|]; simpl; [|eauto].
    destruct (kc_memberFunctions k); simpl; eauto.
  - intros kt k fs f Hkt Hk Hfs Hf.
    unfold invokeMethod, invokeMethod_try. rewrite Hkt, Hk, Hfs. simpl.
    by rewrite Hf.
  - intros kt k t Hkt Hk Ht. split; [|apply invokeMethod_java_None].
    unfold invokeMethod, invokeMethod_try. by rewrite Hkt, Hk, Ht.
  - intros Hwrapper. unfold invokeMethod, invokeMethod_try.
    destruct (kotlinType p) as [kt|] eqn:Hkt; simpl.
    + destruct (Hwrapper kt Hkt) as (k & -> & Hmembers).
      destruct (kc_memberFunctions k) as [fs|t]; simpl.
      * destruct (Hmembers fs eq_refl) as [f ->]. done.
      * intros [= Hnone]. by apply invokeMethod_java_None.
    + intros [= Hnone]. by apply invokeMethod_java_None.
Qed.

(** The resolution at a [Function1] parameter whose Kotlin lookup throws. *)
Lemma invokeMethod_lookup_failure_witness :
  invokeMethod Samples.function1Parameter
  = Returns (Some (MethodOfJavaGeneric
                     (mkJMethod "invoke" "kotlin.jvm.functions.Function1")
                     [mkKTypeProjection (Some Samples.intType)] true)).
Proof.
  destruct (invokeMethod_lookup_failure_falls_back Samples.function1Parameter)
    as (_ & _ & H & _).
  destruct (H Samples.function1Type _ _ eq_refl eq_refl eq_refl) as [-> _].
  reflexivity.
Defined.





End ReflectionFacts.

(** ** Machine integers *)

Module IntegerFacts.
Import Native.
Local Open Scope Z_scope.

Lemma to_size_t_small z : 0 ≤ z ≤ INT_MAX → to_size_t z = z.
Proof.
  unfold to_size_t, INT_MAX, SIZE_BITS. intros H. apply Z.mod_small. lia.
Qed.

Lemma to_ssize_t_small z : 0 ≤ z ≤ INT_MAX → to_ssize_t z = z.
Proof.
  unfold to_ssize_t, INT_MAX, SIZE_BITS. intros H.
  rewrite Z.mod_small by lia. lia.
Qed.

Lemma to_int_small z : -1 ≤ z ≤ INT_MAX → to_int z = z.
Proof.
  unfold to_int, INT_MAX. intros H. rewrite Z.mod_small by lia. lia.
Qed.

Lemma to_size_t_minus_one : to_size_t (-1) = 2 ^ 64 - 1.
Proof. reflexivity. Qed.

Lemma size_nonneg {A} (l : list A) : 0 ≤ size l.
Proof. unfold size. lia. Qed.

End IntegerFacts.

(** ** JavaMethod.cpp *)

Module JavaMethodFacts.
Import Native JsValues JavaMethod IntegerFacts Notions.
Local Open Scope Z_scope.
Local Open Scope cpp_scope.



Lemma duk_minArgs_fixed (m : Duk.Method) :
  m_isVarArgs m = false → Duk.minArgs m = size (m_argumentTypes m).
Proof. unfold Duk.minArgs. by intros ->. Qed.

Lemma duk_minArgs_variadic (m : Duk.Method) :
  m_isVarArgs m = true → 1 ≤ size (m_argumentTypes m) ≤ INT_MAX →
  Duk.minArgs m = size (m_argumentTypes m) - 1.
Proof.
  unfold Duk.minArgs. intros -> H. apply to_size_t_small. lia.
Qed.

Lemma qjs_minArgs_fixed (m : Qjs.Method) :
  m_isVarArgs m = false → size (m_argumentTypes m) ≤ INT_MAX →
  Qjs.minArgs m = size (m_argumentTypes m).
Proof.
  unfold Qjs.minArgs. intros -> H. apply to_int_small.
  pose proof (size_nonneg (m_argumentTypes m)). lia.
Qed.

Lemma qjs_minArgs_variadic (m : Qjs.Method) :
  m_isVarArgs m = true → 1 ≤ size (m_argumentTypes m) ≤ INT_MAX →
  Qjs.minArgs m = size (m_argumentTypes m) - 1.
Proof.
  unfold Qjs.minArgs. intros -> H.
  rewrite to_size_t_small by lia. apply to_int_small. lia.
Qed.

Lemma duk_invoke_too_many (m : Duk.Method) (javaThis : JValue) (ctx : Duktape.Context) :
  m_isVarArgs m = false →
  size (Duktape.stack ctx) ≤ INT_MAX →
  Duk.minArgs m < size (Duktape.stack ctx) →
  Duk.invoke m javaThis ctx
  = (Throws (std_invalid_argument
               (tooManyParameters (m_methodName m) (Duk.minArgs m)
                                  (size (Duktape.stack ctx)))), ctx).
Proof.
  intros Hfixed Hint Hmany.
  pose proof (size_nonneg (Duktape.stack ctx)) as Hnn.
  rewrite duk_minArgs_fixed in * by done.
  unfold Duk.invoke, bind, Duktape.duk_get_top.
  rewrite duk_minArgs_fixed by done. rewrite Hfixed.
  rewrite to_size_t_small by lia.
  destruct (Z.ltb_spec (size (Duktape.stack ctx)) (size (m_argumentTypes m))); [lia|].
  simpl. destruct (Z.gtb_spec (size (Duktape.stack ctx)) (size (m_argumentTypes m))); [|lia].
  reflexivity.
Qed.

Lemma qjs_invoke_too_many (m : Qjs.Method) (javaThis : JValue) (argv : list JSValue)
    (tr : list QuickJs.Event) :
  m_isVarArgs m = false →
  Qjs.minArgs m < size argv →
  Qjs.invoke m javaThis argv tr
  = (Throws (std_invalid_argument
               (tooManyParameters (m_methodName m) (Qjs.minArgs m) (size argv))), tr).
Proof.
  intros Hfixed Hmany.
  unfold Qjs.invoke, bind. rewrite Hfixed.
  destruct (Z.ltb_spec (size argv) (Qjs.minArgs m)); [lia|].
  simpl. destruct (Z.gtb_spec (size argv) (Qjs.minArgs m)); [|lia].
  reflexivity.
Qed.

(** C1.  A method that is not variadic and is called with more script
    arguments than [minArgs] makes [invoke] throw [std::invalid_argument]
    with the too-many-parameters message; the engine state is the one
    the call found, and the result owes nothing to [m_methodBody]: the
    Java side has not been called.  In the Duktape variant the arguments
    are what the value stack holds, in the QuickJS variant they are
    [argv]. *)
Theorem invoke_rejects_too_many_arguments :
  (∀ (m : Duk.Method) (javaThis : JValue) (ctx : Duktape.Context),
      m_isVarArgs m = false →
      size (Duktape.stack ctx) ≤ INT_MAX →
      Duk.minArgs m < size (Duktape.stack ctx) →
      Duk.minArgs m = size (m_argumentTypes m) ∧
      Duk.invoke m javaThis ctx
      = (Throws (std_invalid_argument
                   (tooManyParameters (m_methodName m) (Duk.minArgs m)
                                      (size (Duktape.stack ctx)))), ctx)) ∧
  (∀ (m : Qjs.Method) (javaThis : JValue) (argv : list JSValue)
     (tr : list QuickJs.Event),
      m_isVarArgs m = false →
      size (m_argumentTypes m) ≤ INT_MAX →
      Qjs.minArgs m < size argv →
      Qjs.minArgs m = size (m_argumentTypes m) ∧
      Qjs.invoke m javaThis argv tr
      = (Throws (std_invalid_argument
                   (tooManyParameters (m_methodName m) (Qjs.minArgs m) (size argv))), tr)).
Proof.
  split.
  - intros m javaThis ctx Hfixed Hint Hmany. split.
    + by apply duk_minArgs_fixed.
    + by apply duk_invoke_too_many.
  - intros m javaThis argv tr Hfixed Hint Hmany. split.
    + by apply qjs_minArgs_fixed.
    + by apply qjs_invoke_too_many.
Qed.


(** *** Missing arguments *)

Lemma vector_at_Some {S A} (c : string) (v : list A) (i : nat) (x : A) (s : S) :
  v !! i = Some x → vector_at c v (Z.of_nat i) s = (Returns x, s).
Proof.
  intros H. unfold vector_at.
  destruct (Z.leb_spec 0 (Z.of_nat i)); [|lia].
  by rewrite Nat2Z.id, H.
Qed.

Lemma vector_set_inside {S A} (c : string) (v : list A) (i : nat) (x : A) (s : S) :
  (i < length v)%nat →
  vector_set c v (Z.of_nat i) x s = (Returns (<[i := x]> v), s).
Proof.
  intros H. unfold vector_set.
  destruct (Z.leb_spec 0 (Z.of_nat i)); [|lia].
  destruct (Z.ltb_spec (Z.of_nat i) (Z.of_nat (length v))); [|lia].
  simpl. by rewrite Nat2Z.id.
Qed.

(** The Duktape loop over the fixed parameters. *)
Lemma duk_loadArguments_spec (m : Duk.Method) (argCount : Z) (n : nat) :
  ∀ (args : list JValue) (ctx : Duktape.Context),
    (n ≤ length (m_argumentTypes m))%nat →
    length args = length (m_argumentTypes m) →
    (∀ (i : nat) t, Z.of_nat i < argCount → m_argumentTypes m !! i = Some t →
                    returns_normally (Duktape.pop t)) →
    ∃ args' ctx',
      Duk.loadArguments m n argCount args ctx = (Returns args', ctx') ∧
      length args' = length args ∧
      (∀ i : nat, (i < n)%nat → argCount ≤ Z.of_nat i → args' !! i = Some JNull) ∧
      (∀ i : nat, (n ≤ i)%nat → args' !! i = args !! i).
Proof.
  induction n as [|n IH]; intros args ctx Hn Hlen Hpop.
  - exists args, ctx. repeat split; try done. intros; lia.
  - assert (is_Some (m_argumentTypes m !! n)) as [t Ht]
      by (apply lookup_lt_is_Some; lia).
    simpl. unfold bind at 1. rewrite (vector_at_Some _ _ _ _ _ Ht).
    unfold bind at 1.
    assert (∃ value ctx1,
               (if Z.of_nat n >=? argCount then ret JNull else Duktape.pop t) ctx
               = (Returns value, ctx1) ∧
               (argCount ≤ Z.of_nat n → value = JNull)) as (value & ctx1 & -> & Hvalue).
    { destruct (Z.geb_spec (Z.of_nat n) argCount) as [Hge|Hlt].
      - exists JNull, ctx. done.
      - destruct (Hpop n t ltac:(lia) Ht ctx) as (a & s' & ->).
        exists a, s'. split; [done | lia]. }
    unfold bind at 1. rewrite vector_set_inside by lia.
    destruct (IH (<[n := value]> args) ctx1) as (args' & ctx' & Hrun & Hlen' & Hnull & Hrest).
    { lia. } { by rewrite length_insert. } { done. }
    exists args', ctx'. rewrite Hrun. split; [done|]. split.
    { by rewrite Hlen', length_insert. }
    split.
    + intros i Hi Hge. destruct (decide (i = n)) as [->|Hne].
      * rewrite Hrest by lia. rewrite list_lookup_insert_eq by lia.
        f_equal. apply Hvalue. lia.
      * apply Hnull; lia.
    + intros i Hi. rewrite Hrest by lia. apply list_lookup_insert_ne. lia.
Qed.

(** The QuickJS loop over the fixed parameters. *)
Lemma qjs_loadArguments_spec (m : Qjs.Method) (argv : list JSValue) (n : nat) :
  ∀ (i : nat) (args : list JValue) (tr : list QuickJs.Event),
    (i + n ≤ length (m_argumentTypes m))%nat →
    length args = length (m_argumentTypes m) →
    (∀ (k : nat) t v, argv !! k = Some v → m_argumentTypes m !! k = Some t →
                      ∃ j, QuickJs.toJava t v = Returns j) →
    ∃ args',
      Qjs.loadArguments m n (Z.of_nat i) argv args tr = (Returns args', tr) ∧
      length args' = length args ∧
      (∀ k : nat, (i ≤ k < i + n)%nat → size argv ≤ Z.of_nat k → args' !! k = Some JNull) ∧
      (∀ k : nat, (k < i ∨ i + n ≤ k)%nat → args' !! k = args !! k).
Proof.
  induction n as [|n IH]; intros i args tr Hn Hlen Hconv.
  - exists args. repeat split; try done. intros; lia.
  - assert (is_Some (m_argumentTypes m !! i)) as [t Ht]
      by (apply lookup_lt_is_Some; lia).
    simpl. unfold bind at 1. rewrite (vector_at_Some _ _ _ _ _ Ht).
    unfold bind at 1.
    assert (∃ value,
               (if Z.of_nat i >=? size argv then ret JNull
                else v <- Qjs.argv_at argv (Z.of_nat i) ;; lift (QuickJs.toJava t v)) tr
               = (Returns value, tr) ∧
               (size argv ≤ Z.of_nat i → value = JNull)) as (value & -> & Hvalue).
    { destruct (Z.geb_spec (Z.of_nat i) (size argv)) as [Hge|Hlt].
      - exists JNull. done.
      - unfold size in Hlt.
        assert (is_Some (argv !! i)) as [v Hv] by (apply lookup_lt_is_Some; lia).
        destruct (Hconv i t v Hv Ht) as [j Hj].
        exists j. split; [|unfold size; lia].
        unfold bind, Qjs.argv_at. rewrite (vector_at_Some _ _ _ _ _ Hv).
        unfold lift. by rewrite Hj. }
    unfold bind at 1. rewrite vector_set_inside by lia.
    replace (Z.of_nat i + 1) with (Z.of_nat (S i)) by lia.
    destruct (IH (S i) (<[i := value]> args) tr) as (args' & Hrun & Hlen' & Hnull & Hrest).
    { lia. } { by rewrite length_insert. } { done. }
    exists args'. rewrite Hrun. split; [done|]. split.
    { by rewrite Hlen', length_insert. }
    split.
    + intros k Hk Hge. destruct (decide (k = i)) as [->|Hne].
      * rewrite Hrest by lia. rewrite list_lookup_insert_eq by lia.
        f_equal. apply Hvalue. lia.
      * apply Hnull; lia.
    + intros k Hk. rewrite Hrest by lia. apply list_lookup_insert_ne. lia.
Qed.


Lemma duk_invoke_missing_arguments (m : Duk.Method) (javaThis : JValue)
    (ctx : Duktape.Context) :
  m_isVarArgs m = false →
  size (m_argumentTypes m) ≤ INT_MAX →
  size (Duktape.stack ctx) < Duk.minArgs m →
  (∀ (i : nat) t, Z.of_nat i < size (Duktape.stack ctx) →
                  m_argumentTypes m !! i = Some t →
                  returns_normally (Duktape.pop t)) →
  ∃ args ctx',
    Duk.invoke m javaThis ctx = m_methodBody m javaThis args ctx' ∧
    length args = length (m_argumentTypes m) ∧
    ∀ i : nat, size (Duktape.stack ctx) ≤ Z.of_nat i < Duk.minArgs m →
               args !! i = Some JNull.
Proof.
  intros Hfixed Hint Hfew Hpop.
  pose proof (size_nonneg (Duktape.stack ctx)) as Hnn.
  assert (Duk.minArgs m ≤ size (m_argumentTypes m) ∧
          Z.to_nat (to_ssize_t (to_size_t (Duk.minArgs m - 1)) + 1)
          = Z.to_nat (Duk.minArgs m)) as [Hmin Hn].
  { rewrite duk_minArgs_fixed in * by done.
    rewrite to_size_t_small, to_ssize_t_small by lia. split; [lia | f_equal; lia]. }
  unfold Duk.invoke. unfold bind at 1. unfold Duktape.duk_get_top at 1.
  rewrite to_size_t_small by lia.
  destruct (Z.ltb_spec (size (Duktape.stack ctx)) (Duk.minArgs m)); [|lia].
  unfold bind at 1. unfold Duktape.alog_warn at 1.
  destruct (Z.gtb_spec (size (Duktape.stack ctx)) (Duk.minArgs m)); [lia|].
  rewrite andb_false_r. rewrite Hn. rewrite Hfixed.
  set (ctx0 := Duktape.mkContext _ _).
  set (args0 := replicate (length (m_argumentTypes m)) JNull).
  assert (length args0 = length (m_argumentTypes m)) as Hlen0
    by apply length_replicate.
  unfold bind at 1. unfold ret at 1.
  destruct (duk_loadArguments_spec m (size (Duktape.stack ctx))
              (Z.to_nat (Duk.minArgs m)) args0 ctx0)
    as (args & ctx' & Hrun & Hlen & Hnull & _).
  { unfold size in Hmin. lia. } { done. } { done. }
  unfold bind at 1. rewrite Hrun.
  exists args, ctx'. split; [done|]. split; [lia|].
  intros i Hi. apply Hnull; lia.
Qed.

(** A variadic method called with fewer arguments than it has fixed
    parameters, in the Duktape variant: the first thing [invoke] does
    after the warning is to ask the marshaller of the collector for
    [argCount - minArgs] values, a [size_t] difference that has wrapped. *)
Lemma duk_invoke_short_variadic (m : Duk.Method) (javaThis : JValue)
    (ctx : Duktape.Context) (collector : Duktape.JavaType) :
  m_isVarArgs m = true →
  last (m_argumentTypes m) = Some collector →
  size (m_argumentTypes m) ≤ INT_MAX →
  size (Duktape.stack ctx) < Duk.minArgs m →
  Duk.invoke m javaThis ctx
  = (array <- Duktape.popArray collector
                (2 ^ 64 - (Duk.minArgs m - size (Duktape.stack ctx))) true ;;
     args <- vector_set "args" (replicate (length (m_argumentTypes m)) JNull)
                        (to_size_t (size (replicate (length (m_argumentTypes m)) JNull) - 1))
                        array ;;
     args <- Duk.loadArguments m
               (Z.to_nat (to_ssize_t (to_size_t (Duk.minArgs m - 1)) + 1))
               (size (Duktape.stack ctx)) args ;;
     m_methodBody m javaThis args)
      (Duktape.mkContext (Duktape.stack ctx)
         (Duktape.log ctx
          ++ [NotEnoughParameters (m_methodName m) (Duk.minArgs m)
                                  (size (Duktape.stack ctx))])).
Proof.
  intros Hvar Hlast Hint Hfew.
  pose proof (size_nonneg (Duktape.stack ctx)) as Hnn.
  assert (1 ≤ size (m_argumentTypes m)) as Hone.
  { unfold size. destruct (m_argumentTypes m); [done | simpl; lia]. }
  assert (Duk.minArgs m = size (m_argumentTypes m) - 1) as Hmin
    by (apply duk_minArgs_variadic; [done | lia]).
  assert (to_size_t (size (Duktape.stack ctx) - Duk.minArgs m)
          = 2 ^ 64 - (Duk.minArgs m - size (Duktape.stack ctx))) as Hwrap.
  { unfold to_size_t, SIZE_BITS.
    replace (size (Duktape.stack ctx) - Duk.minArgs m)
      with (2 ^ 64 - (Duk.minArgs m - size (Duktape.stack ctx)) + -1 * 2 ^ 64) by lia.
    rewrite Z.mod_add by lia. apply Z.mod_small. unfold INT_MAX in Hint. lia. }
  unfold Duk.invoke. unfold bind at 1. unfold Duktape.duk_get_top at 1.
  rewrite to_size_t_small by lia.
  destruct (Z.ltb_spec (size (Duktape.stack ctx)) (Duk.minArgs m)); [|lia].
  unfold bind at 1. unfold Duktape.alog_warn at 1.
  rewrite Hvar. cbn [negb andb].
  unfold bind at 1. unfold bind at 1. unfold vector_back. rewrite Hlast.
  unfold ret at 1. rewrite Hwrap.
  unfold bind.
  by destruct (Duktape.popArray collector _ true _) as [[array|e] ctx1].
Qed.

Lemma qjs_invoke_missing_arguments (m : Qjs.Method) (javaThis : JValue)
    (argv : list JSValue) (tr : list QuickJs.Event) :
  size (m_argumentTypes m) ≤ INT_MAX →
  (m_isVarArgs m = true → m_argumentTypes m ≠ []) →
  size argv < Qjs.minArgs m →
  (∀ (k : nat) t v, argv !! k = Some v → m_argumentTypes m !! k = Some t →
                    ∃ j, QuickJs.toJava t v = Returns j) →
  (m_isVarArgs m = true →
   ∀ t, last (m_argumentTypes m) = Some t →
        ∃ a, QuickJs.toJavaArray t (JSArray []) = Returns a) →
  ∃ args tr',
    Qjs.invoke m javaThis argv tr = m_methodBody m javaThis args tr' ∧
    length args = length (m_argumentTypes m) ∧
    ∀ i : nat, size argv ≤ Z.of_nat i < Qjs.minArgs m → args !! i = Some JNull.
Proof.
  intros Hint Hwf Hfew Hconv HtoArray.
  pose proof (size_nonneg argv) as Hnn.
  unfold Qjs.invoke. unfold bind at 1.
  destruct (Z.ltb_spec (size argv) (Qjs.minArgs m)); [|lia].
  unfold QuickJs.alog_warn, QuickJs.emit at 1.
  destruct (Z.gtb_spec (size argv) (Qjs.minArgs m)); [lia|].
  rewrite andb_false_r.
  set (tr0 := tr ++ _).
  set (args0 := replicate (length (m_argumentTypes m)) JNull).
  assert (length args0 = length (m_argumentTypes m)) as Hlen0
    by apply length_replicate.
  assert (Qjs.minArgs m ≤ size (m_argumentTypes m)) as Hmin.
  { destruct (m_isVarArgs m) eqn:Hvar.
    - assert (1 ≤ size (m_argumentTypes m)).
      { unfold size. destruct (m_argumentTypes m); [by destruct Hwf | simpl; lia]. }
      rewrite qjs_minArgs_variadic by (done || lia). lia.
    - rewrite qjs_minArgs_fixed by done. lia. }
  destruct (qjs_loadArguments_spec m argv (Z.to_nat (Qjs.minArgs m)) 0 args0 tr0)
    as (args1 & Hrun & Hlen1 & Hnull & _).
  { unfold size in Hmin. lia. } { done. } { done. }
  unfold bind at 1. change 0 with (Z.of_nat 0). rewrite Hrun.
  destruct (m_isVarArgs m) eqn:Hvar.
  - assert (1 ≤ size (m_argumentTypes m)) as Hone.
    { unfold size. destruct (m_argumentTypes m); [by destruct Hwf | simpl; lia]. }
    destruct (last (m_argumentTypes m)) as [t|] eqn:Hlast.
    2:{ apply last_None in Hlast. by destruct Hwf. }
    destruct (HtoArray eq_refl t eq_refl) as [a Ha].
    unfold bind at 1. unfold bind at 1. unfold vector_back. rewrite Hlast.
    unfold ret at 1. unfold bind at 1.
    replace (Z.to_nat (size argv - Qjs.minArgs m)) with 0%nat by lia.
    simpl Qjs.fillVarArgs. unfold ret at 1.
    unfold bind at 1. unfold lift at 1. unfold QuickJs.JS_NewArray. rewrite Ha.
    unfold bind at 1. unfold size in *. rewrite Hlen1, Hlen0.
    rewrite to_size_t_small by lia.
    replace (Z.of_nat (length (m_argumentTypes m)) - 1)
      with (Z.of_nat (length (m_argumentTypes m) - 1)) by lia.
    rewrite vector_set_inside by lia.
    unfold bind at 1. unfold QuickJs.JS_FreeValue, QuickJs.emit at 1. unfold ret at 1.
    eexists _, _. split; [reflexivity|]. split.
    { rewrite length_insert. lia. }
    intros i Hi.
    assert (Qjs.minArgs m = Z.of_nat (length (m_argumentTypes m)) - 1) as Hmin'
      by (rewrite qjs_minArgs_variadic by (done || unfold size; lia); done).
    rewrite list_lookup_insert_ne by lia.
    apply Hnull; lia.
  - unfold bind at 1. unfold ret at 1.
    eexists _, _. split; [reflexivity|]. split; [lia|].
    intros i Hi. apply Hnull; lia.
Qed.

(** C2, at a variadic method in the Duktape variant.  The claim holds of
    the other calls: a method that is not variadic, in either variant,
    and every method in the QuickJS variant, called with fewer script
    arguments than [minArgs], has its method body run on an argument
    vector with null at every fixed position for which no argument was
    given, provided the marshallers of the arguments that were given
    return (first and second part).  It fails for a variadic method in
    the Duktape variant (third part): before any parameter is set to
    null, the marshaller of the collector is asked to read
    [argCount - minArgs] values off the stack, a [size_t] difference
    that has wrapped to [2^64 - (minArgs - argCount)], more than the
    stack holds; if that fails, so does [invoke], with the same
    exception, and the method body is not run. *)
Theorem short_variadic_call_fails_before_nulls_are_passed :
  (∀ (m : Duk.Method) (javaThis : JValue) (ctx : Duktape.Context),
      m_isVarArgs m = false →
      size (m_argumentTypes m) ≤ INT_MAX →
      size (Duktape.stack ctx) < Duk.minArgs m →
      (∀ (i : nat) t, Z.of_nat i < size (Duktape.stack ctx) →
                      m_argumentTypes m !! i = Some t →
                      returns_normally (Duktape.pop t)) →
      ∃ args ctx',
        Duk.invoke m javaThis ctx = m_methodBody m javaThis args ctx' ∧
        length args = length (m_argumentTypes m) ∧
        ∀ i : nat, size (Duktape.stack ctx) ≤ Z.of_nat i < Duk.minArgs m →
                   args !! i = Some JNull) ∧
  (∀ (m : Qjs.Method) (javaThis : JValue) (argv : list JSValue)
     (tr : list QuickJs.Event),
      size (m_argumentTypes m) ≤ INT_MAX →
      (m_isVarArgs m = true → m_argumentTypes m ≠ []) →
      size argv < Qjs.minArgs m →
      (∀ (k : nat) t v, argv !! k = Some v → m_argumentTypes m !! k = Some t →
                        ∃ j, QuickJs.toJava t v = Returns j) →
      (m_isVarArgs m = true →
       ∀ t, last (m_argumentTypes m) = Some t →
            ∃ a, QuickJs.toJavaArray t (JSArray []) = Returns a) →
      ∃ args tr',
        Qjs.invoke m javaThis argv tr = m_methodBody m javaThis args tr' ∧
        length args = length (m_argumentTypes m) ∧
        ∀ i : nat, size argv ≤ Z.of_nat i < Qjs.minArgs m → args !! i = Some JNull) ∧
  (∀ (m : Duk.Method) (javaThis : JValue) (ctx : Duktape.Context)
     (collector : Duktape.JavaType) (e : Thrown) (ctx' : Duktape.Context),
      m_isVarArgs m = true →
      last (m_argumentTypes m) = Some collector →
      size (m_argumentTypes m) ≤ INT_MAX →
      size (Duktape.stack ctx) < Duk.minArgs m →
      let count := 2 ^ 64 - (Duk.minArgs m - size (Duktape.stack ctx)) in
      Duktape.popArray collector count true
        (Duktape.mkContext (Duktape.stack ctx)
           (Duktape.log ctx
            ++ [NotEnoughParameters (m_methodName m) (Duk.minArgs m)
                                    (size (Duktape.stack ctx))]))
      = (Throws e, ctx') →
      count = to_size_t (size (Duktape.stack ctx) - Duk.minArgs m) ∧
      size (Duktape.stack ctx) < count ∧
      Duk.invoke m javaThis ctx = (Throws e, ctx')).
Proof.
  split; [|split].
  - intros. by apply duk_invoke_missing_arguments.
  - intros. by apply qjs_invoke_missing_arguments.
  - intros m javaThis ctx collector e ctx' Hvar Hlast Hint Hfew count Hthrow.
    pose proof (size_nonneg (Duktape.stack ctx)) as Hnn.
    assert (1 ≤ size (m_argumentTypes m)) as Hone.
    { unfold size. destruct (m_argumentTypes m); [done | simpl; lia]. }
    pose proof (duk_minArgs_variadic m Hvar ltac:(lia)) as Hmin.
    split; [|split].
    + subst count. unfold to_size_t, SIZE_BITS.
      replace (size (Duktape.stack ctx) - Duk.minArgs m)
        with (2 ^ 64 - (Duk.minArgs m - size (Duktape.stack ctx)) + -1 * 2 ^ 64) by lia.
      rewrite Z.mod_add by lia. symmetry. apply Z.mod_small.
      unfold INT_MAX in Hint. lia.
    + subst count. unfold INT_MAX in Hint. lia.
    + rewrite (duk_invoke_short_variadic m javaThis ctx collector) by done.
      fold count. unfold bind at 1. by rewrite Hthrow.
Qed.

(** *** Where the two variants agree *)

(** Both variants compute the same [minArgs] for a method with the same
    declared parameters. *)
Lemma minArgs_agree (md : Duk.Method) (mq : Qjs.Method) :
  m_isVarArgs md = m_isVarArgs mq →
  length (m_argumentTypes md) = length (m_argumentTypes mq) →
  size (m_argumentTypes md) ≤ INT_MAX →
  (m_isVarArgs md = true → 1 ≤ size (m_argumentTypes md)) →
  Duk.minArgs md = Qjs.minArgs mq.
Proof.
  intros Hvar Hlen Hint Hwf. unfold size in *.
  destruct (m_isVarArgs md) eqn:Hd.
  - rewrite duk_minArgs_variadic, qjs_minArgs_variadic;
      unfold size; rewrite <- ?Hlen; try done; lia.
  - rewrite duk_minArgs_fixed, qjs_minArgs_fixed;
      unfold size; rewrite <- ?Hlen; try done; lia.
Qed.

(** With at least [minArgs] arguments, the number of values that the
    Duktape variant asks its collector to read is the [varArgCount] of
    the QuickJS variant. *)
Lemma collector_count_agrees (argCount minArgs : Z) :
  0 ≤ minArgs ≤ argCount → argCount ≤ INT_MAX →
  to_size_t (argCount - minArgs) = argCount - minArgs.
Proof. intros. apply to_size_t_small. lia. Qed.

(** *** The two variants on a short variadic call *)

(** C9, at a call that gives a variadic method fewer arguments than it
    has fixed parameters: a method of two declared parameters, the second
    of which is the variadic one, called with no argument.  Both variants
    log the warning.  The Duktape variant then asks the collector's
    marshaller to read [argCount - minArgs] values off the empty value
    stack, a [size_t] difference that wraps to [2^64 - 1]; the QuickJS
    variant hands the collector's marshaller the empty array. *)
Theorem invoke_variants_differ_on_short_variadic_call :
  (∀ (name : string) (isLambda : bool) (fixed collector returned : Duktape.JavaType)
     (body : JValue → list JValue → Duktape.Duk Z) (javaThis : JValue)
     (log : list LogEntry),
      Duk.invoke (mkJavaMethod name isLambda true [fixed; collector] returned body)
                 javaThis (Duktape.mkContext [] log)
      = (array <- Duktape.popArray collector (2 ^ 64 - 1) true ;;
         body javaThis [JNull; array])%cpp
          (Duktape.mkContext [] (log ++ [NotEnoughParameters name 1 0]))) ∧
  (∀ (name : string) (isLambda : bool) (fixed collector returned : QuickJs.JavaType)
     (body : JValue → list JValue → QuickJs.Qjs JSValue) (javaThis : JValue)
     (tr : list QuickJs.Event),
      Qjs.invoke (mkJavaMethod name isLambda true [fixed; collector] returned body)
                 javaThis [] tr
      = (array <- lift (QuickJs.toJavaArray collector (JSArray [])) ;;
         QuickJs.JS_FreeValue (JSArray []) ;;;
         body javaThis [JNull; array])%cpp
          (tr ++ [QuickJs.Logged (NotEnoughParameters name 1 0)])).
Proof.
  split.
  - intros name isLambda fixed [cpop cpopArray cpush cpushArray cdeferred] returned
      body javaThis log.
    vm_compute. by destruct (cpopArray _ _ _) as [[array|e] ctx'].
  - intros name isLambda fixed [ctoJava ctoJavaArray cfromJava cfromJavaArray cdeferred]
      returned body javaThis tr.
    vm_compute. by destruct (ctoJavaArray _) as [array|e].
Qed.

End JavaMethodFacts.


Module JavaMethodWitnesses.
Import Native JsValues JavaMethod JavaMethodFacts.
Local Open Scope Z_scope.

(** [add(1, 2, 3)] *)
Lemma invoke_rejects_too_many_arguments_witness :
  let argv := [JSNumber 1; JSNumber 2; JSNumber 3] in
  let what := "Too many parameters when calling Java method add (expected: 2, received: 3)" in
  Duk.invoke NativeSamples.Duk.add JNull (NativeSamples.Duk.stackOf argv)
  = (Throws (std_invalid_argument what), NativeSamples.Duk.stackOf argv) ∧
  Qjs.invoke NativeSamples.Qjs.add JNull argv []
  = (Throws (std_invalid_argument what), []).
Proof.
  destruct invoke_rejects_too_many_arguments as [Hduk Hqjs].
  split.
  - refine (proj2 (Hduk NativeSamples.Duk.add JNull _ _ _ _)).
    + reflexivity.
    + by vm_compute.
    + reflexivity.
  - refine (proj2 (Hqjs NativeSamples.Qjs.add JNull _ [] _ _ _)).
    + reflexivity.
    + by vm_compute.
    + reflexivity.
Defined.


(** [add(1)] in both variants, and [join()], which has one fixed
    parameter, in both variants. *)
Lemma short_variadic_call_fails_before_nulls_are_passed_witness :
  (∃ args ctx',
      Duk.invoke NativeSamples.Duk.add JNull (NativeSamples.Duk.stackOf [JSNumber 1])
      = NativeSamples.Duk.countingBody JNull args ctx' ∧
      length args = 2%nat ∧
      ∀ i : nat, 1 ≤ Z.of_nat i < 2 → args !! i = Some JNull) ∧
  (∃ args tr',
      Qjs.invoke NativeSamples.Qjs.join JNull [] []
      = NativeSamples.Qjs.countingBody JNull args tr' ∧
      length args = 2%nat ∧
      ∀ i : nat, 0 ≤ Z.of_nat i < 1 → args !! i = Some JNull) ∧
  (2 ^ 64 - 1 = to_size_t (0 - 1) ∧
   0 < 2 ^ 64 - 1 ∧
   Duk.invoke NativeSamples.Duk.join JNull (NativeSamples.Duk.stackOf [])
   = (Throws (duk_internal_exception "invalid count"),
      Duktape.mkContext [] [NotEnoughParameters "join" 1 0])).
Proof.
  destruct short_variadic_call_fails_before_nulls_are_passed as (Hduk & Hqjs & Hslip).
  split; [|split].
  - apply (Hduk NativeSamples.Duk.add JNull
             (NativeSamples.Duk.stackOf [JSNumber 1])).
    + reflexivity.
    + by vm_compute.
    + reflexivity.
    + intros [|[|i]] t _ [= <-];
        intros [st lg]; simpl; unfold NativeSamples.Duk.popAny, bind; simpl;
        destruct (last st); simpl; eauto.
  - apply (Hqjs NativeSamples.Qjs.join JNull [] []).
    + by vm_compute.
    + intros _ [=].
    + reflexivity.
    + intros k t v [=].
    + intros _ t [= <-]. by eexists.
  - apply (Hslip NativeSamples.Duk.join JNull (NativeSamples.Duk.stackOf [])
             NativeSamples.Duk.anyType).
    + reflexivity.
    + reflexivity.
    + by vm_compute.
    + reflexivity.
    + reflexivity.
Defined.


(** [join()] with the sample marshallers, whose [popArray] pops the
    values it is asked for with [duk_pop_n]: the call throws in the
    Duktape variant and calls the method body with an empty collector
    array in the QuickJS variant. *)
Example short_variadic_call_with_sample_marshallers :
  fst (Duk.invoke NativeSamples.Duk.join JNull (NativeSamples.Duk.stackOf []))
  = Throws (duk_internal_exception "invalid count") ∧
  fst (Qjs.invoke NativeSamples.Qjs.join JNull [] [])
  = fst (NativeSamples.Qjs.countingBody JNull [JNull; JArray []] []).
Proof. split; reflexivity. Qed.

End JavaMethodWitnesses.

(** ** JavaScriptMethod.cpp: the constructor *)

Module ConstructorFacts.
Import Native JsValues IntegerFacts JavaScriptMethod Notions.
Import Reflection(JsBridgeParameter).
Local Open Scope Z_scope.

Section Provider.

Context {T : Type}.
Variable makeUniqueType : option JsBridgeParameter -> bool -> Outcome Thrown T.
Variable getGenericParameter : JsBridgeParameter -> option JsBridgeParameter.


Lemma createJavaTypes_spec (variadic : bool) (parameters : list JsBridgeParameter) :
  size parameters ≤ INT_MAX →
  ∀ (rest done : list JsBridgeParameter) (acc result : list T),
    parameters = done ++ rest →
    length acc = length done →
    (∀ i p t, done !! i = Some p → acc !! i = Some t →
              builtAs makeUniqueType getGenericParameter variadic (length parameters) i p t) →
    createJavaTypes makeUniqueType getGenericParameter variadic (size parameters)
                    (Z.of_nat (length done)) rest acc = Returns result →
    length result = length parameters ∧
    ∀ i p t, parameters !! i = Some p → result !! i = Some t →
             builtAs makeUniqueType getGenericParameter variadic (length parameters) i p t.
Proof.
  intros Hint rest. induction rest as [|parameter rest IH];
    intros done acc result Hsplit Hlen Hacc Hrun.
  - simpl in Hrun. injection Hrun as <-. rewrite app_nil_r in Hsplit. subst done.
    split; [done|]. exact Hacc.
  - assert (length parameters = (length done + S (length rest))%nat) as Hcount
      by (rewrite Hsplit, length_app; done).
    unfold size in Hint. simpl in Hrun.
    rewrite to_size_t_small in Hrun by lia.
    destruct (Z.eqb_spec (Z.of_nat (length done))
                (to_size_t (size parameters - 1))) as [Hlast|Hnotlast].
    + (* the index of the last parameter *)
      unfold size in Hlast. rewrite to_size_t_small in Hlast by lia.
      assert (rest = []) as -> by (destruct rest; [done | simpl in Hcount; lia]).
      destruct variadic; simpl in Hrun.
      * destruct (makeUniqueType (getGenericParameter parameter) false)
          as [javaType|e] eqn:Hmake; simpl in Hrun; [|done].
        injection Hrun as <-. split.
        { rewrite length_app, Hlen, Hcount. simpl. lia. }
        intros i p t Hp Ht. rewrite Hsplit in Hp.
        destruct (decide (i < length done)%nat) as [Hlt|Hge].
        -- rewrite lookup_app_l in Hp by lia. rewrite lookup_app_l in Ht by lia. by eapply Hacc.
        -- rewrite lookup_app_r in Hp by lia. rewrite lookup_app_r in Ht by lia.
           rewrite Hlen in Ht.
           destruct (i - length done)%nat as [|k] eqn:Hk; [|done].
           injection Hp as <-. injection Ht as <-.
           unfold builtAs. rewrite bool_decide_eq_true_2 by lia. done.
      * destruct (makeUniqueType (Some parameter) true)
          as [javaType|e] eqn:Hmake; simpl in Hrun; [|done].
        injection Hrun as <-. split.
        { rewrite length_app, Hlen, Hcount. simpl. lia. }
        intros i p t Hp Ht. rewrite Hsplit in Hp.
        destruct (decide (i < length done)%nat) as [Hlt|Hge].
        -- rewrite lookup_app_l in Hp by lia. rewrite lookup_app_l in Ht by lia. by eapply Hacc.
        -- rewrite lookup_app_r in Hp by lia. rewrite lookup_app_r in Ht by lia.
           rewrite Hlen in Ht.
           destruct (i - length done)%nat as [|k] eqn:Hk; [|done].
           injection Hp as <-. injection Ht as <-. done.
    + (* an earlier index *)
      unfold size in Hnotlast. rewrite to_size_t_small in Hnotlast by lia.
      rewrite andb_false_r in Hrun.
      destruct (makeUniqueType (Some parameter) true)
        as [javaType|e] eqn:Hmake; simpl in Hrun; [|done].
      replace (Z.of_nat (length done) + 1)
        with (Z.of_nat (length (done ++ [parameter]))) in Hrun
        by (rewrite length_app; simpl; lia).
      apply (IH (done ++ [parameter]) (acc ++ [javaType]) result).
      * by rewrite <- app_assoc.
      * rewrite !length_app. simpl. lia.
      * intros i p t Hp Ht.
        destruct (decide (i < length done)%nat) as [Hlt|Hge].
        -- rewrite lookup_app_l in Hp by lia. rewrite lookup_app_l in Ht by lia. by eapply Hacc.
        -- rewrite lookup_app_r in Hp by lia. rewrite lookup_app_r in Ht by lia.
           rewrite Hlen in Ht.
           destruct (i - length done)%nat as [|k] eqn:Hk; [|done].
           injection Hp as <-. injection Ht as <-.
           unfold builtAs. rewrite bool_decide_eq_false_2 by lia.
           by rewrite andb_false_r.
      * exact Hrun.
Qed.

(** C6, as the code has it.  In a [JavaScriptMethod] that the constructor
    built, the return marshaller and the marshaller of every parameter
    but a variadic last one were requested in boxed form; the marshaller
    of a variadic last parameter was requested for its element
    descriptor and in unboxed form ([boxed = false]). *)
Theorem argument_marshallers_boxed_except_variadic
    (methodInterface : MethodInterface) (methodName : string) (isLambda : bool)
    (jsMethod : JavaScriptMethod T) :
  size (getParameters methodInterface) ≤ INT_MAX →
  new_JavaScriptMethod makeUniqueType getGenericParameter methodInterface
                       methodName isLambda = Returns jsMethod →
  makeUniqueType (Some (getReturnParameter methodInterface)) true
  = Returns (m_returnValueType jsMethod) ∧
  length (m_argumentTypes jsMethod) = length (getParameters methodInterface) ∧
  ∀ i p t,
    getParameters methodInterface !! i = Some p →
    m_argumentTypes jsMethod !! i = Some t →
    if isVarArgs methodInterface
       && bool_decide (S i = length (getParameters methodInterface))
    then makeUniqueType (getGenericParameter p) false = Returns t
    else makeUniqueType (Some p) true = Returns t.
Proof.
  intros Hint Hnew. unfold new_JavaScriptMethod in Hnew.
  destruct (makeUniqueType (Some (getReturnParameter methodInterface)) true)
    as [returned|e] eqn:Hret; simpl in Hnew; [|done].
  destruct (createJavaTypes _ _ _ _ _ _ _) as [types|e] eqn:Hloop;
    simpl in Hnew; [|done].
  injection Hnew as <-. simpl. split; [done|].
  apply (createJavaTypes_spec (isVarArgs methodInterface)
           (getParameters methodInterface) Hint
           (getParameters methodInterface) [] [] types); try done.
Qed.

End Provider.

End ConstructorFacts.


Module ConstructorWitnesses.
Import Native Reflection JavaScriptMethod ConstructorFacts ConstructorSamples.
Local Open Scope Z_scope.

(** The marshallers requested for [join]. *)
Lemma argument_marshallers_boxed_except_variadic_witness :
  recordingProvider (Some returnParameter) true
  = Returns (m_returnValueType joinMethod) ∧
  length (m_argumentTypes joinMethod) = 2%nat ∧
  ∀ i p t,
    [separatorParameter; partsParameter] !! i = Some p →
    m_argumentTypes joinMethod !! i = Some t →
    if true && bool_decide (S i = 2%nat)
    then recordingProvider (genericParameterOf p) false = Returns t
    else recordingProvider (Some p) true = Returns t.
Proof.
  apply (argument_marshallers_boxed_except_variadic
           recordingProvider genericParameterOf joinInterface "join" false joinMethod).
  - by vm_compute.
  - reflexivity.
Defined.

(** C6, as the claim has it, fails: the constructor requests the
    marshaller of the variadic last parameter of [join] with
    [boxed = false]. *)
Lemma variadic_marshaller_requested_unboxed :
  omap m_argumentTypes
       (new_JavaScriptMethod recordingProvider genericParameterOf joinInterface
                             "join" false)
  = Returns [(Some separatorParameter, true); (Some partParameter, false)].
Proof. reflexivity. Qed.

End ConstructorWitnesses.

(** ** JavaScriptMethod.cpp: [invoke] *)

Module MonadFacts.
Import Native.

Lemma bind_Returns_inv {S A B} (c : M S A) (k : A → M S B) (s s' : S) (b : B) :
  bind c k s = (Returns b, s') →
  ∃ a s1, c s = (Returns a, s1) ∧ k a s1 = (Returns b, s').
Proof.
  unfold bind. destruct (c s) as [[a|e] s1]; [eauto | done].
Qed.

Lemma bind_Returns {S A B} (c : M S A) (k : A → M S B) (s s1 : S) (a : A) :
  c s = (Returns a, s1) → bind c k s = k a s1.
Proof. unfold bind. by intros ->. Qed.

Lemma bind_Throws {S A B} (c : M S A) (k : A → M S B) (s s1 : S) (e : Thrown) :
  c s = (Throws e, s1) → bind c k s = (Throws e, s1).
Proof. unfold bind. by intros ->. Qed.

(** A handler that only rethrows changes nothing. *)
Lemma try_catch_rethrow {S A} (c : M S A) (handles : Thrown → bool) (s : S) :
  try_catch c handles (λ e, throw e) s = c s.
Proof.
  unfold try_catch, throw. destruct (c s) as [[a|e] s']; [done|].
  by destruct (handles e).
Qed.

(** A handler that ends in [throw] never makes the block return. *)
Lemma try_catch_Returns_inv {S A B} (c : M S A) (handles : Thrown → bool)
    (cleanup : Thrown → M S B) (s s' : S) (a : A) :
  try_catch c handles (λ e, bind (cleanup e) (λ _, throw e)) s = (Returns a, s') →
  c s = (Returns a, s').
Proof.
  unfold try_catch, bind, throw. destruct (c s) as [[a'|e] s1]; [done|].
  destruct (handles e); [|done]. by destruct (cleanup e s1) as [[?|?] ?].
Qed.

End MonadFacts.

Module QuickJsInvokeFacts.
Import Native JsValues IntegerFacts MonadFacts JavaScriptMethod QuickJs Notions.
Import Reflection(JsBridgeParameter).
Import JavaMethodFacts(vector_at_Some, vector_set_inside).
Local Open Scope Z_scope.
Local Open Scope cpp_scope.

Section Engine.

Variable call : CallSemantics.
Variable getDeferredType : JsBridgeParameter -> JavaType.
Variable getCurrentJsException : Qjs Thrown.

(** The free loop frees the entries [j, j + n) in order. *)
Lemma freeArgs_spec (jsArgs : list JSValue) (n : nat) :
  ∀ (j : nat) (tr : list Event),
    (j + n ≤ length jsArgs)%nat →
    Qjs.freeArgs n (Z.of_nat j) jsArgs tr
    = (Returns (), tr ++ map Free (take n (drop j jsArgs))).
Proof.
  induction n as [|n IH]; intros j tr Hn; simpl.
  - unfold ret. by rewrite app_nil_r.
  - assert (is_Some (jsArgs !! j)) as [v Hv] by (apply lookup_lt_is_Some; lia).
    rewrite (bind_Returns _ _ _ _ _ (vector_at_Some _ _ _ _ _ Hv)).
    unfold bind at 1, JS_FreeValue, emit.
    replace (Z.of_nat j + 1) with (Z.of_nat (S j)) by lia.
    rewrite IH by lia. rewrite (drop_S _ _ _ Hv). simpl.
    by rewrite <- app_assoc.
Qed.

Lemma expandVarArgs_length (varArgJsArray : JSValue) (n : nat) :
  ∀ (j i : Z) (jsArgs jsArgs' : list JSValue) (tr tr' : list Event),
    Qjs.expandVarArgs n j i varArgJsArray jsArgs tr = (Returns jsArgs', tr') →
    length jsArgs' = length jsArgs.
Proof.
  induction n as [|n IH]; intros j i jsArgs jsArgs' tr tr' Hrun; simpl in Hrun.
  - by injection Hrun as <- _.
  - apply bind_Returns_inv in Hrun as (jsArgs1 & tr1 & Hset & Hrun).
    apply IH in Hrun. rewrite Hrun. unfold vector_set in Hset.
    destruct ((0 <=? i) && (i <? Z.of_nat (length jsArgs))); [|done].
    injection Hset as <- _. apply length_insert.
Qed.

Lemma convertArguments_length (m : Qjs.Method) (numJavaArguments : Z)
    (varArgJavaArray : JValue) (varArgCount : Z) (javaArgs : JObjectArray) (n : nat) :
  ∀ (i : Z) (jsArgs jsArgs' : list JSValue) (tr tr' : list Event),
    Qjs.convertArguments m n i numJavaArguments varArgJavaArray varArgCount
                         javaArgs jsArgs tr = (Returns jsArgs', tr') →
    length jsArgs' = length jsArgs.
Proof.
  induction n as [|n IH]; intros i jsArgs jsArgs' tr tr' Hrun; simpl in Hrun.
  - by injection Hrun as <- _.
  - apply bind_Returns_inv in Hrun as (javaArg & tr1 & _ & Hrun).
    apply bind_Returns_inv in Hrun as (argumentType & tr2 & _ & Hrun).
    apply bind_Returns_inv in Hrun as (step & tr3 & Hstep & Hrun).
    apply try_catch_Returns_inv in Hstep.
    destruct (m_isVarArgs m && (i >=? numJavaArguments - 1)).
    + apply bind_Returns_inv in Hstep as (arr & tr4 & _ & Hstep).
      apply bind_Returns_inv in Hstep as (expanded & tr5 & Hexpand & Hstep).
      apply bind_Returns_inv in Hstep as (u & tr6 & _ & Hstep).
      injection Hstep as <- _. injection Hrun as <- _.
      by eapply expandVarArgs_length.
    + apply bind_Returns_inv in Hstep as (v & tr4 & _ & Hstep).
      apply bind_Returns_inv in Hstep as (jsArgs1 & tr5 & Hset & Hstep).
      injection Hstep as <- _. apply IH in Hrun. rewrite Hrun.
      unfold vector_set in Hset.
      destruct ((0 <=? i) && (i <? Z.of_nat (length jsArgs))); [|done].
      injection Hset as <- _. apply length_insert.
Qed.

Lemma marshalArguments_length (m : Qjs.Method) (javaArgs : JObjectArray)
    (numJsArguments : Z) (jsArgs : list JSValue) (tr tr' : list Event) :
  Qjs.marshalArguments m javaArgs tr = (Returns (numJsArguments, jsArgs), tr') →
  length jsArgs = Z.to_nat numJsArguments.
Proof.
  unfold Qjs.marshalArguments. intros Hrun.
  apply bind_Returns_inv in Hrun as ([[varArgJavaArray varArgCount] n] & tr1 & _ & Hrun).
  apply bind_Returns_inv in Hrun as (converted & tr2 & Hconv & Hrun).
  injection Hrun as <- <- _.
  apply convertArguments_length in Hconv. by rewrite Hconv, length_replicate.
Qed.


Lemma qjs_invoke_result (m : Qjs.Method) (jsMethod jsThis : JSValue)
    (javaArgs : JObjectArray) (awaitJsPromise : bool) (tr tr' : list Event)
    (numJsArguments : Z) (jsArgs : list JSValue) :
  Qjs.marshalArguments m javaArgs tr = (Returns (numJsArguments, jsArgs), tr') →
  JS_IsException (JS_Call call jsMethod jsThis jsArgs) = false →
  let ret := JS_Call call jsMethod jsThis jsArgs in
  Qjs.invoke call getDeferredType getCurrentJsException m jsMethod jsThis javaArgs
             awaitJsPromise tr
  = (toJava (qjsResultMarshaller getDeferredType m awaitJsPromise ret) ret,
     tr' ++ map Free jsArgs ++ [Free ret]).
Proof.
  intros Hargs Hok ret. subst ret. unfold Qjs.invoke.
  rewrite (bind_Returns _ _ _ _ _ Hargs).
  apply marshalArguments_length in Hargs.
  unfold autorelease, bind.
  change 0 with (Z.of_nat 0). rewrite freeArgs_spec by (simpl; lia).
  rewrite drop_0, take_ge by lia.
  unfold Qjs.convertResult. rewrite Hok.
  unfold qjsResultMarshaller, lift.
  destruct (awaitJsPromise && is_object _ && has_property _ "then"
            && negb (isDeferred (m_returnValueType m)));
    by rewrite <- app_assoc.
Qed.


(** *** The variadic tail is read first *)

Lemma readVarArgs_without_arguments (m : Qjs.Method) (javaArgs : JObjectArray)
    (tr : list Event) :
  m_isVarArgs m = true →
  numberOfArguments javaArgs = 0 →
  Qjs.readVarArgs m javaArgs tr
  = (Throws (undefined_behaviour "JObjectArrayLocalRef" (-1)), tr).
Proof.
  intros Hvar Hnone. unfold Qjs.readVarArgs. rewrite Hvar, Hnone.
  destruct javaArgs as [l|]; [|done].
  destruct l; [done | unfold numberOfArguments, size in Hnone; simpl in Hnone; lia].
Qed.

Lemma readVarArgs_last (m : Qjs.Method) (front : list JValue) (v : JValue)
    (tr : list Event) :
  m_isVarArgs m = true →
  Qjs.readVarArgs m (Some (front ++ [v])) tr
  = (varArgCount <- getArrayLength v ;;
     ret (v, varArgCount, size (front ++ [v]) + (varArgCount - 1))) tr.
Proof.
  intros Hvar. unfold Qjs.readVarArgs. rewrite Hvar.
  unfold numberOfArguments, getElement.
  assert ((front ++ [v]) !! length front = Some v) as Hv
    by (rewrite lookup_app_r by lia; by rewrite Nat.sub_diag).
  replace (size (front ++ [v]) - 1) with (Z.of_nat (length front))
    by (unfold size; rewrite length_app; simpl; lia).
  by rewrite (bind_Returns _ _ _ _ _ (vector_at_Some _ _ _ _ _ Hv)).
Qed.

(** What [invoke] does once the vararg array has been read. *)
Lemma qjs_invoke_after_readVarArgs (m : Qjs.Method) (jsMethod jsThis : JSValue)
    (front : list JValue) (varArgJavaArray : JValue) (awaitJsPromise : bool)
    (tr : list Event) :
  m_isVarArgs m = true →
  let javaArgs := Some (front ++ [varArgJavaArray]) in
  Qjs.invoke call getDeferredType getCurrentJsException m jsMethod jsThis javaArgs
             awaitJsPromise tr
  = (varArgCount <- getArrayLength varArgJavaArray ;;
     let numJsArguments := numberOfArguments javaArgs + (varArgCount - 1) in
     jsArgs <- Qjs.convertArguments m (Z.to_nat numJsArguments) 0
                 (numberOfArguments javaArgs) varArgJavaArray varArgCount javaArgs
                 (replicate (Z.to_nat numJsArguments) JSUndefined) ;;
     let ret := JS_Call call jsMethod jsThis jsArgs in
     autorelease ret (
       Qjs.freeArgs (Z.to_nat numJsArguments) 0 jsArgs ;;;
       Qjs.convertResult getDeferredType getCurrentJsException m awaitJsPromise ret)) tr.
Proof.
  intros Hvar javaArgs. subst javaArgs.
  unfold Qjs.invoke, Qjs.marshalArguments.
  unfold bind at 1. unfold bind at 1.
  rewrite (readVarArgs_last m front varArgJavaArray tr Hvar).
  unfold bind at 1. unfold bind at 3.
  destruct (getArrayLength varArgJavaArray tr) as [[varArgCount|e] tr1]; [|done].
  unfold ret at 1. cbv zeta. unfold numberOfArguments.
  unfold bind at 1. unfold bind at 2.
  by destruct (Qjs.convertArguments _ _ _ _ _ _ _ _ _) as [[jsArgs|e] tr2].
Qed.

(** C10.  In the QuickJS variant, a variadic invoker first of all reads
    the host argument at index [numJavaArguments - 1] as the vararg
    array.  With a null or an empty argument array that is the access at
    index [-1], at which the run stops.  With an argument array of at
    least one element, the last element is taken as the vararg array
    whatever it is: its length is asked for before any argument is
    converted, it decides the number of script arguments, and it is the
    array that the conversion loop expands; if it is no array, [invoke]
    stops at that question, with nothing converted.  A variadic
    invocation that does not stop at index [-1] was therefore given a
    non-null argument array of at least one element, and one that
    returns was given an array as the last element. *)
Theorem variadic_invoke_reads_trailing_array_first (m : Qjs.Method)
    (jsMethod jsThis : JSValue) (javaArgs : JObjectArray) (awaitJsPromise : bool)
    (tr : list Event) :
  m_isVarArgs m = true →
  (numberOfArguments javaArgs = 0 →
   Qjs.invoke call getDeferredType getCurrentJsException m jsMethod jsThis javaArgs
              awaitJsPromise tr
   = (Throws (undefined_behaviour "JObjectArrayLocalRef" (-1)), tr)) ∧
  (∀ front varArgJavaArray,
      javaArgs = Some (front ++ [varArgJavaArray]) →
      Qjs.invoke call getDeferredType getCurrentJsException m jsMethod jsThis javaArgs
                 awaitJsPromise tr
      = (varArgCount <- getArrayLength varArgJavaArray ;;
         let numJsArguments := numberOfArguments javaArgs + (varArgCount - 1) in
         jsArgs <- Qjs.convertArguments m (Z.to_nat numJsArguments) 0
                     (numberOfArguments javaArgs) varArgJavaArray varArgCount javaArgs
                     (replicate (Z.to_nat numJsArguments) JSUndefined) ;;
         let ret := JS_Call call jsMethod jsThis jsArgs in
         autorelease ret (
           Qjs.freeArgs (Z.to_nat numJsArguments) 0 jsArgs ;;;
           Qjs.convertResult getDeferredType getCurrentJsException m awaitJsPromise ret))
          tr ∧
      ((∀ elements, varArgJavaArray ≠ JArray elements) →
       Qjs.invoke call getDeferredType getCurrentJsException m jsMethod jsThis javaArgs
                  awaitJsPromise tr
       = (Throws (undefined_behaviour "GetArrayLength" 0), tr))) ∧
  (∀ outcome tr',
      Qjs.invoke call getDeferredType getCurrentJsException m jsMethod jsThis
                 javaArgs awaitJsPromise tr = (outcome, tr') →
      outcome ≠ Throws (undefined_behaviour "JObjectArrayLocalRef" (-1)) →
      ∃ front varArgJavaArray, javaArgs = Some (front ++ [varArgJavaArray])) ∧
  (∀ result tr',
      Qjs.invoke call getDeferredType getCurrentJsException m jsMethod jsThis
                 javaArgs awaitJsPromise tr = (Returns result, tr') →
      ∃ front elements, javaArgs = Some (front ++ [JArray elements])).
Proof.
  intros Hvar.
  assert (numberOfArguments javaArgs = 0 →
          Qjs.invoke call getDeferredType getCurrentJsException m jsMethod jsThis
                     javaArgs awaitJsPromise tr
          = (Throws (undefined_behaviour "JObjectArrayLocalRef" (-1)), tr)) as Hstop.
  { intros Hnone. unfold Qjs.invoke, Qjs.marshalArguments.
    erewrite bind_Throws; [done|]. erewrite bind_Throws; [done|].
    by apply readVarArgs_without_arguments. }
  assert (∀ front varArgJavaArray,
             javaArgs = Some (front ++ [varArgJavaArray]) →
             (∀ elements, varArgJavaArray ≠ JArray elements) →
             Qjs.invoke call getDeferredType getCurrentJsException m jsMethod jsThis
                        javaArgs awaitJsPromise tr
             = (Throws (undefined_behaviour "GetArrayLength" 0), tr)) as Hnoarray.
  { intros front v -> Hv.
    rewrite (qjs_invoke_after_readVarArgs m jsMethod jsThis front v awaitJsPromise tr Hvar).
    unfold bind at 1. destruct v as [| | |elements]; try done. by destruct (Hv elements). }
  split; [done|]. split; [|split].
  - intros front v ->. split; [|by apply (Hnoarray front v eq_refl)].
    by apply qjs_invoke_after_readVarArgs.
  - intros outcome tr' Hrun Hnot.
    destruct javaArgs as [l|].
    + destruct l as [|x l _] using rev_ind.
      * rewrite Hstop in Hrun by done. by injection Hrun as <- _.
      * by exists l, x.
    + rewrite Hstop in Hrun by done. by injection Hrun as <- _.
  - intros result tr' Hrun.
    destruct javaArgs as [l|]; [|by rewrite Hstop in Hrun].
    destruct l as [|x l _] using rev_ind; [by rewrite Hstop in Hrun|].
    destruct x as [| | |elements]; [| | |by exists l, elements];
      by rewrite (Hnoarray l _ eq_refl) in Hrun.
Qed.

(** *** Release of the converted arguments on failure *)



End Engine.
End QuickJsInvokeFacts.

Module DuktapeInvokeFacts.
Import Native JsValues IntegerFacts MonadFacts JavaScriptMethod Duktape.
Import Reflection(JsBridgeParameter).
Import JavaMethodFacts(vector_at_Some).
Import Notions.
Local Open Scope Z_scope.
Local Open Scope cpp_scope.



Lemma value_at_top (st : list JSValue) : value_at st (-1) = last st.
Proof.
  unfold value_at, normalize. simpl.
  destruct st as [|x st _] using rev_ind; [done|].
  rewrite last_snoc. unfold size. rewrite length_app. simpl.
  destruct (Z.leb_spec 0 (Z.of_nat (length st + 1) + -1)); [|lia].
  destruct (Z.ltb_spec (Z.of_nat (length st + 1) + -1) (Z.of_nat (length st + 1)));
    [|lia].
  simpl. replace (Z.to_nat (Z.of_nat (length st + 1) + -1)) with (length st) by lia.
  rewrite lookup_app_r by lia. by rewrite Nat.sub_diag.
Qed.

Section Engine.

Variable call : CallSemantics.
Variable getDeferredType : JsBridgeParameter -> JavaType.
Variable getCurrentJsException : Duk Thrown.


Lemma popResult_spec (m : Duk.Method) (awaitJsPromise : bool) (ctx : Context) :
  Duk.popResult getDeferredType m awaitJsPromise ctx
  = pop (dukResultMarshaller getDeferredType m awaitJsPromise (stack ctx)) ctx.
Proof.
  unfold Duk.popResult, dukResultMarshaller.
  destruct awaitJsPromise; simpl; [|done].
  unfold bind at 1. unfold bind at 1.
  unfold duk_is_object, duk_test, bind, get_stack, ret.
  rewrite value_at_top. destruct (last (stack ctx)) as [top|] eqn:Htop; [|done].
  destruct (is_object top) eqn:Hobj; [|done].
  unfold duk_has_prop_string, duk_require_value, bind, get_stack, ret.
  rewrite value_at_top, Htop, Hobj. simpl.
  by destruct (has_property top "then" && negb (isDeferred (m_returnValueType m))).
Qed.

Lemma duk_invoke_result (m : Duk.Method) (jsHeapPtr : JSValue) (args : JObjectArray)
    (awaitJsPromise : bool) (ctx ctx' : Context) :
  Duk.performCall call m jsHeapPtr args ctx = (Returns DUK_EXEC_SUCCESS, ctx') →
  Duk.invoke call getDeferredType getCurrentJsException m jsHeapPtr args
             awaitJsPromise ctx
  = pop (dukResultMarshaller getDeferredType m awaitJsPromise (stack ctx')) ctx'.
Proof.
  intros Hcall. unfold Duk.invoke. rewrite (bind_Returns _ _ _ _ _ Hcall).
  simpl. rewrite try_catch_rethrow. apply popResult_spec.
Qed.


(** *** Release of the pushed arguments on failure *)


Lemma pushTarget_spec (m : Duk.Method) (jsHeapPtr : JSValue) (ctx : Context) :
  (if m_isLambda m then is_callable jsHeapPtr else is_object jsHeapPtr) = true →
  Duk.pushTarget m jsHeapPtr ctx
  = (Returns (size (stack ctx)),
     mkContext (stack ctx ++ targetValues m jsHeapPtr) (log ctx)).
Proof.
  intros Hptr. unfold Duk.pushTarget, targetValues.
  unfold duk_push_heapptr, duk_push, duk_normalize_index, bind, get_stack, set_stack.
  simpl. unfold normalize. simpl. unfold size. rewrite length_app. simpl.
  destruct (Z.leb_spec 0 (Z.of_nat (length (stack ctx) + 1) + -1)); [|lia].
  destruct (Z.ltb_spec (Z.of_nat (length (stack ctx) + 1) + -1)
              (Z.of_nat (length (stack ctx) + 1))); [|lia].
  simpl.
  replace (Z.of_nat (Z.to_nat (Z.of_nat (length (stack ctx) + 1) + -1)))
    with (Z.of_nat (length (stack ctx))) by lia.
  assert (value_at (stack ctx ++ [jsHeapPtr]) (Z.of_nat (length (stack ctx)))
          = Some jsHeapPtr) as Hat.
  { unfold value_at, normalize. unfold size. rewrite length_app. simpl.
    destruct (Z.ltb_spec (Z.of_nat (length (stack ctx))) 0); [lia|].
    destruct (Z.leb_spec 0 (Z.of_nat (length (stack ctx)))); [|lia].
    destruct (Z.ltb_spec (Z.of_nat (length (stack ctx)))
                (Z.of_nat (length (stack ctx) + 1))); [|lia].
    simpl. rewrite Nat2Z.id. rewrite lookup_app_r by lia. by rewrite Nat.sub_diag. }
  destruct (m_isLambda m).
  - unfold duk_require_function, duk_is_callable, duk_test, bind, get_stack, ret.
    simpl. rewrite Hat, Hptr. done.
  - unfold duk_require_object, duk_is_object, duk_test, duk_push_string, duk_push,
      bind, get_stack, set_stack, ret.
    simpl. rewrite Hat, Hptr. simpl. by rewrite <- app_assoc.
Qed.




End Engine.
End DuktapeInvokeFacts.


Module InvokeFacts.
Import Native JsValues JavaScriptMethod.
Import Reflection(JsBridgeParameter).
Import Notions.
Local Open Scope Z_scope.
Local Open Scope cpp_scope.

(** C3.  After a call that succeeded, [invoke] marshals the returned
    value [ret] through the marshaller that [getDeferredType] gives for
    the return parameter if awaiting was requested, [ret] is an object
    with a property [then], and the declared return marshaller is not
    the one of [Deferred]; in every other case through the declared
    return marshaller.  In the Duktape variant [ret] is the top of the
    value stack that the call left and marshalling is [pop]; in the
    QuickJS variant [ret] is what [JS_Call] returned, it is no
    exception marker, and marshalling is [toJava], after which the
    arguments and [ret] have been freed. *)
Theorem result_marshaller_selection :
  (∀ (call : CallSemantics) (getDeferredType : JsBridgeParameter → Duktape.JavaType)
     (getCurrentJsException : Duktape.Duk Thrown)
     (m : Duk.Method) (jsHeapPtr : JSValue) (args : JObjectArray)
     (awaitJsPromise : bool) (ctx ctx' : Duktape.Context),
      Duk.performCall call m jsHeapPtr args ctx
      = (Returns Duktape.DUK_EXEC_SUCCESS, ctx') →
      Duk.invoke call getDeferredType getCurrentJsException m jsHeapPtr args
                 awaitJsPromise ctx
      = Duktape.pop
          (if awaitJsPromise
              && match last (Duktape.stack ctx') with
                 | Some ret => is_object ret && has_property ret "then"
                 | None => false
                 end
              && negb (Duktape.isDeferred (m_returnValueType m))
           then getDeferredType (m_returnValueParameter m)
           else m_returnValueType m) ctx') ∧
  (∀ (call : CallSemantics) (getDeferredType : JsBridgeParameter → QuickJs.JavaType)
     (getCurrentJsException : QuickJs.Qjs Thrown)
     (m : Qjs.Method) (jsMethod jsThis : JSValue) (javaArgs : JObjectArray)
     (awaitJsPromise : bool) (tr tr' : list QuickJs.Event)
     (numJsArguments : Z) (jsArgs : list JSValue) (ret : JSValue),
      Qjs.marshalArguments m javaArgs tr = (Returns (numJsArguments, jsArgs), tr') →
      QuickJs.JS_Call call jsMethod jsThis jsArgs = ret →
      QuickJs.JS_IsException ret = false →
      Qjs.invoke call getDeferredType getCurrentJsException m jsMethod jsThis javaArgs
                 awaitJsPromise tr
      = (QuickJs.toJava
           (if awaitJsPromise && is_object ret && has_property ret "then"
               && negb (QuickJs.isDeferred (m_returnValueType m))
            then getDeferredType (m_returnValueParameter m)
            else m_returnValueType m) ret,
         tr' ++ map QuickJs.Free jsArgs ++ [QuickJs.Free ret])).
Proof.
  split.
  - intros. by apply DuktapeInvokeFacts.duk_invoke_result.
  - intros call getDeferredType getCurrentJsException m jsMethod jsThis javaArgs
      awaitJsPromise tr tr' numJsArguments jsArgs ret Hargs <- Hok.
    by eapply (QuickJsInvokeFacts.qjs_invoke_result call getDeferredType
                 getCurrentJsException m jsMethod jsThis javaArgs awaitJsPromise).
Qed.


End InvokeFacts.

Module InvokeWitnesses.
Import Native JsValues JavaScriptMethod InvokeFacts InvokeSamples.
Import Notions.
Local Open Scope Z_scope.


(** [greet(1, 2)] with awaiting: the promise goes through the
    marshaller of [Deferred]. *)
Lemma result_marshaller_selection_witness :
  Duk.invoke sampleCall (λ _, Duk.deferredType) Duk.currentJsException Duk.greet
             greeter (Some [JPrimitive 1; JPrimitive 2]) true
             (NativeSamples.Duk.stackOf [])
  = (Returns (JObject 42), NativeSamples.Duk.stackOf []) ∧
  Qjs.invoke sampleCall (λ _, Qjs.deferredType) Qjs.currentJsException Qjs.greet
             (JSFunction 1 []) greeter (Some [JPrimitive 1; JPrimitive 2]) true []
  = (Returns (JObject 42),
     [QuickJs.Free (JSNumber 1); QuickJs.Free (JSNumber 2); QuickJs.Free promise]).
Proof.
  destruct result_marshaller_selection as [Hduk Hqjs].
  split.
  - rewrite (Hduk sampleCall (λ _, Duk.deferredType) Duk.currentJsException Duk.greet
               greeter (Some [JPrimitive 1; JPrimitive 2]) true
               (NativeSamples.Duk.stackOf [])
               (NativeSamples.Duk.stackOf [promise])); reflexivity.
  - rewrite (Hqjs sampleCall (λ _, Qjs.deferredType) Qjs.currentJsException Qjs.greet
               (JSFunction 1 []) greeter (Some [JPrimitive 1; JPrimitive 2]) true
               [] [] 2 [JSNumber 1; JSNumber 2] promise); reflexivity.
Defined.



(** [count()] called through a proxy that passes no argument array,
    [count] given null in the place of the vararg array, and
    [count(5, 6)]. *)
Lemma variadic_invoke_reads_trailing_array_first_witness :
  Qjs.invoke sampleCall (λ _, Qjs.deferredType) Qjs.currentJsException Qjs.count
             (JSFunction 2 []) greeter None false []
  = (Throws (undefined_behaviour "JObjectArrayLocalRef" (-1)), []) ∧
  Qjs.invoke sampleCall (λ _, Qjs.deferredType) Qjs.currentJsException Qjs.count
             (JSFunction 2 []) greeter (Some [JNull]) false []
  = (Throws (undefined_behaviour "GetArrayLength" 0), []) ∧
  Qjs.invoke sampleCall (λ _, Qjs.deferredType) Qjs.currentJsException Qjs.count
             (JSFunction 2 []) greeter (Some [JArray [JPrimitive 5; JPrimitive 6]])
             false []
  = (Returns (JPrimitive 2),
     [QuickJs.Free (JSArray [JSNumber 5; JSNumber 6]);
      QuickJs.Free (JSNumber 5); QuickJs.Free (JSNumber 6);
      QuickJs.Free (JSNumber 2)]).
Proof.
  split; [|split].
  - apply (QuickJsInvokeFacts.variadic_invoke_reads_trailing_array_first
             sampleCall (λ _, Qjs.deferredType) Qjs.currentJsException Qjs.count
             (JSFunction 2 []) greeter None false []); reflexivity.
  - destruct (QuickJsInvokeFacts.variadic_invoke_reads_trailing_array_first
                sampleCall (λ _, Qjs.deferredType) Qjs.currentJsException Qjs.count
                (JSFunction 2 []) greeter (Some [JNull]) false [] eq_refl)
      as (_ & Hlast & _).
    by apply (proj2 (Hlast [] JNull eq_refl)).
  - destruct (QuickJsInvokeFacts.variadic_invoke_reads_trailing_array_first
                sampleCall (λ _, Qjs.deferredType) Qjs.currentJsException Qjs.count
                (JSFunction 2 []) greeter (Some [JArray [JPrimitive 5; JPrimitive 6]])
                false [] eq_refl)
      as (_ & Hlast & _).
    rewrite (proj1 (Hlast [] (JArray [JPrimitive 5; JPrimitive 6]) eq_refl)).
    reflexivity.
Defined.

End InvokeWitnesses.

(** ** JavaScriptObject.cpp: registration with [check = true] *)

Module DiagnosticFacts.
Import Reflection(startsWith).
Import Notions.


Lemma append_cons (c : Ascii.ascii) (s t : string) :
  String c s +:+ t = String c (s +:+ t).
Proof. reflexivity. Qed.

Lemma append_assoc (s t u : string) : (s +:+ t) +:+ u = s +:+ t +:+ u.
Proof.
  induction s as [|c s IH]; [reflexivity|]. by rewrite !append_cons, IH.
Qed.

Lemma append_empty_r (s : string) : s +:+ EmptyString = s.
Proof.
  induction s as [|c s IH]; [reflexivity|]. by rewrite append_cons, IH.
Qed.

Lemma startsWith_append (name after : string) : startsWith (name +:+ after) name = true.
Proof.
  induction name as [|c name IH]; [reflexivity|].
  rewrite append_cons. simpl. by rewrite Ascii.eqb_refl.
Qed.

Lemma mentions_occurs (what name : string) : mentions what name → occurs name what = true.
Proof.
  intros (before & after & ->). induction before as [|c before IH].
  - change (EmptyString +:+ name +:+ after) with (name +:+ after).
    destruct (name +:+ after) eqn:Heq; simpl; rewrite <- Heq;
      by rewrite startsWith_append.
  - rewrite append_cons. simpl. rewrite IH. apply orb_true_r.
Qed.

Lemma mentions_suffix (before name : string) : mentions (before +:+ name) name.
Proof. exists before, EmptyString. by rewrite append_empty_r. Qed.

Lemma mentions_infix (before name after : string) :
  mentions (before +:+ name +:+ after) name.
Proof. by exists before, after. Qed.

End DiagnosticFacts.

Module RegistrationFacts.
Import Native JsValues MonadFacts DiagnosticFacts Notions.
Import Reflection(JsBridgeParameter).
Import JavaScriptMethod(MethodInterface, getName, getJavaMethod, JavaScriptMethod,
                        new_JavaScriptMethod).
Import JavaScriptObject.
Local Open Scope Z_scope.
Local Open Scope cpp_scope.


Lemma callable_has_property (obj : JSValue) (name : string) :
  is_callable (get_property obj name) = true → has_property obj name = true.
Proof.
  unfold get_property, has_property. destruct (properties obj) as [ps|]; [|done].
  destruct (lookup_property name ps); [|done].
  intros _. apply bool_decide_eq_true_2. eauto.
Qed.

Lemma no_property_undefined (obj : JSValue) (name : string) :
  has_property obj name = false → get_property obj name = JSUndefined.
Proof.
  unfold get_property, has_property. destruct (properties obj) as [ps|]; [|done].
  destruct (lookup_property name ps); [|done].
  intros H. apply bool_decide_eq_false_1 in H. destruct H. eauto.
Qed.

Lemma object_not_nullish (obj : JSValue) :
  is_object obj = true → is_undefined obj || is_null obj = false.
Proof. by destruct obj. Qed.

Lemma bind_throw_Throws {S A B} (c : M S A) (e : Thrown) (s : S) :
  ∃ e' s', bind c (λ _, throw (A:=B) e) s = (Throws e', s').
Proof. unfold bind, throw. destruct (c s) as [[a|e0] s0]; eauto. Qed.

(** *** Duktape *)
Section Duktape.
Import Duktape DuktapeInvokeFacts.

Variable makeUniqueType : option JsBridgeParameter -> bool -> Outcome Thrown JavaType.
Variable getGenericParameter : JsBridgeParameter -> option JsBridgeParameter.


Lemma dukDiagnostic_mentions (m_name : string) (obj : JSValue) (name : string) :
  mentions (dukDiagnostic m_name obj name) name.
Proof.
  unfold dukDiagnostic, Duk.notCallable, noMethodCalled.
  destruct (has_property obj name).
  - rewrite <- !append_assoc. rewrite append_assoc. apply mentions_infix.
  - rewrite <- !append_assoc. apply mentions_suffix.
Qed.

Lemma duk_top (base : list JSValue) (obj : JSValue) : value_at (base ++ [obj]) (-1) = Some obj.
Proof. by rewrite value_at_top, last_snoc. Qed.

Lemma duk_pop_top (n : nat) (base top : list JSValue) (lg : list LogEntry) :
  length top = n →
  duk_pop_n (Z.of_nat n) (mkContext (base ++ top) lg) = (Returns (), mkContext base lg).
Proof.
  intros Hn. unfold duk_pop_n, bind, get_stack, set_stack. simpl.
  unfold size. rewrite length_app.
  destruct (Z.leb_spec 0 (Z.of_nat n)); [|lia].
  destruct (Z.leb_spec (Z.of_nat n) (Z.of_nat (length base + length top))); [|lia].
  simpl. rewrite Nat2Z.id.
  replace (length base + length top - n)%nat with (length base) by lia.
  by rewrite take_app_length.
Qed.

Lemma duk_checkMethod_usable (m_name name : string) (base : list JSValue)
    (obj : JSValue) (lg : list LogEntry) :
  is_object obj = true →
  is_callable (get_property obj name) = true →
  Duk.checkMethod m_name name (mkContext (base ++ [obj]) lg)
  = (Returns (), mkContext (base ++ [obj]) lg).
Proof.
  intros Hobj Hcall. unfold Duk.checkMethod.
  unfold duk_get_prop_string, duk_require_value, duk_push, bind at 1 2 3 4, get_stack,
    set_stack, ret. simpl.
  rewrite duk_top, (object_not_nullish _ Hobj). simpl.
  rewrite (callable_has_property _ _ Hcall). simpl.
  unfold bind at 1, duk_is_callable, duk_test, bind at 1, get_stack, ret. simpl.
  rewrite duk_top, Hcall. simpl.
  change 1 with (Z.of_nat 1). unfold duk_pop. change 1 with (Z.of_nat 1).
  by rewrite duk_pop_top.
Qed.

Lemma duk_checkMethod_lacking (m_name name : string) (base : list JSValue)
    (obj : JSValue) (lg : list LogEntry) :
  is_object obj = true →
  lacksMethod obj name →
  Duk.checkMethod m_name name (mkContext (base ++ [obj]) lg)
  = (Throws (std_invalid_argument (dukDiagnostic m_name obj name)), mkContext base lg).
Proof.
  intros Hobj Hlack. unfold lacksMethod in Hlack. unfold Duk.checkMethod, dukDiagnostic.
  unfold duk_get_prop_string, duk_require_value, duk_push, bind at 1 2 3 4, get_stack,
    set_stack, ret. simpl.
  rewrite duk_top, (object_not_nullish _ Hobj). simpl.
  destruct (has_property obj name) eqn:Hhas; simpl.
  - unfold bind at 1, duk_is_callable, duk_test, bind at 1, get_stack, ret. simpl.
    rewrite duk_top, Hlack. simpl.
    unfold duk_pop_2. change 2 with (Z.of_nat 2).
    rewrite <- app_assoc. unfold bind. by rewrite duk_pop_top.
  - unfold duk_pop_2. change 2 with (Z.of_nat 2).
    rewrite <- app_assoc. unfold bind. by rewrite duk_pop_top.
Qed.

Lemma duk_addMethods_first_lacking (m_name : string) (base : list JSValue)
    (obj : JSValue) (lg : list LogEntry) (mi : MethodInterface)
    (rest : list MethodInterface) :
  is_object obj = true →
  lacksMethod obj (getName mi) →
  ∀ (usable : list MethodInterface) (m_methods : gmap Z (JavaScriptMethod JavaType)),
    (∀ g, g ∈ usable →
          ¬ lacksMethod obj (getName g) ∧
          ∃ jsMethod, new_JavaScriptMethod makeUniqueType getGenericParameter
                                           g (getName g) false = Returns jsMethod) →
    Duk.addMethods makeUniqueType getGenericParameter m_name true
                   (usable ++ mi :: rest) m_methods (mkContext (base ++ [obj]) lg)
    = (Throws (std_invalid_argument (dukDiagnostic m_name obj (getName mi))),
       mkContext base lg).
Proof.
  intros Hobj Hlack usable. induction usable as [|g usable IH]; intros m_methods Husable.
  - simpl. erewrite bind_Throws; [done|]. by apply duk_checkMethod_lacking.
  - destruct (Husable g ltac:(left)) as [Hg [jsMethod Hnew]].
    simpl. erewrite bind_Returns.
    2:{ apply duk_checkMethod_usable; [done|].
        unfold lacksMethod in Hg. by destruct (is_callable _). }
    erewrite bind_Returns.
    2:{ unfold try_catch, bind, lift. rewrite Hnew. reflexivity. }
    apply IH. intros g' Hg'. apply Husable. by right.
Qed.

Lemma duk_addMethods_some_lacking (m_name : string) (base : list JSValue)
    (obj : JSValue) (methods : list MethodInterface) :
  is_object obj = true →
  (∃ mi, mi ∈ methods ∧ lacksMethod obj (getName mi)) →
  ∀ (m_methods : gmap Z (JavaScriptMethod JavaType)) (lg : list LogEntry),
  ∃ e ctx',
    Duk.addMethods makeUniqueType getGenericParameter m_name true methods m_methods
                   (mkContext (base ++ [obj]) lg) = (Throws e, ctx').
Proof.
  intros Hobj. induction methods as [|g methods IH]; intros (mi & Hin & Hlack) m_methods lg.
  - by apply elem_of_nil in Hin.
  - simpl. destruct (is_callable (get_property obj (getName g))) eqn:Hg.
    + erewrite bind_Returns; [|by apply duk_checkMethod_usable].
      apply elem_of_cons in Hin as [->|Hin]; [unfold lacksMethod in Hlack; congruence|].
      unfold bind at 1, try_catch, bind at 1, lift.
      destruct (new_JavaScriptMethod _ _ g (getName g) false) as [jsMethod|e]; simpl.
      * apply IH. eauto.
      * destruct (is_std_invalid_argument e); [|eauto].
        destruct (bind_throw_Throws (B := gmap Z (JavaScriptMethod JavaType)) duk_pop
                    (std_invalid_argument (inProxiedMethod m_name (getName g) e))
                    (mkContext (base ++ [obj]) lg)) as (e' & s' & ->). eauto.
    + erewrite bind_Throws; [eauto|]. by apply duk_checkMethod_lacking.
Qed.

(** The constructor up to the loop over the methods. *)
Lemma duk_new_JavaScriptObject_valid (strName : string) (jsObjectIndex : Z)
    (methods : list MethodInterface) (check : bool) (ctx : Context) (obj : JSValue) :
  value_at (stack ctx) jsObjectIndex = Some obj →
  is_object obj = true →
  Duk.new_JavaScriptObject makeUniqueType getGenericParameter strName jsObjectIndex
                           methods check ctx
  = (m_methods <- Duk.addMethods makeUniqueType getGenericParameter strName check
                                 methods ∅ ;;
     duk_pop ;;;
     ret (mkJavaScriptObject strName obj m_methods))
      (mkContext (stack ctx ++ [obj])
                 (log ctx ++ if has_property obj "then" then [RegisteringPromise] else [])).
Proof.
  intros Hat Hobj. destruct ctx as [st lg]. simpl in *.
  unfold Duk.new_JavaScriptObject.
  unfold duk_is_object, duk_is_null, duk_test, bind at 1 2, get_stack, ret. simpl.
  rewrite Hat, Hobj. simpl.
  unfold bind at 1 2, get_stack, ret. simpl. rewrite Hat.
  assert (is_null obj = false) as -> by (by destruct obj). simpl.
  unfold duk_has_prop_string, duk_require_value, bind at 1 2 3, get_stack, ret. simpl.
  rewrite Hat, Hobj. simpl.
  unfold duk_get_heapptr, duk_require_value, duk_push_heapptr, duk_push.
  destruct (has_property obj "then"); simpl.
  - unfold bind at 1 2 3 4 5, alog_warn, get_stack, set_stack, ret. simpl.
    by rewrite Hat.
  - unfold bind at 1 2 3 4 5, get_stack, set_stack, ret. simpl.
    by rewrite Hat, app_nil_r.
Qed.

Lemma duk_registration_fails (strName : string) (jsObjectIndex : Z)
    (methods : list MethodInterface) (ctx : Context) (obj : JSValue) :
  value_at (stack ctx) jsObjectIndex = Some obj →
  (∃ mi, mi ∈ methods ∧ lacksMethod obj (getName mi)) →
  ∃ e, fst (Duk.new_JavaScriptObject makeUniqueType getGenericParameter strName
                                     jsObjectIndex methods true ctx) = Throws e.
Proof.
  intros Hat Hlack. destruct (is_object obj) eqn:Hobj.
  - rewrite (duk_new_JavaScriptObject_valid _ _ _ _ _ _ Hat Hobj).
    destruct (duk_addMethods_some_lacking strName (stack ctx) obj methods Hobj Hlack ∅
                (log ctx ++ if has_property obj "then" then [RegisteringPromise] else []))
      as (e & ctx' & Hrun).
    exists e. by rewrite (bind_Throws _ _ _ _ _ Hrun).
  - destruct ctx as [st lg]. simpl in *.
    unfold Duk.new_JavaScriptObject.
    unfold duk_is_object, duk_test, bind at 1 2, get_stack, ret. simpl.
    rewrite Hat, Hobj. simpl. eauto.
Qed.

Lemma duk_registration_diagnostic (strName : string) (jsObjectIndex : Z)
    (ctx : Context) (obj : JSValue) (usable : list MethodInterface)
    (mi : MethodInterface) (rest : list MethodInterface) :
  value_at (stack ctx) jsObjectIndex = Some obj →
  is_object obj = true →
  (∀ g, g ∈ usable →
        ¬ lacksMethod obj (getName g) ∧
        ∃ jsMethod, new_JavaScriptMethod makeUniqueType getGenericParameter
                                         g (getName g) false = Returns jsMethod) →
  lacksMethod obj (getName mi) →
  fst (Duk.new_JavaScriptObject makeUniqueType getGenericParameter strName
                                jsObjectIndex (usable ++ mi :: rest) true ctx)
  = Throws (std_invalid_argument (dukDiagnostic strName obj (getName mi))).
Proof.
  intros Hat Hobj Husable Hlack.
  rewrite (duk_new_JavaScriptObject_valid _ _ _ _ _ _ Hat Hobj).
  erewrite bind_Throws; [done|].
  by apply duk_addMethods_first_lacking.
Qed.

End Duktape.

(** *** QuickJS *)
Section QuickJs.
Import QuickJs.

Variable makeUniqueType : option JsBridgeParameter -> bool -> Outcome Thrown JavaType.
Variable getGenericParameter : JsBridgeParameter -> option JsBridgeParameter.


Lemma qjsDiagnostic_mentions (m_name : string) (obj : JSValue) (name : string) :
  mentions (qjsDiagnostic m_name obj name) name.
Proof.
  unfold qjsDiagnostic, Qjs.notFunction, noMethodCalled.
  destruct (is_undefined (get_property obj name)).
  - rewrite <- !append_assoc. apply mentions_suffix.
  - rewrite <- !append_assoc. rewrite append_assoc. apply mentions_infix.
Qed.

Lemma qjs_checkMethod_usable (m_name name : string) (obj : JSValue) (tr : list Event) :
  is_callable (get_property obj name) = true →
  Qjs.checkMethod m_name name obj tr
  = (Returns (), tr ++ [Free (get_property obj name)]).
Proof.
  intros Hcall. unfold Qjs.checkMethod, autorelease.
  destruct (get_property obj name); try done.
Qed.

Lemma qjs_checkMethod_lacking (m_name name : string) (obj : JSValue) (tr : list Event) :
  lacksMethod obj name →
  Qjs.checkMethod m_name name obj tr
  = (Throws (std_invalid_argument (qjsDiagnostic m_name obj name)),
     tr ++ [Free (get_property obj name)]).
Proof.
  unfold lacksMethod, Qjs.checkMethod, qjsDiagnostic, autorelease.
  intros Hlack. rewrite Hlack. simpl.
  by destruct (is_undefined (get_property obj name)).
Qed.

Lemma qjs_addMethods_first_lacking (m_name : string) (obj : JSValue)
    (mi : MethodInterface) (rest : list MethodInterface) :
  lacksMethod obj (getName mi) →
  ∀ (usable : list MethodInterface) (m_methods : gmap Z (JavaScriptMethod JavaType))
    (tr : list Event),
    (∀ g, g ∈ usable →
          ¬ lacksMethod obj (getName g) ∧
          ∃ jsMethod, new_JavaScriptMethod makeUniqueType getGenericParameter
                                           g (getName g) false = Returns jsMethod) →
    fst (Qjs.addMethods makeUniqueType getGenericParameter m_name obj true
                        (usable ++ mi :: rest) m_methods tr)
    = Throws (std_invalid_argument (qjsDiagnostic m_name obj (getName mi))).
Proof.
  intros Hlack usable. induction usable as [|g usable IH]; intros m_methods tr Husable.
  - simpl. erewrite bind_Throws; [done|]. by apply qjs_checkMethod_lacking.
  - destruct (Husable g ltac:(left)) as [Hg [jsMethod Hnew]].
    simpl. erewrite bind_Returns.
    2:{ apply qjs_checkMethod_usable.
        unfold lacksMethod in Hg. by destruct (is_callable _). }
    erewrite bind_Returns.
    2:{ unfold try_catch, bind, lift. rewrite Hnew. reflexivity. }
    apply IH. intros g' Hg'. apply Husable. by right.
Qed.

Lemma qjs_addMethods_some_lacking (m_name : string) (obj : JSValue)
    (methods : list MethodInterface) :
  (∃ mi, mi ∈ methods ∧ lacksMethod obj (getName mi)) →
  ∀ (m_methods : gmap Z (JavaScriptMethod JavaType)) (tr : list Event),
  ∃ e tr',
    Qjs.addMethods makeUniqueType getGenericParameter m_name obj true methods
                   m_methods tr = (Throws e, tr').
Proof.
  induction methods as [|g methods IH]; intros (mi & Hin & Hlack) m_methods tr.
  - by apply elem_of_nil in Hin.
  - simpl. destruct (is_callable (get_property obj (getName g))) eqn:Hg.
    + erewrite bind_Returns; [|by apply qjs_checkMethod_usable].
      apply elem_of_cons in Hin as [->|Hin]; [unfold lacksMethod in Hlack; congruence|].
      unfold bind at 1, try_catch, bind at 1, lift.
      destruct (new_JavaScriptMethod _ _ g (getName g) false) as [jsMethod|e]; simpl.
      * apply IH. eauto.
      * destruct (is_std_exception e); unfold throw; eauto.
    + erewrite bind_Throws; [eauto|]. by apply qjs_checkMethod_lacking.
Qed.

Lemma qjs_registration_fails (strName : string) (obj : JSValue)
    (methods : list MethodInterface) (tr : list Event) :
  (∃ mi, mi ∈ methods ∧ lacksMethod obj (getName mi)) →
  ∃ e, fst (Qjs.new_JavaScriptObject makeUniqueType getGenericParameter strName obj
                                     methods true tr) = Throws e.
Proof.
  intros Hlack. unfold Qjs.new_JavaScriptObject.
  destruct (negb (is_object obj) || is_null obj); [by eexists|].
  set (warned := (if has_property obj "then" then alog_warn RegisteringPromise
                  else ret ()) tr).
  assert (∃ tr1, warned = (Returns (), tr1)) as [tr1 Hwarned]
    by (unfold warned; destruct (has_property obj "then"); by eexists).
  rewrite (bind_Returns _ _ _ _ _ Hwarned).
  destruct (qjs_addMethods_some_lacking strName obj methods Hlack ∅ tr1)
    as (e & tr' & Hrun).
  exists e. by rewrite (bind_Throws _ _ _ _ _ Hrun).
Qed.

Lemma qjs_registration_diagnostic (strName : string) (obj : JSValue)
    (tr : list Event) (usable : list MethodInterface)
    (mi : MethodInterface) (rest : list MethodInterface) :
  is_object obj = true →
  (∀ g, g ∈ usable →
        ¬ lacksMethod obj (getName g) ∧
        ∃ jsMethod, new_JavaScriptMethod makeUniqueType getGenericParameter
                                         g (getName g) false = Returns jsMethod) →
  lacksMethod obj (getName mi) →
  fst (Qjs.new_JavaScriptObject makeUniqueType getGenericParameter strName obj
                                (usable ++ mi :: rest) true tr)
  = Throws (std_invalid_argument (qjsDiagnostic strName obj (getName mi))).
Proof.
  intros Hobj Husable Hlack. unfold Qjs.new_JavaScriptObject.
  rewrite Hobj. assert (is_null obj = false) as -> by (by destruct obj). simpl.
  set (warned := (if has_property obj "then" then alog_warn RegisteringPromise
                  else ret ()) tr).
  assert (∃ tr1, warned = (Returns (), tr1)) as [tr1 Hwarned]
    by (unfold warned; destruct (has_property obj "then"); by eexists).
  rewrite (bind_Returns _ _ _ _ _ Hwarned).
  pose proof (qjs_addMethods_first_lacking strName obj mi rest Hlack usable ∅ tr1
                Husable) as Hrun.
  destruct (Qjs.addMethods _ _ _ _ _ _ _ _) as [[r|e] tr'] eqn:Hloop; [done|].
  simpl in Hrun. injection Hrun as ->. by rewrite (bind_Throws _ _ _ _ _ Hloop).
Qed.

End QuickJs.

End RegistrationFacts.


Module RegistrationClaims.
Import Native JsValues DiagnosticFacts RegistrationFacts RegistrationSamples Notions.
Import Reflection(JsBridgeParameter).
Import JavaScriptMethod(MethodInterface, getName, JavaScriptMethod, new_JavaScriptMethod).
Import JavaScriptObject.
Local Open Scope Z_scope.

(** C5, as the code has it.  With [check = true], a proxied object that
    lacks a callable property for one of the required method names makes
    the constructor throw: registration fails when it is attempted.  The
    check goes through the methods in order and stops at the first name
    that the object lacks: if the object is a valid object and the
    invokers of the methods before that one could be built, the
    exception is a [std::invalid_argument] whose text is the
    no-such-method or the not-callable message for that first name, and
    so contains it. *)
Theorem registration_check_stops_at_first_unusable_method :
  (∀ (makeUniqueType : option JsBridgeParameter → bool → Outcome Thrown Duktape.JavaType)
     (getGenericParameter : JsBridgeParameter → option JsBridgeParameter)
     (strName : string) (jsObjectIndex : Z) (methods : list MethodInterface)
     (ctx : Duktape.Context) (obj : JSValue),
      Duktape.value_at (Duktape.stack ctx) jsObjectIndex = Some obj →
      ((∃ mi, mi ∈ methods ∧ lacksMethod obj (getName mi)) →
       ∃ e, fst (Duk.new_JavaScriptObject makeUniqueType getGenericParameter strName
                                          jsObjectIndex methods true ctx) = Throws e) ∧
      (∀ usable mi rest,
          methods = usable ++ mi :: rest →
          is_object obj = true →
          (∀ g, g ∈ usable →
                ¬ lacksMethod obj (getName g) ∧
                ∃ jsMethod, new_JavaScriptMethod makeUniqueType getGenericParameter
                                                 g (getName g) false = Returns jsMethod) →
          lacksMethod obj (getName mi) →
          ∃ what,
            fst (Duk.new_JavaScriptObject makeUniqueType getGenericParameter strName
                                          jsObjectIndex methods true ctx)
            = Throws (std_invalid_argument what) ∧
            what = (if has_property obj (getName mi)
                    then Duk.notCallable strName (getName mi)
                    else noMethodCalled strName (getName mi)) ∧
            mentions what (getName mi))) ∧
  (∀ (makeUniqueType : option JsBridgeParameter → bool → Outcome Thrown QuickJs.JavaType)
     (getGenericParameter : JsBridgeParameter → option JsBridgeParameter)
     (strName : string) (jsObjectValue : JSValue) (methods : list MethodInterface)
     (tr : list QuickJs.Event),
      ((∃ mi, mi ∈ methods ∧ lacksMethod jsObjectValue (getName mi)) →
       ∃ e, fst (Qjs.new_JavaScriptObject makeUniqueType getGenericParameter strName
                                          jsObjectValue methods true tr) = Throws e) ∧
      (∀ usable mi rest,
          methods = usable ++ mi :: rest →
          is_object jsObjectValue = true →
          (∀ g, g ∈ usable →
                ¬ lacksMethod jsObjectValue (getName g) ∧
                ∃ jsMethod, new_JavaScriptMethod makeUniqueType getGenericParameter
                                                 g (getName g) false = Returns jsMethod) →
          lacksMethod jsObjectValue (getName mi) →
          ∃ what,
            fst (Qjs.new_JavaScriptObject makeUniqueType getGenericParameter strName
                                          jsObjectValue methods true tr)
            = Throws (std_invalid_argument what) ∧
            what = (if is_undefined (get_property jsObjectValue (getName mi))
                    then noMethodCalled strName (getName mi)
                    else Qjs.notFunction strName (getName mi)) ∧
            mentions what (getName mi))).
Proof.
  split.
  - intros mk ggp strName idx methods ctx obj Hat. split.
    + by apply duk_registration_fails.
    + intros usable mi rest -> Hobj Husable Hlack.
      exists (dukDiagnostic strName obj (getName mi)). split; [|split].
      * by apply duk_registration_diagnostic.
      * done.
      * apply dukDiagnostic_mentions.
  - intros mk ggp strName obj methods tr. split.
    + by apply qjs_registration_fails.
    + intros usable mi rest -> Hobj Husable Hlack.
      exists (qjsDiagnostic strName obj (getName mi)). split; [|split].
      * by apply qjs_registration_diagnostic.
      * done.
      * apply qjsDiagnostic_mentions.
Qed.

(** Registering [{ compute: function }] for the methods [compute] and
    [reset]. *)
Lemma registration_check_witness :
  let what := "JS global calculator has no method called reset" in
  fst (Duk.new_JavaScriptObject dukProvider (λ _, None) "calculator" 0
         [computeInterface; resetInterface] true
         (NativeSamples.Duk.stackOf [halfCalculator]))
  = Throws (std_invalid_argument what) ∧
  fst (Qjs.new_JavaScriptObject qjsProvider (λ _, None) "calculator" halfCalculator
         [computeInterface; resetInterface] true [])
  = Throws (std_invalid_argument what).
Proof.
  destruct registration_check_stops_at_first_unusable_method as [Hduk Hqjs].
  split.
  - destruct (Hduk dukProvider (λ _, None) "calculator" 0
                [computeInterface; resetInterface]
                (NativeSamples.Duk.stackOf [halfCalculator]) halfCalculator eq_refl)
      as [_ Hfirst].
    destruct (Hfirst [computeInterface] resetInterface [] eq_refl eq_refl)
      as (what & -> & -> & _); [|reflexivity|reflexivity].
    intros g Hg. apply list_elem_of_singleton in Hg as ->. split; [discriminate|].
    by eexists.
  - destruct (Hqjs qjsProvider (λ _, None) "calculator" halfCalculator
                [computeInterface; resetInterface] []) as [_ Hfirst].
    destruct (Hfirst [computeInterface] resetInterface [] eq_refl eq_refl)
      as (what & -> & -> & _); [|reflexivity|reflexivity].
    intros g Hg. apply list_elem_of_singleton in Hg as ->. split; [discriminate|].
    by eexists.
Defined.

(** C5, as the claim has it, fails: registering the empty object for the
    methods [compute] and [reset] fails with a diagnostic for [compute]
    alone; [reset] is as missing as [compute] is, and the diagnostic
    does not contain its name. *)
Lemma diagnostic_names_first_missing_method_only :
  let what := "JS global calculator has no method called compute" in
  lacksMethod emptyObject "compute" ∧
  lacksMethod emptyObject "reset" ∧
  fst (Duk.new_JavaScriptObject dukProvider (λ _, None) "calculator" 0
         [computeInterface; resetInterface] true
         (NativeSamples.Duk.stackOf [emptyObject]))
  = Throws (std_invalid_argument what) ∧
  fst (Qjs.new_JavaScriptObject qjsProvider (λ _, None) "calculator" emptyObject
         [computeInterface; resetInterface] true [])
  = Throws (std_invalid_argument what) ∧
  ¬ mentions what "reset".
Proof.
  repeat split.
  intros Hmentions. apply mentions_occurs in Hmentions. by vm_compute in Hmentions.
Qed.

End RegistrationClaims.

(** ** JavaMethod.cpp: [invoke] on a call with enough arguments *)

Module ArgumentLoadingFacts.
Import Native JsValues JavaMethod IntegerFacts Notions MarshallingNotions MonadFacts.
Import JavaMethodFacts(vector_at_Some, vector_set_inside, duk_minArgs_fixed,
                       duk_minArgs_variadic, qjs_minArgs_fixed, qjs_minArgs_variadic).
Local Open Scope Z_scope.
Local Open Scope cpp_scope.

(** *** QuickJS *)

Lemma toJavaAll_length (types : list QuickJs.JavaType) :
  ∀ (values : list JSValue) (js : list JValue),
    toJavaAll types values = Returns js →
    length js = Nat.min (length types) (length values).
Proof.
  induction types as [|t types IH]; intros [|v values] js H; simpl in *;
    try (injection H as <-; done).
  destruct (QuickJs.toJava t v) as [j|e]; simpl in H; [|done].
  destruct (toJavaAll types values) as [js'|e] eqn:Hrest; simpl in H; [|done].
  injection H as <-. simpl. f_equal. by apply IH.
Qed.

(** The loop over the fixed parameters, when every one of them has its
    script argument. *)
Lemma qjs_loadArguments_toJavaAll (m : Qjs.Method) (argv : list JSValue) (n : nat) :
  ∀ (i : nat) (args : list JValue) (tr : list QuickJs.Event),
    (i + n ≤ length (m_argumentTypes m))%nat →
    length args = length (m_argumentTypes m) →
    (i + n ≤ length argv)%nat →
    Qjs.loadArguments m n (Z.of_nat i) argv args tr
    = (omap (λ js, take i args ++ js ++ drop (i + n) args)
            (toJavaAll (take n (drop i (m_argumentTypes m))) (drop i argv)), tr).
Proof.
  induction n as [|n IH]; intros i args tr Hn Hlen Hargv.
  - simpl. rewrite Nat.add_0_r, take_drop. done.
  - assert (is_Some (m_argumentTypes m !! i)) as [t Ht]
      by (apply lookup_lt_is_Some; lia).
    assert (is_Some (argv !! i)) as [v Hv] by (apply lookup_lt_is_Some; lia).
    rewrite (drop_S _ _ _ Ht), (drop_S _ _ _ Hv).
    simpl. unfold bind at 1. rewrite (vector_at_Some _ _ _ _ _ Ht).
    unfold bind at 1.
    destruct (Z.geb_spec (Z.of_nat i) (size argv)) as [Hge|_];
      [unfold size in Hge; lia|].
    unfold bind at 1, Qjs.argv_at. rewrite (vector_at_Some _ _ _ _ _ Hv).
    unfold lift. destruct (QuickJs.toJava t v) as [j|e]; simpl; [|done].
    unfold bind at 1. rewrite vector_set_inside by lia.
    replace (Z.of_nat i + 1) with (Z.of_nat (S i)) by lia.
    rewrite IH by (rewrite ?length_insert; lia).
    destruct (toJavaAll _ _) as [js|e]; simpl; [|done].
    do 2 f_equal.
    rewrite (take_S_r _ _ j) by (apply list_lookup_insert_eq; lia).
    rewrite take_insert_ge by lia.
    rewrite drop_insert_lt by lia.
    rewrite <- app_assoc. simpl.
    by replace (i + S n)%nat with (S (i + n)) by lia.
Qed.

(** [JS_SetPropertyUint32] at the end of an array appends. *)
Lemma JS_SetPropertyUint32_append (els : list JSValue) (v : JSValue) :
  QuickJs.JS_SetPropertyUint32 (JSArray els) (Z.of_nat (length els)) v
  = JSArray (els ++ [v]).
Proof.
  unfold QuickJs.JS_SetPropertyUint32. rewrite Nat2Z.id.
  replace (S (length els) - length els)%nat with 1%nat by lia. simpl.
  f_equal. rewrite insert_app_r_alt by lia.
  by replace (length els - length els)%nat with 0%nat by lia.
Qed.

(** The loop that moves the trailing arguments into the array. *)
Lemma fillVarArgs_spec (argv : list JSValue) (minArgs : nat) (n : nat) :
  ∀ (els : list JSValue) (tr : list QuickJs.Event),
    (minArgs + length els + n ≤ length argv)%nat →
    Qjs.fillVarArgs n (Z.of_nat (length els)) argv (Z.of_nat minArgs) (JSArray els) tr
    = (Returns (JSArray (els ++ take n (drop (minArgs + length els) argv))),
       tr ++ map QuickJs.Dup (take n (drop (minArgs + length els) argv))).
Proof.
  induction n as [|n IH]; intros els tr Hn.
  - simpl. by rewrite !app_nil_r.
  - assert (is_Some (argv !! (minArgs + length els)%nat)) as [v Hv]
      by (apply lookup_lt_is_Some; lia).
    rewrite (drop_S _ _ _ Hv). simpl.
    unfold bind at 1, Qjs.argv_at.
    replace (Z.of_nat minArgs + Z.of_nat (length els))
      with (Z.of_nat (minArgs + length els)) by lia.
    rewrite (vector_at_Some _ _ _ _ _ Hv).
    unfold bind at 1, QuickJs.JS_DupValue, bind, QuickJs.emit, ret.
    pose proof (JS_SetPropertyUint32_append els v) as Hset.
    unfold QuickJs.JS_SetPropertyUint32 in Hset. rewrite Hset.
    replace (Z.of_nat (length els) + 1) with (Z.of_nat (length (els ++ [v])))
      by (rewrite length_app; simpl; lia).
    rewrite IH by (rewrite length_app; simpl; lia).
    rewrite length_app. simpl.
    replace (minArgs + (length els + 1))%nat with (S (minArgs + length els)) by lia.
    by rewrite <- !app_assoc.
Qed.

Lemma qjs_invoke_fixed (m : Qjs.Method) (javaThis : JValue)
    (argv : list JSValue) (tr : list QuickJs.Event) :
  m_isVarArgs m = false →
  size (m_argumentTypes m) ≤ INT_MAX →
  length argv = length (m_argumentTypes m) →
  Qjs.invoke m javaThis argv tr
  = (args <- lift (toJavaAll (m_argumentTypes m) argv) ;;
     m_methodBody m javaThis args) tr.
Proof.
  intros Hfixed Hint Hargc.
  unfold Qjs.invoke. rewrite qjs_minArgs_fixed by done. rewrite Hfixed.
  unfold size. rewrite Hargc.
  destruct (Z.ltb_spec (Z.of_nat (length (m_argumentTypes m)))
                       (Z.of_nat (length (m_argumentTypes m)))); [lia|].
  destruct (Z.gtb_spec (Z.of_nat (length (m_argumentTypes m)))
                       (Z.of_nat (length (m_argumentTypes m)))); [lia|].
  simpl negb. simpl andb. cbv iota.
  unfold bind at 1. unfold ret at 1.
  unfold bind at 1. rewrite Nat2Z.id.
  change 0 with (Z.of_nat 0).
  rewrite qjs_loadArguments_toJavaAll by (rewrite ?length_replicate; simpl; lia).
  rewrite !drop_0, firstn_all.
  unfold bind at 2. unfold lift.
  destruct (toJavaAll (m_argumentTypes m) argv) as [js|e] eqn:Hconv; simpl; [|done].
  unfold bind at 1. unfold ret at 1.
  rewrite drop_ge by (rewrite length_replicate; lia).
  by rewrite app_nil_r.
Qed.

Lemma qjs_invoke_variadic (m : Qjs.Method) (javaThis : JValue)
    (argv : list JSValue) (tr : list QuickJs.Event)
    (fixed : list QuickJs.JavaType) (collector : QuickJs.JavaType) :
  m_isVarArgs m = true →
  m_argumentTypes m = fixed ++ [collector] →
  size (m_argumentTypes m) ≤ INT_MAX →
  (length fixed ≤ length argv)%nat →
  let rest := drop (length fixed) argv in
  Qjs.invoke m javaThis argv tr
  = match toJavaAll fixed argv with
    | Throws e => (Throws e, tr)
    | Returns args =>
        (array <- lift (QuickJs.toJavaArray collector (JSArray rest)) ;;
         QuickJs.JS_FreeValue (JSArray rest) ;;;
         m_methodBody m javaThis (args ++ [array]))
          (tr ++ map QuickJs.Dup rest)
    end.
Proof.
  intros Hvar Htypes Hint Hargc rest.
  assert (length (m_argumentTypes m) = S (length fixed)) as Hlen
    by (rewrite Htypes, length_app; simpl; lia).
  assert (Qjs.minArgs m = Z.of_nat (length fixed)) as Hmin.
  { rewrite qjs_minArgs_variadic by (done || unfold size in *; lia).
    unfold size. lia. }
  unfold Qjs.invoke. rewrite Hmin, Hvar.
  destruct (Z.ltb_spec (size argv) (Z.of_nat (length fixed)));
    [unfold size in *; lia|].
  simpl negb. simpl andb. cbv iota.
  unfold bind at 1. unfold ret at 1.
  unfold bind at 1. rewrite Nat2Z.id.
  change 0 with (Z.of_nat 0).
  rewrite qjs_loadArguments_toJavaAll by (rewrite ?length_replicate; simpl; lia).
  rewrite !drop_0, Htypes, take_app_length.
  destruct (toJavaAll fixed argv) as [js|e] eqn:Hconv; simpl; [|done].
  apply toJavaAll_length in Hconv. rewrite Nat.min_l in Hconv by lia.
  rewrite drop_replicate, length_app. simpl length.
  replace (length fixed + 1 - length fixed)%nat with 1%nat by lia. simpl replicate.
  unfold bind at 1. unfold bind at 1. unfold vector_back. rewrite last_snoc.
  unfold ret at 1. unfold bind at 1.
  pose proof (fillVarArgs_spec argv (length fixed)
                (Z.to_nat (size argv - Z.of_nat (length fixed))) [] tr) as Hfill.
  simpl length in Hfill. rewrite Nat.add_0_r in Hfill. simpl app in Hfill.
  unfold QuickJs.JS_NewArray. change (Z.of_nat 0) with 0 in *.
  rewrite Hfill by (unfold size; lia). clear Hfill.
  rewrite take_ge by (rewrite length_drop; unfold size; lia).
  fold rest.
  unfold bind at 1. unfold bind at 3. unfold lift.
  destruct (QuickJs.toJavaArray collector (JSArray rest)) as [a|e]; [|done].
  unfold bind at 1. unfold size. rewrite length_app. simpl length.
  rewrite to_size_t_small by (unfold size in *; lia).
  replace (Z.of_nat (length js + 1) - 1) with (Z.of_nat (length js)) by lia.
  rewrite vector_set_inside by (rewrite length_app; simpl; lia).
  unfold bind, QuickJs.JS_FreeValue, QuickJs.emit, ret.
  rewrite insert_app_r_alt by lia.
  by replace (length js - length js)%nat with 0%nat by lia.
Qed.

(** *** Duktape *)

(** Where the loop [for (ssize_t i = minArgs - 1; i >= 0; --i)] starts. *)
Lemma loop_start (minArgs : Z) :
  0 ≤ minArgs ≤ INT_MAX →
  to_ssize_t (to_size_t (minArgs - 1)) + 1 = minArgs.
Proof.
  intros H. destruct (decide (minArgs = 0)) as [->|Hne]; [done|].
  rewrite to_size_t_small, to_ssize_t_small by lia. lia.
Qed.

Lemma popBackwards_snoc (types : list Duktape.JavaType) (t : Duktape.JavaType)
    (ctx : Duktape.Context) :
  popBackwards (types ++ [t]) ctx
  = (value <- Duktape.pop t ;;
     values <- popBackwards types ;;
     ret (values ++ [value])) ctx.
Proof.
  revert ctx. induction types as [|x types IH]; intros ctx.
  - simpl. unfold bind, ret. by destruct (Duktape.pop t ctx) as [[v|e] c].
  - simpl. unfold bind at 1. rewrite IH. unfold bind, ret.
    destruct (Duktape.pop t ctx) as [[v|e] c1]; [|done].
    destruct (popBackwards types c1) as [[vs|e] c2]; [|done].
    by destruct (Duktape.pop x c2) as [[w|e] c3].
Qed.

(** The loop over the fixed parameters, when every one of them has its
    script argument. *)
Lemma duk_loadArguments_popBackwards (m : Duk.Method) (argCount : Z) (n : nat) :
  ∀ (args : list JValue) (ctx : Duktape.Context),
    (n ≤ length (m_argumentTypes m))%nat →
    length args = length (m_argumentTypes m) →
    Z.of_nat n ≤ argCount →
    Duk.loadArguments m n argCount args ctx
    = (values <- popBackwards (take n (m_argumentTypes m)) ;;
       ret (values ++ drop n args)) ctx.
Proof.
  induction n as [|n IH]; intros args ctx Hn Hlen Hcount.
  - done.
  - assert (is_Some (m_argumentTypes m !! n)) as [t Ht]
      by (apply lookup_lt_is_Some; lia).
    rewrite (take_S_r _ _ _ Ht).
    unfold bind at 1. rewrite popBackwards_snoc.
    simpl. unfold bind at 1. rewrite (vector_at_Some _ _ _ _ _ Ht).
    unfold bind at 1.
    destruct (Z.geb_spec (Z.of_nat n) argCount) as [Hge|_]; [lia|].
    unfold bind at 2.
    destruct (Duktape.pop t ctx) as [[v|e] c1]; [|done].
    unfold bind at 1. rewrite vector_set_inside by lia.
    rewrite IH by (rewrite ?length_insert; lia).
    unfold bind, ret.
    destruct (popBackwards (take n (m_argumentTypes m)) c1) as [[vs|e] c2]; [|done].
    rewrite insert_take_drop by lia.
    rewrite drop_app_length' by (rewrite length_take; lia).
    by rewrite <- app_assoc.
Qed.

Lemma duk_invoke_fixed (m : Duk.Method) (javaThis : JValue) (ctx : Duktape.Context) :
  m_isVarArgs m = false →
  size (m_argumentTypes m) ≤ INT_MAX →
  length (Duktape.stack ctx) = length (m_argumentTypes m) →
  Duk.invoke m javaThis ctx
  = (args <- popBackwards (m_argumentTypes m) ;;
     m_methodBody m javaThis args) ctx.
Proof.
  intros Hfixed Hint Hargc.
  pose proof (size_nonneg (m_argumentTypes m)) as Hnn.
  unfold Duk.invoke. rewrite duk_minArgs_fixed by done. rewrite Hfixed.
  unfold bind at 1. unfold Duktape.duk_get_top at 1.
  unfold size in *. rewrite Hargc.
  rewrite to_size_t_small by lia.
  destruct (Z.ltb_spec (Z.of_nat (length (m_argumentTypes m)))
                       (Z.of_nat (length (m_argumentTypes m)))); [lia|].
  destruct (Z.gtb_spec (Z.of_nat (length (m_argumentTypes m)))
                       (Z.of_nat (length (m_argumentTypes m)))); [lia|].
  simpl negb. simpl andb. cbv iota.
  unfold bind at 1. unfold ret at 1.
  unfold bind at 1. unfold ret at 1.
  rewrite loop_start by lia. rewrite Nat2Z.id.
  unfold bind at 1.
  rewrite duk_loadArguments_popBackwards by (rewrite ?length_replicate; lia).
  rewrite firstn_all. unfold bind, ret.
  destruct (popBackwards (m_argumentTypes m) ctx) as [[vs|e] c]; [|done].
  rewrite drop_ge by (rewrite length_replicate; lia).
  by rewrite app_nil_r.
Qed.

Lemma duk_invoke_variadic (m : Duk.Method) (javaThis : JValue) (ctx : Duktape.Context)
    (fixed : list Duktape.JavaType) (collector : Duktape.JavaType) :
  m_isVarArgs m = true →
  m_argumentTypes m = fixed ++ [collector] →
  size (m_argumentTypes m) ≤ INT_MAX →
  size fixed ≤ size (Duktape.stack ctx) ≤ INT_MAX →
  Duk.invoke m javaThis ctx
  = (array <- Duktape.popArray collector
                (size (Duktape.stack ctx) - size fixed) true ;;
     args <- popBackwards fixed ;;
     m_methodBody m javaThis (args ++ [array])) ctx.
Proof.
  intros Hvar Htypes Hint Hargc.
  assert (length (m_argumentTypes m) = S (length fixed)) as Hlen
    by (rewrite Htypes, length_app; simpl; lia).
  assert (Duk.minArgs m = size fixed) as Hmin.
  { rewrite duk_minArgs_variadic by (done || unfold size in *; lia).
    unfold size. lia. }
  unfold Duk.invoke. rewrite Hmin, Hvar.
  unfold bind at 1. unfold Duktape.duk_get_top at 1.
  unfold size in *.
  rewrite to_size_t_small by lia.
  destruct (Z.ltb_spec (Z.of_nat (length (Duktape.stack ctx)))
                       (Z.of_nat (length fixed))); [lia|].
  simpl negb. simpl andb. cbv iota.
  unfold bind at 1. unfold ret at 1.
  unfold bind at 1. unfold bind at 1. unfold vector_back.
  replace (last (m_argumentTypes m)) with (Some collector)
    by (by rewrite Htypes, last_snoc).
  unfold ret at 1. unfold bind at 1. unfold bind at 2.
  rewrite to_size_t_small by lia.
  destruct (Duktape.popArray collector _ true ctx) as [[array|e] c1]; [|done].
  rewrite length_replicate, Hlen.
  rewrite to_size_t_small by lia.
  replace (Z.of_nat (S (length fixed)) - 1) with (Z.of_nat (length fixed)) by lia.
  rewrite vector_set_inside by (rewrite length_replicate; lia).
  rewrite loop_start by lia. rewrite Nat2Z.id.
  unfold bind at 1.
  rewrite duk_loadArguments_popBackwards
    by (rewrite ?length_insert, ?length_replicate; lia).
  rewrite Htypes, take_app_length. unfold bind, ret.
  destruct (popBackwards fixed c1) as [[vs|e] c2]; [|done].
  rewrite insert_take_drop by (rewrite length_replicate; lia).
  rewrite drop_app_length' by (rewrite length_take, length_replicate; lia).
  rewrite drop_replicate.
  by replace (S (length fixed) - S (length fixed))%nat with 0%nat by lia.
Qed.

(** *** Both variants *)

Lemma toJavaAll_take (types : list QuickJs.JavaType) :
  ∀ values : list JSValue,
    toJavaAll types (take (length types) values) = toJavaAll types values.
Proof.
  induction types as [|t types IH]; intros [|v values]; simpl; try done.
  by rewrite IH.
Qed.

Lemma popBackwards_popsLike (tds : list Duktape.JavaType)
    (tqs : list QuickJs.JavaType) :
  Forall2 popsLike tds tqs →
  ∀ (st vs : list JSValue) (lg : list LogEntry) (js : list JValue),
    length vs = length tqs →
    toJavaAll tqs vs = Returns js →
    popBackwards tds (Duktape.mkContext (st ++ vs) lg)
    = (Returns js, Duktape.mkContext st lg).
Proof.
  induction 1 as [|td tq tds tqs [Hpop _] _ IH]; intros st vs lg js Hlen Hconv.
  - destruct vs; [|done]. injection Hconv as <-. simpl. by rewrite app_nil_r.
  - destruct vs as [|v vs]; [done|]. simpl in Hlen, Hconv.
    destruct (QuickJs.toJava tq v) as [j|e] eqn:Hj; simpl in Hconv; [|done].
    destruct (toJavaAll tqs vs) as [js'|e] eqn:Hrest; simpl in Hconv; [|done].
    injection Hconv as <-. simpl. unfold bind at 1.
    rewrite (cons_middle v st vs), app_assoc.
    rewrite (IH (st ++ [v]) vs lg js') by (done || lia).
    unfold bind at 1. by rewrite (Hpop st v lg j Hj).
Qed.

Lemma variants_fixed (md : Duk.Method) (mq : Qjs.Method) (javaThis : JValue)
    (argv : list JSValue) (lg : list LogEntry) (tr : list QuickJs.Event)
    (js : list JValue) :
  m_isVarArgs md = false → m_isVarArgs mq = false →
  Forall2 popsLike (m_argumentTypes md) (m_argumentTypes mq) →
  size (m_argumentTypes mq) ≤ INT_MAX →
  length argv = length (m_argumentTypes mq) →
  toJavaAll (m_argumentTypes mq) argv = Returns js →
  Duk.invoke md javaThis (Duktape.mkContext argv lg)
  = m_methodBody md javaThis js (Duktape.mkContext [] lg) ∧
  Qjs.invoke mq javaThis argv tr = m_methodBody mq javaThis js tr.
Proof.
  intros Hd Hq Hlike Hint Hargc Hconv.
  pose proof (Forall2_length _ _ _ Hlike) as Hlen.
  split.
  - rewrite duk_invoke_fixed by (done || unfold size in *; simpl; lia).
    unfold bind.
    pose proof (popBackwards_popsLike _ _ Hlike [] argv lg js Hargc Hconv) as Hpop.
    simpl in Hpop. by rewrite Hpop.
  - rewrite qjs_invoke_fixed by done.
    unfold bind, lift. by rewrite Hconv.
Qed.

Lemma variants_variadic (md : Duk.Method) (mq : Qjs.Method) (javaThis : JValue)
    (argv : list JSValue) (lg : list LogEntry) (tr : list QuickJs.Event)
    (fixedD : list Duktape.JavaType) (collectorD : Duktape.JavaType)
    (fixedQ : list QuickJs.JavaType) (collectorQ : QuickJs.JavaType)
    (js : list JValue) (array : JValue) :
  m_isVarArgs md = true → m_isVarArgs mq = true →
  m_argumentTypes md = fixedD ++ [collectorD] →
  m_argumentTypes mq = fixedQ ++ [collectorQ] →
  Forall2 popsLike fixedD fixedQ → popsLike collectorD collectorQ →
  size (m_argumentTypes mq) ≤ INT_MAX →
  (length fixedQ ≤ length argv)%nat → size argv ≤ INT_MAX →
  toJavaAll fixedQ argv = Returns js →
  QuickJs.toJavaArray collectorQ (JSArray (drop (length fixedQ) argv)) = Returns array →
  let rest := drop (length fixedQ) argv in
  Duk.invoke md javaThis (Duktape.mkContext argv lg)
  = m_methodBody md javaThis (js ++ [array]) (Duktape.mkContext [] lg) ∧
  Qjs.invoke mq javaThis argv tr
  = m_methodBody mq javaThis (js ++ [array])
                 (tr ++ map QuickJs.Dup rest ++ [QuickJs.Free (JSArray rest)]).
Proof.
  intros Hd Hq HtypesD HtypesQ Hlike [_ HpopArray] Hint Hargc Hmax Hconv Harray rest.
  pose proof (Forall2_length _ _ _ Hlike) as Hlen.
  split.
  - rewrite (duk_invoke_variadic md javaThis _ fixedD collectorD); try done.
    2:{ rewrite HtypesD. rewrite HtypesQ in Hint. unfold size in *.
        rewrite length_app in *. simpl in *. lia. }
    2:{ unfold size in *. simpl. lia. }
    simpl Duktape.stack. unfold bind at 1.
    replace (size argv - size fixedD) with (size rest)
      by (unfold rest, size; rewrite length_drop; lia).
    rewrite <- (take_drop (length fixedQ) argv) at 1. fold rest.
    rewrite (HpopArray _ rest lg array Harray).
    unfold bind.
    pose proof (popBackwards_popsLike _ _ Hlike [] (take (length fixedQ) argv) lg js)
      as Hpop.
    simpl in Hpop.
    rewrite Hpop; [done | rewrite length_take; lia | by rewrite toJavaAll_take].
  - rewrite (qjs_invoke_variadic mq javaThis argv tr fixedQ collectorQ) by done.
    rewrite Hconv. fold rest. fold rest in Harray.
    unfold bind, lift. rewrite Harray.
    unfold QuickJs.JS_FreeValue, QuickJs.emit. by rewrite <- app_assoc.
Qed.

(** X1.  QuickJS, a method that is not variadic, called with exactly as
    many script arguments as it has parameters: [invoke] converts the
    arguments through the marshallers of the parameters, in the order of
    the parameters, and runs [m_methodBody] on the converted values.
    The first conversion that throws ends the call with its exception:
    no later argument is converted and the method body does not run.
    Nothing is logged, duplicated or freed on the way. *)
Theorem qjs_invoke_exact_arity (m : Qjs.Method) (javaThis : JValue)
    (argv : list JSValue) (tr : list QuickJs.Event) :
  m_isVarArgs m = false →
  size (m_argumentTypes m) ≤ INT_MAX →
  length argv = length (m_argumentTypes m) →
  Qjs.invoke m javaThis argv tr
  = (args <- lift (toJavaAll (m_argumentTypes m) argv) ;;
     m_methodBody m javaThis args) tr.
Proof. apply qjs_invoke_fixed. Qed.

(** X2.  QuickJS, a variadic method called with at least as many script
    arguments as it has fixed parameters: the fixed arguments are
    converted first, in order, and the first failure among them ends the
    call before anything else is done.  Then every trailing argument is
    duplicated into one fresh script array, in order (the array is empty
    when there is no trailing argument); the array is converted by
    [toJavaArray] of the last marshaller and freed, and [m_methodBody]
    gets the fixed values followed by the converted array.  When the
    conversion of the array throws, the array is not freed. *)
Theorem qjs_invoke_collects_trailing_arguments (m : Qjs.Method) (javaThis : JValue)
    (argv : list JSValue) (tr : list QuickJs.Event)
    (fixed : list QuickJs.JavaType) (collector : QuickJs.JavaType) :
  m_isVarArgs m = true →
  m_argumentTypes m = fixed ++ [collector] →
  size (m_argumentTypes m) ≤ INT_MAX →
  (length fixed ≤ length argv)%nat →
  let rest := drop (length fixed) argv in
  Qjs.invoke m javaThis argv tr
  = match toJavaAll fixed argv with
    | Throws e => (Throws e, tr)
    | Returns args =>
        (array <- lift (QuickJs.toJavaArray collector (JSArray rest)) ;;
         QuickJs.JS_FreeValue (JSArray rest) ;;;
         m_methodBody m javaThis (args ++ [array]))
          (tr ++ map QuickJs.Dup rest)
    end.
Proof. apply qjs_invoke_variadic. Qed.

(** X3.  Duktape, a method that is not variadic, called with exactly as
    many values on the stack as it has parameters: [invoke] pops one
    value per parameter, through the marshaller of that parameter and
    starting with the last parameter, and runs [m_methodBody] on the
    popped values in the order of the parameters.  A [pop] that throws
    ends the call: the parameters before it are not popped and the
    method body does not run. *)
Theorem duk_invoke_pops_last_argument_first (m : Duk.Method) (javaThis : JValue)
    (ctx : Duktape.Context) :
  m_isVarArgs m = false →
  size (m_argumentTypes m) ≤ INT_MAX →
  length (Duktape.stack ctx) = length (m_argumentTypes m) →
  Duk.invoke m javaThis ctx
  = (args <- popBackwards (m_argumentTypes m) ;;
     m_methodBody m javaThis args) ctx.
Proof. apply duk_invoke_fixed. Qed.

(** X4.  Duktape, a variadic method called with at least as many values
    on the stack as it has fixed parameters: [popArray] of the last
    marshaller is asked first, for exactly the number of values above
    the fixed ones (zero when there is none); then the fixed parameters
    are popped, last first, and [m_methodBody] gets their values
    followed by the array. *)
Theorem duk_invoke_collects_trailing_values (m : Duk.Method) (javaThis : JValue)
    (ctx : Duktape.Context)
    (fixed : list Duktape.JavaType) (collector : Duktape.JavaType) :
  m_isVarArgs m = true →
  m_argumentTypes m = fixed ++ [collector] →
  size (m_argumentTypes m) ≤ INT_MAX →
  size fixed ≤ size (Duktape.stack ctx) ≤ INT_MAX →
  Duk.invoke m javaThis ctx
  = (array <- Duktape.popArray collector
                (size (Duktape.stack ctx) - size fixed) true ;;
     args <- popBackwards fixed ;;
     m_methodBody m javaThis (args ++ [array])) ctx.
Proof. apply duk_invoke_variadic. Qed.

(** X5.  On a call with enough arguments the two variants hand the same
    argument vector to the Java side.  Take a Duktape method and a
    QuickJS method with the same variadic flag whose marshallers
    correspond ([popsLike]), the script arguments [argv] on the Duktape
    stack, and conversions that all return.  For a method that is not
    variadic and gets one argument per parameter, both run their
    [m_methodBody] on the converted arguments, and the Duktape stack is
    empty by then.  For a variadic method with at least its fixed
    arguments, both run it on the converted fixed arguments followed by
    the converted array of the trailing ones. *)
Theorem variants_load_the_same_arguments :
  (∀ (md : Duk.Method) (mq : Qjs.Method) (javaThis : JValue)
     (argv : list JSValue) (lg : list LogEntry) (tr : list QuickJs.Event)
     (js : list JValue),
      m_isVarArgs md = false → m_isVarArgs mq = false →
      Forall2 popsLike (m_argumentTypes md) (m_argumentTypes mq) →
      size (m_argumentTypes mq) ≤ INT_MAX →
      length argv = length (m_argumentTypes mq) →
      toJavaAll (m_argumentTypes mq) argv = Returns js →
      Duk.invoke md javaThis (Duktape.mkContext argv lg)
      = m_methodBody md javaThis js (Duktape.mkContext [] lg) ∧
      Qjs.invoke mq javaThis argv tr = m_methodBody mq javaThis js tr) ∧
  (∀ (md : Duk.Method) (mq : Qjs.Method) (javaThis : JValue)
     (argv : list JSValue) (lg : list LogEntry) (tr : list QuickJs.Event)
     (fixedD : list Duktape.JavaType) (collectorD : Duktape.JavaType)
     (fixedQ : list QuickJs.JavaType) (collectorQ : QuickJs.JavaType)
     (js : list JValue) (array : JValue),
      m_isVarArgs md = true → m_isVarArgs mq = true →
      m_argumentTypes md = fixedD ++ [collectorD] →
      m_argumentTypes mq = fixedQ ++ [collectorQ] →
      Forall2 popsLike fixedD fixedQ → popsLike collectorD collectorQ →
      size (m_argumentTypes mq) ≤ INT_MAX →
      (length fixedQ ≤ length argv)%nat → size argv ≤ INT_MAX →
      toJavaAll fixedQ argv = Returns js →
      QuickJs.toJavaArray collectorQ (JSArray (drop (length fixedQ) argv))
      = Returns array →
      let rest := drop (length fixedQ) argv in
      Duk.invoke md javaThis (Duktape.mkContext argv lg)
      = m_methodBody md javaThis (js ++ [array]) (Duktape.mkContext [] lg) ∧
      Qjs.invoke mq javaThis argv tr
      = m_methodBody mq javaThis (js ++ [array])
                     (tr ++ map QuickJs.Dup rest ++ [QuickJs.Free (JSArray rest)])).
Proof.
  split.
  - intros. by apply variants_fixed.
  - intros. by eapply variants_variadic.
Qed.

End ArgumentLoadingFacts.

Module ArgumentLoadingWitnesses.
Import Native JsValues JavaMethod MarshallingNotions ArgumentLoadingFacts.
Local Open Scope Z_scope.
Local Open Scope cpp_scope.

Lemma anyType_popsLike : popsLike NativeSamples.Duk.anyType NativeSamples.Qjs.anyType.
Proof.
  split.
  - intros st v lg j [= <-]. simpl.
    unfold NativeSamples.Duk.popAny, bind, Duktape.get_stack. simpl.
    rewrite last_snoc. unfold Duktape.set_stack, ret. simpl.
    rewrite length_app. simpl.
    replace (length st + 1 - 1)%nat with (length st) by lia.
    by rewrite take_app_length.
  - intros st vs lg a [= <-]. simpl.
    unfold NativeSamples.Duk.popArrayAny, Duktape.duk_pop_n, bind, Duktape.get_stack.
    simpl. unfold size. rewrite length_app.
    destruct (Z.leb_spec 0 (Z.of_nat (length vs))); [|lia].
    destruct (Z.leb_spec (Z.of_nat (length vs)) (Z.of_nat (length st + length vs)));
      [|lia].
    simpl. unfold ret. rewrite Nat2Z.id.
    replace (length st + length vs - length vs)%nat with (length st) by lia.
    by rewrite take_app_length, drop_app_length.
Qed.

(** [add(1, 2)] *)
Lemma qjs_invoke_exact_arity_witness :
  Qjs.invoke NativeSamples.Qjs.add JNull [JSNumber 1; JSNumber 2] []
  = NativeSamples.Qjs.countingBody JNull [JPrimitive 1; JPrimitive 2] [].
Proof.
  exact (qjs_invoke_exact_arity NativeSamples.Qjs.add JNull [JSNumber 1; JSNumber 2] []
           eq_refl ltac:(by vm_compute) eq_refl).
Defined.

(** [join(1, 2, 3)] *)
Lemma qjs_invoke_collects_trailing_arguments_witness :
  Qjs.invoke NativeSamples.Qjs.join JNull [JSNumber 1; JSNumber 2; JSNumber 3] []
  = NativeSamples.Qjs.countingBody JNull
      [JPrimitive 1; JArray [JPrimitive 2; JPrimitive 3]]
      [QuickJs.Dup (JSNumber 2); QuickJs.Dup (JSNumber 3);
       QuickJs.Free (JSArray [JSNumber 2; JSNumber 3])].
Proof.
  exact (qjs_invoke_collects_trailing_arguments NativeSamples.Qjs.join JNull
           [JSNumber 1; JSNumber 2; JSNumber 3] []
           [NativeSamples.Qjs.anyType] NativeSamples.Qjs.anyType
           eq_refl eq_refl ltac:(by vm_compute) ltac:(simpl; lia)).
Defined.

(** [add(1, 2)] *)
Lemma duk_invoke_pops_last_argument_first_witness :
  Duk.invoke NativeSamples.Duk.add JNull
             (NativeSamples.Duk.stackOf [JSNumber 1; JSNumber 2])
  = NativeSamples.Duk.countingBody JNull [JPrimitive 1; JPrimitive 2]
                                   (NativeSamples.Duk.stackOf []).
Proof.
  exact (duk_invoke_pops_last_argument_first NativeSamples.Duk.add JNull
           (NativeSamples.Duk.stackOf [JSNumber 1; JSNumber 2])
           eq_refl ltac:(by vm_compute) eq_refl).
Defined.

(** [join(1)]: no trailing value *)
Lemma duk_invoke_collects_trailing_values_witness :
  Duk.invoke NativeSamples.Duk.join JNull (NativeSamples.Duk.stackOf [JSNumber 1])
  = NativeSamples.Duk.countingBody JNull [JPrimitive 1; JArray []]
                                   (NativeSamples.Duk.stackOf []).
Proof.
  exact (duk_invoke_collects_trailing_values NativeSamples.Duk.join JNull
           (NativeSamples.Duk.stackOf [JSNumber 1])
           [NativeSamples.Duk.anyType] NativeSamples.Duk.anyType
           eq_refl eq_refl ltac:(by vm_compute) ltac:(by vm_compute)).
Defined.

(** [add(1, 2)] and [join(1, 2, 3)] in both variants *)
Lemma variants_load_the_same_arguments_witness :
  (Duk.invoke NativeSamples.Duk.add JNull
              (NativeSamples.Duk.stackOf [JSNumber 1; JSNumber 2])
   = NativeSamples.Duk.countingBody JNull [JPrimitive 1; JPrimitive 2]
                                    (NativeSamples.Duk.stackOf []) ∧
   Qjs.invoke NativeSamples.Qjs.add JNull [JSNumber 1; JSNumber 2] []
   = NativeSamples.Qjs.countingBody JNull [JPrimitive 1; JPrimitive 2] []) ∧
  (Duk.invoke NativeSamples.Duk.join JNull
              (NativeSamples.Duk.stackOf [JSNumber 1; JSNumber 2; JSNumber 3])
   = NativeSamples.Duk.countingBody JNull
       [JPrimitive 1; JArray [JPrimitive 2; JPrimitive 3]]
       (NativeSamples.Duk.stackOf []) ∧
   Qjs.invoke NativeSamples.Qjs.join JNull [JSNumber 1; JSNumber 2; JSNumber 3] []
   = NativeSamples.Qjs.countingBody JNull
       [JPrimitive 1; JArray [JPrimitive 2; JPrimitive 3]]
       [QuickJs.Dup (JSNumber 2); QuickJs.Dup (JSNumber 3);
        QuickJs.Free (JSArray [JSNumber 2; JSNumber 3])]).
Proof.
  destruct variants_load_the_same_arguments as [Hfixed Hvariadic].
  split.
  - apply (Hfixed NativeSamples.Duk.add NativeSamples.Qjs.add JNull
             [JSNumber 1; JSNumber 2] [] [] [JPrimitive 1; JPrimitive 2]);
      try reflexivity.
    + repeat constructor; apply anyType_popsLike.
    + by vm_compute.
  - apply (Hvariadic NativeSamples.Duk.join NativeSamples.Qjs.join JNull
             [JSNumber 1; JSNumber 2; JSNumber 3] [] []
             [NativeSamples.Duk.anyType] NativeSamples.Duk.anyType
             [NativeSamples.Qjs.anyType] NativeSamples.Qjs.anyType
             [JPrimitive 1] (JArray [JPrimitive 2; JPrimitive 3]));
      try reflexivity.
    + repeat constructor; apply anyType_popsLike.
    + apply anyType_popsLike.
    + by vm_compute.
    + simpl; lia.
    + by vm_compute.
Defined.

End ArgumentLoadingWitnesses.

(** ** JavaScriptMethod.cpp: [invoke] when the arguments can be marshalled *)

Module QuickJsCallFacts.
Import Native JsValues IntegerFacts MonadFacts JavaScriptMethod QuickJs Notions.
Import MarshallingNotions.
Import Reflection(JsBridgeParameter).
Import JavaMethodFacts(vector_at_Some, vector_set_inside).
Import QuickJsInvokeFacts(freeArgs_spec, marshalArguments_length).
Local Open Scope Z_scope.
Local Open Scope cpp_scope.

Lemma fromJavaAll_length (types : list JavaType) :
  ∀ (values : list JValue) (vs : list JSValue),
    fromJavaAll types values = Returns vs →
    length vs = Nat.min (length types) (length values).
Proof.
  induction types as [|t types IH]; intros [|v values] vs H; simpl in *;
    try (injection H as <-; done).
  destruct (fromJava t v) as [j|e]; simpl in H; [|done].
  destruct (fromJavaAll types values) as [vs'|e] eqn:Hrest; simpl in H; [|done].
  injection H as <-. simpl. f_equal. by apply IH.
Qed.

(** The inner loop writes the elements of the array behind the fixed
    arguments. *)
Lemma expandVarArgs_spec (array : JSValue) (n : nat) :
  ∀ (j : nat) (pre mid post : list JSValue) (tr : list Event),
    length mid = n →
    Qjs.expandVarArgs n (Z.of_nat j) (Z.of_nat (length pre)) array
                      (pre ++ mid ++ post) tr
    = (Returns (pre ++ elementsOf array j n ++ post), tr).
Proof.
  induction n as [|n IH]; intros j pre mid post tr Hmid.
  - by destruct mid.
  - destruct mid as [|x mid]; [done|]. simpl in Hmid.
    simpl. unfold bind at 1.
    rewrite vector_set_inside by (rewrite length_app; simpl; lia).
    rewrite insert_app_r_alt by lia. rewrite Nat.sub_diag. simpl.
    rewrite (cons_middle _ pre), app_assoc.
    replace (Z.of_nat j + 1) with (Z.of_nat (S j)) by lia.
    replace (Z.of_nat (length pre) + 1) with (Z.of_nat (length (pre ++ [JS_GetPropertyUint32 array (Z.of_nat j)])))
      by (rewrite length_app; simpl; lia).
    rewrite (IH (S j) _ mid post tr) by lia.
    unfold elementsOf. simpl. by rewrite <- app_assoc.
Qed.

(** The iterations of the outer loop that convert a fixed argument. *)
Lemma convertArguments_fixed_steps (m : Qjs.Method) (args : list JValue)
    (varArgJavaArray : JValue) (varArgCount : Z) (d : nat) :
  ∀ (extra : nat) (pre mid post vs : list JSValue) (tr : list Event),
    length mid = d →
    (length pre + d ≤ length args)%nat →
    (length pre + d ≤ length (m_argumentTypes m))%nat →
    m_isVarArgs m = false ∨ Z.of_nat (length pre + d) ≤ size args - 1 →
    fromJavaAll (take d (drop (length pre) (m_argumentTypes m))) (drop (length pre) args)
    = Returns vs →
    Qjs.convertArguments m (d + extra) (Z.of_nat (length pre)) (size args)
                         varArgJavaArray varArgCount (Some args)
                         (pre ++ mid ++ post) tr
    = Qjs.convertArguments m extra (Z.of_nat (length pre + d)) (size args)
                           varArgJavaArray varArgCount (Some args)
                           (pre ++ vs ++ post) tr.
Proof.
  induction d as [|d IH]; intros extra pre mid post vs tr Hmid Hargs Htypes Hfixed Hconv.
  - destruct mid; [|done]. simpl in Hconv. injection Hconv as <-.
    by rewrite Nat.add_0_r.
  - destruct mid as [|x mid]; [done|]. simpl in Hmid.
    assert (is_Some (m_argumentTypes m !! length pre)) as [t Ht]
      by (apply lookup_lt_is_Some; lia).
    assert (is_Some (args !! length pre)) as [a Ha] by (apply lookup_lt_is_Some; lia).
    rewrite (drop_S _ _ _ Ht), (drop_S _ _ _ Ha) in Hconv. simpl in Hconv.
    destruct (fromJava t a) as [v|e] eqn:Hv; simpl in Hconv; [|done].
    destruct (fromJavaAll _ _) as [vs'|e] eqn:Hrest; simpl in Hconv; [|done].
    injection Hconv as <-.
    simpl. unfold bind at 1. unfold getElement.
    rewrite (vector_at_Some _ _ _ _ _ Ha).
    unfold bind at 1. rewrite (vector_at_Some _ _ _ _ _ Ht).
    assert (m_isVarArgs m && (Z.of_nat (length pre) >=? size args - 1) = false) as ->.
    { destruct Hfixed as [->|Hlt]; [done|].
      apply andb_false_intro2. rewrite Z.geb_leb. apply Z.leb_gt. lia. }
    unfold bind at 1, try_catch. unfold bind at 1, lift. rewrite Hv.
    unfold bind at 1.
    rewrite vector_set_inside by (rewrite length_app; simpl; lia).
    unfold ret at 1.
    rewrite insert_app_r_alt by lia. rewrite Nat.sub_diag. simpl.
    rewrite (cons_middle v pre (mid ++ post)), app_assoc.
    replace (Z.of_nat (length pre) + 1) with (Z.of_nat (length (pre ++ [v])))
      by (rewrite length_app; simpl; lia).
    rewrite (IH extra (pre ++ [v]) mid post vs' tr); try (rewrite length_app; simpl; lia).
    + rewrite length_app. simpl.
      replace (length pre + 1 + d)%nat with (length pre + S d)%nat by lia.
      by rewrite <- app_assoc.
    + lia.
    + destruct Hfixed as [Hfixed|Hlt]; [by left | right].
      rewrite length_app. simpl. lia.
    + rewrite length_app. simpl.
      by replace (length pre + 1)%nat with (S (length pre)) by lia.
Qed.

Lemma fromJavaAll_take_types (types : list JavaType) :
  ∀ values : list JValue,
    fromJavaAll (take (length values) types) values = fromJavaAll types values.
Proof.
  induction types as [|t types IH]; intros [|v values]; simpl; try done.
  by rewrite IH.
Qed.

Lemma fromJavaAll_app (types : list JavaType) :
  ∀ values more : list JValue,
    length types = length values →
    fromJavaAll types (values ++ more) = fromJavaAll types values.
Proof.
  induction types as [|t types IH]; intros [|v values] more Hlen; simpl in *;
    try done.
  by rewrite IH by lia.
Qed.

(** The marshalling of the arguments of a method that is not variadic. *)
Lemma marshalArguments_fixed (m : Qjs.Method) (javaArgs : JObjectArray)
    (vs : list JSValue) (tr : list Event) :
  m_isVarArgs m = false →
  (length (default [] javaArgs) ≤ length (m_argumentTypes m))%nat →
  fromJavaAll (m_argumentTypes m) (default [] javaArgs) = Returns vs →
  Qjs.marshalArguments m javaArgs tr
  = (Returns (numberOfArguments javaArgs, vs), tr).
Proof.
  intros Hfixed Hlen Hconv.
  unfold Qjs.marshalArguments, Qjs.readVarArgs. rewrite Hfixed.
  unfold bind at 1. unfold ret at 1.
  destruct javaArgs as [args|]; simpl in *.
  - unfold size. rewrite Nat2Z.id.
    pose proof (convertArguments_fixed_steps m args JNull 0 (length args) 0
                  [] (replicate (length args) JSUndefined) [] vs tr) as Hsteps.
    simpl in Hsteps. rewrite Nat.add_0_r, app_nil_r, app_nil_r in Hsteps.
    unfold size in Hsteps. change (Z.of_nat 0) with 0 in Hsteps. unfold bind.
    rewrite Hsteps; [done | by rewrite length_replicate | lia | done | by left |].
    by rewrite fromJavaAll_take_types.
  - destruct (m_argumentTypes m); simpl in Hconv; by injection Hconv as <-.
Qed.

(** The marshalling of the arguments of a variadic method whose last
    Java argument is the array [JArray elements]. *)
Lemma marshalArguments_variadic (m : Qjs.Method) (fixed : list JavaType)
    (collector : JavaType) (front elements : list JValue) (vs : list JSValue)
    (array : JSValue) (tr : list Event) :
  m_isVarArgs m = true →
  m_argumentTypes m = fixed ++ [collector] →
  length front = length fixed →
  fromJavaAll fixed front = Returns vs →
  (elements ≠ [] → fromJavaArray collector (JArray elements) = Returns array) →
  Qjs.marshalArguments m (Some (front ++ [JArray elements])) tr
  = (Returns (size front + size elements,
              vs ++ elementsOf array 0 (length elements)),
     tr ++ if elements is [] then [] else [Free array]).
Proof.
  intros Hvar Htypes Hfront Hconv Harray.
  pose proof (fromJavaAll_length _ _ _ Hconv) as Hvs.
  rewrite Nat.min_l in Hvs by lia.
  set (args := front ++ [JArray elements]).
  assert (length args = S (length front)) as Hargs
    by (unfold args; rewrite length_app; simpl; lia).
  assert (args !! length front = Some (JArray elements)) as Hlast.
  { unfold args. rewrite lookup_app_r by lia. by rewrite Nat.sub_diag. }
  unfold Qjs.marshalArguments, Qjs.readVarArgs. rewrite Hvar.
  change (numberOfArguments (Some args)) with (Z.of_nat (length args)).
  rewrite Hargs.
  unfold bind at 1. unfold bind at 1. unfold getElement.
  replace (Z.of_nat (S (length front)) - 1) with (Z.of_nat (length front)) by lia.
  rewrite (vector_at_Some _ _ _ _ _ Hlast).
  unfold bind at 1. simpl getArrayLength. unfold ret at 1. unfold ret at 1.
  unfold size.
  replace (Z.of_nat (S (length front)) + (Z.of_nat (length elements) - 1))
    with (Z.of_nat (length front + length elements)) by lia.
  rewrite Nat2Z.id.
  pose proof (convertArguments_fixed_steps m args (JArray elements)
                (Z.of_nat (length elements)) (length front) (length elements)
                [] (replicate (length front) JSUndefined)
                (replicate (length elements) JSUndefined) vs tr) as Hsteps.
  simpl in Hsteps. unfold size in Hsteps. rewrite Hargs in Hsteps.
  change (Z.of_nat 0) with 0 in Hsteps.
  rewrite replicate_add. unfold bind at 1.
  rewrite Hsteps; clear Hsteps.
  2:{ by rewrite length_replicate. }
  2:{ lia. }
  2:{ rewrite Htypes, length_app. simpl. lia. }
  2:{ right. lia. }
  2:{ rewrite !drop_0, Htypes, Hfront, take_app_length. unfold args.
      by rewrite fromJavaAll_app. }
  destruct elements as [|x elements].
  - simpl. unfold ret. rewrite !app_nil_r.
    do 3 f_equal. unfold size. simpl. lia.
  - specialize (Harray ltac:(done)).
    cbn [Qjs.convertArguments length].
    unfold bind at 1. unfold bind at 1. unfold getElement.
    rewrite (vector_at_Some _ _ _ _ _ Hlast).
    assert (m_argumentTypes m !! length front = Some collector) as Hcollector.
    { rewrite Htypes, lookup_app_r by lia. by rewrite Hfront, Nat.sub_diag. }
    unfold bind at 1. rewrite (vector_at_Some _ _ _ _ _ Hcollector).
    rewrite Hvar.
    destruct (Z.geb_spec (Z.of_nat (length front)) (Z.of_nat (S (length front)) - 1));
      [|lia].
    simpl andb. cbv iota.
    unfold bind at 1, try_catch. unfold bind at 1, lift. rewrite Harray.
    unfold bind at 1. rewrite Nat2Z.id.
    pose proof (expandVarArgs_spec array (S (length elements)) 0 vs
                  (replicate (S (length elements)) JSUndefined) [] tr) as Hexpand.
    rewrite Hvs, <- Hfront, !app_nil_r in Hexpand.
    change (Z.of_nat 0) with 0 in Hexpand.
    rewrite Hexpand by (by rewrite length_replicate).
    unfold bind, JS_FreeValue, emit, ret.
    do 3 f_equal. unfold size. lia.
Qed.

(** [invoke] from the call on. *)
Lemma qjs_invoke_after_marshalling (call : CallSemantics)
    (getDeferredType : JsBridgeParameter → JavaType) (getCurrentJsException : Qjs Thrown)
    (m : Qjs.Method) (jsMethod jsThis : JSValue) (javaArgs : JObjectArray)
    (awaitJsPromise : bool) (tr tr' : list Event)
    (numJsArguments : Z) (jsArgs : list JSValue) :
  Qjs.marshalArguments m javaArgs tr = (Returns (numJsArguments, jsArgs), tr') →
  let ret := JS_Call call jsMethod jsThis jsArgs in
  Qjs.invoke call getDeferredType getCurrentJsException m jsMethod jsThis javaArgs
             awaitJsPromise tr
  = autorelease ret
      (Qjs.convertResult getDeferredType getCurrentJsException m awaitJsPromise ret)
      (tr' ++ map Free jsArgs).
Proof.
  intros Hargs ret. subst ret. unfold Qjs.invoke.
  rewrite (bind_Returns _ _ _ _ _ Hargs).
  apply marshalArguments_length in Hargs.
  unfold autorelease, bind.
  change 0 with (Z.of_nat 0). rewrite freeArgs_spec by (simpl; lia).
  by rewrite drop_0, take_ge by lia.
Qed.

(** X6.  QuickJS [JavaScriptMethod::invoke] on a method that is not
    variadic: when every Java argument converts, the script function is
    called with exactly the converted arguments, in the order of the
    Java arguments (with none when the argument array is the null
    reference).  After the call each converted argument is freed once,
    in order; then the returned value is converted, and it is freed
    last, whether or not that conversion throws. *)
Theorem qjs_invoke_passes_converted_arguments (call : CallSemantics)
    (getDeferredType : JsBridgeParameter → JavaType) (getCurrentJsException : Qjs Thrown)
    (m : Qjs.Method) (jsMethod jsThis : JSValue) (javaArgs : JObjectArray)
    (awaitJsPromise : bool) (tr : list Event) (vs : list JSValue) :
  m_isVarArgs m = false →
  (length (default [] javaArgs) ≤ length (m_argumentTypes m))%nat →
  fromJavaAll (m_argumentTypes m) (default [] javaArgs) = Returns vs →
  let ret := JS_Call call jsMethod jsThis vs in
  Qjs.invoke call getDeferredType getCurrentJsException m jsMethod jsThis javaArgs
             awaitJsPromise tr
  = autorelease ret
      (Qjs.convertResult getDeferredType getCurrentJsException m awaitJsPromise ret)
      (tr ++ map Free vs).
Proof.
  intros Hfixed Hlen Hconv.
  eapply qjs_invoke_after_marshalling. by apply marshalArguments_fixed.
Qed.

(** X7.  QuickJS [JavaScriptMethod::invoke] on a variadic method whose
    last Java argument is an array: the script function is called with
    the converted fixed arguments followed by one script value per
    element of the Java array, read off the script array that
    [fromJavaArray] of the last marshaller made of it.  That script array
    is freed before the call.  When the Java array is empty the last
    marshaller is not consulted at all, and the function gets the fixed
    arguments only. *)
Theorem qjs_invoke_expands_trailing_array (call : CallSemantics)
    (getDeferredType : JsBridgeParameter → JavaType) (getCurrentJsException : Qjs Thrown)
    (m : Qjs.Method) (jsMethod jsThis : JSValue) (awaitJsPromise : bool)
    (tr : list Event) (fixed : list JavaType) (collector : JavaType)
    (front elements : list JValue) (vs : list JSValue) (array : JSValue) :
  m_isVarArgs m = true →
  m_argumentTypes m = fixed ++ [collector] →
  length front = length fixed →
  fromJavaAll fixed front = Returns vs →
  (elements ≠ [] → fromJavaArray collector (JArray elements) = Returns array) →
  let jsArgs := vs ++ elementsOf array 0 (length elements) in
  let ret := JS_Call call jsMethod jsThis jsArgs in
  Qjs.invoke call getDeferredType getCurrentJsException m jsMethod jsThis
             (Some (front ++ [JArray elements])) awaitJsPromise tr
  = autorelease ret
      (Qjs.convertResult getDeferredType getCurrentJsException m awaitJsPromise ret)
      (tr ++ (if elements is [] then [] else [Free array]) ++ map Free jsArgs).
Proof.
  intros Hvar Htypes Hfront Hconv Harray jsArgs ret.
  rewrite app_assoc.
  eapply qjs_invoke_after_marshalling. by eapply marshalArguments_variadic.
Qed.

(** X8.  QuickJS [JavaScriptMethod::invoke] when the script function
    throws: every converted argument is freed, in order, before the
    pending script error is fetched; [invoke] throws what
    [getCurrentJsException] returns, the result marshallers are not
    consulted, and the exception marker that [JS_Call] returned is freed
    last. *)
Theorem qjs_invoke_script_error (call : CallSemantics)
    (getDeferredType : JsBridgeParameter → JavaType) (getCurrentJsException : Qjs Thrown)
    (m : Qjs.Method) (jsMethod jsThis : JSValue) (javaArgs : JObjectArray)
    (awaitJsPromise : bool) (tr tr' : list Event)
    (numJsArguments : Z) (jsArgs : list JSValue) (error : JSValue) :
  Qjs.marshalArguments m javaArgs tr = (Returns (numJsArguments, jsArgs), tr') →
  call jsMethod jsThis jsArgs = Throws error →
  Qjs.invoke call getDeferredType getCurrentJsException m jsMethod jsThis javaArgs
             awaitJsPromise tr
  = match getCurrentJsException (tr' ++ map Free jsArgs) with
    | (Returns e, tr'') | (Throws e, tr'') => (Throws e, tr'' ++ [Free JSException])
    end.
Proof.
  intros Hargs Hthrows.
  rewrite (qjs_invoke_after_marshalling _ _ _ _ _ _ _ _ _ _ _ _ Hargs).
  unfold JS_Call. rewrite Hthrows.
  unfold autorelease, Qjs.convertResult, bind. simpl.
  by destruct (getCurrentJsException _) as [[e|e] tr''].
Qed.

End QuickJsCallFacts.

Module QuickJsCallWitnesses.
Import Native JsValues JavaScriptMethod QuickJs MarshallingNotions QuickJsCallFacts.
Import InvokeSamples.
Local Open Scope Z_scope.
Local Open Scope cpp_scope.

(** [greeter.count(1, 2)] through a method that is not variadic *)
Lemma qjs_invoke_passes_converted_arguments_witness :
  Qjs.invoke sampleCall (λ _, Qjs.deferredType) Qjs.currentJsException Qjs.greet
             (JSFunction 2 []) greeter (Some [JPrimitive 1; JPrimitive 2]) false []
  = (Returns (JPrimitive 2),
     [Free (JSNumber 1); Free (JSNumber 2); Free (JSNumber 2)]).
Proof.
  exact (qjs_invoke_passes_converted_arguments sampleCall (λ _, Qjs.deferredType)
           Qjs.currentJsException Qjs.greet (JSFunction 2 []) greeter
           (Some [JPrimitive 1; JPrimitive 2]) false []
           [JSNumber 1; JSNumber 2] eq_refl ltac:(simpl; lia) eq_refl).
Defined.

(** [greeter.count(5, 6)] through [fun count(vararg values: Any?)] *)
Lemma qjs_invoke_expands_trailing_array_witness :
  Qjs.invoke sampleCall (λ _, Qjs.deferredType) Qjs.currentJsException Qjs.count
             (JSFunction 2 []) greeter (Some [JArray [JPrimitive 5; JPrimitive 6]])
             false []
  = (Returns (JPrimitive 2),
     [Free (JSArray [JSNumber 5; JSNumber 6]); Free (JSNumber 5); Free (JSNumber 6);
      Free (JSNumber 2)]).
Proof.
  exact (qjs_invoke_expands_trailing_array sampleCall (λ _, Qjs.deferredType)
           Qjs.currentJsException Qjs.count (JSFunction 2 []) greeter false []
           [] NativeSamples.Qjs.anyType [] [JPrimitive 5; JPrimitive 6] []
           (JSArray [JSNumber 5; JSNumber 6])
           eq_refl eq_refl eq_refl eq_refl (λ _, eq_refl)).
Defined.

(** A call of a value that is no function *)
Lemma qjs_invoke_script_error_witness :
  Qjs.invoke sampleCall (λ _, Qjs.deferredType) Qjs.currentJsException Qjs.greet
             JSUndefined greeter (Some [JPrimitive 1; JPrimitive 2]) false []
  = (Throws (JsException (JSString "Error")),
     [Free (JSNumber 1); Free (JSNumber 2); Free JSException]).
Proof.
  exact (qjs_invoke_script_error sampleCall (λ _, Qjs.deferredType)
           Qjs.currentJsException Qjs.greet JSUndefined greeter
           (Some [JPrimitive 1; JPrimitive 2]) false [] []
           2 [JSNumber 1; JSNumber 2] (JSString "TypeError: not a function")
           eq_refl eq_refl).
Defined.

End QuickJsCallWitnesses.

Module DuktapeCallFacts.
Import Native JsValues IntegerFacts MonadFacts JavaScriptMethod Duktape Notions.
Import MarshallingNotions.
Import Reflection(JsBridgeParameter).
Import JavaMethodFacts(vector_at_Some).
Import DuktapeInvokeFacts(pushTarget_spec, popResult_spec).
Local Open Scope Z_scope.
Local Open Scope cpp_scope.

(** The values pushed for the arguments before the index [k] are [k]
    values, when the variadic tail is not among them. *)
Lemma pushedFor_prefix (m : Duk.Method) (args : list JValue)
    (values : list (list JSValue)) :
  pushedFor m args values →
  ∀ k : nat, (k ≤ length args)%nat →
    (m_isVarArgs m = true → (k < length args)%nat ∨ k = 0%nat) →
    length (concat (take k values)) = k.
Proof.
  intros [Hlen Hvalues]. induction k as [|k IH]; intros Hk Hvar; [done|].
  assert (is_Some (args !! k)) as [a Ha] by (apply lookup_lt_is_Some; lia).
  destruct (Hvalues k a Ha) as (t & xs & _ & Hxs & Hcontract).
  rewrite (take_S_r _ _ _ Hxs), concat_app, length_app. simpl. rewrite app_nil_r.
  rewrite IH by (lia || (intros; lia)).
  destruct (m_isVarArgs m && (Z.of_nat k =? size args - 1)) eqn:Hlast.
  - apply andb_prop in Hlast as [Hv Heq]. apply Z.eqb_eq in Heq.
    unfold size in Heq. destruct (Hvar Hv); lia.
  - destruct Hcontract as (x & -> & _). simpl. lia.
Qed.

(** The loop that pushes the arguments, when every push returns. *)
Lemma pushArguments_returns (m : Duk.Method) (args : list JValue)
    (values : list (list JSValue)) (base : list JSValue) :
  pushedFor m args values →
  ∀ (n k : nat) (ctx : Context),
    (k + n = length args)%nat →
    (m_isVarArgs m = true → (k < length args)%nat ∨ k = 0%nat) →
    stack ctx = base ++ concat (take k values) →
    Duk.pushArguments m n (Z.of_nat k) (size args) (Some args) ctx
    = (Returns (size (concat values)), mkContext (base ++ concat values) (log ctx)).
Proof.
  intros Hpushed. pose proof Hpushed as [Hlen Hvalues].
  induction n as [|n IH]; intros k ctx Hn Hvar Hst.
  - simpl. unfold ret.
    assert (take k values = values) as Hall by (apply take_ge; lia).
    pose proof (pushedFor_prefix m args values Hpushed k ltac:(lia) Hvar) as Hk.
    rewrite Hall in Hk, Hst. unfold size. rewrite Hk.
    destruct ctx as [st lg]. simpl in *. subst st.
    do 3 f_equal. lia.
  - assert (is_Some (args !! k)) as [a Ha] by (apply lookup_lt_is_Some; lia).
    destruct (Hvalues k a Ha) as (t & xs & Ht & Hxs & Hcontract).
    simpl. unfold getElement.
    rewrite (bind_Returns _ _ _ _ _ (vector_at_Some _ _ _ _ _ Ha)).
    rewrite (bind_Returns _ _ _ _ _ (vector_at_Some _ _ _ _ _ Ht)).
    destruct (m_isVarArgs m && (Z.of_nat k =? size args - 1)) eqn:Hlast.
    + apply andb_prop in Hlast as [Hv Heq]. apply Z.eqb_eq in Heq.
      unfold size in Heq.
      assert (values = take k values ++ [xs]) as Hsplit.
      { rewrite <- (take_S_r _ _ _ Hxs). symmetry. apply take_ge. lia. }
      pose proof (pushedFor_prefix m args values Hpushed k ltac:(lia)
                    ltac:(intros; lia)) as Hk.
      unfold bind at 1, try_catch. unfold bind at 1. rewrite (Hcontract ctx).
      unfold ret. rewrite Hst, <- app_assoc.
      assert (concat values = concat (take k values) ++ xs) as ->.
      { rewrite Hsplit at 1. rewrite concat_app. simpl. by rewrite app_nil_r. }
      do 2 f_equal. unfold size. rewrite length_app, Hk. lia.
    + destruct Hcontract as (x & -> & Hcontract).
      destruct (Hcontract ctx) as [r Hrun].
      unfold bind at 1, try_catch. unfold bind at 1. rewrite Hrun.
      unfold ret at 1. replace (Z.of_nat k + 1) with (Z.of_nat (S k)) by lia.
      assert (m_isVarArgs m = true → (S k < length args)%nat) as Hnext.
      { intros Hv. rewrite Hv in Hlast. simpl in Hlast.
        apply Z.eqb_neq in Hlast. unfold size in Hlast. lia. }
      rewrite (IH (S k) (mkContext (stack ctx ++ [x]) (log ctx)));
        [done | lia | intros Hv; left; by apply Hnext |].
      cbn [stack]. rewrite Hst, (take_S_r _ _ _ Hxs), concat_app. simpl.
      by rewrite <- app_assoc.
Qed.

(** The call itself, on a stack that holds the target and the pushed
    arguments above [below]. *)
Lemma callTarget_spec (call : CallSemantics) (m : Duk.Method) (jsHeapPtr : JSValue)
    (below pushed : list JSValue) (lg : list LogEntry) :
  Duk.callTarget call m (size below) (size pushed)
                 (mkContext (below ++ targetValues m jsHeapPtr ++ pushed) lg)
  = match call (calledFunction m jsHeapPtr) (calledOn m jsHeapPtr) pushed with
    | Returns v => (Returns DUK_EXEC_SUCCESS, mkContext (below ++ [v]) lg)
    | Throws err => (Returns DUK_EXEC_ERROR, mkContext (below ++ [err]) lg)
    end.
Proof.
  unfold Duk.callTarget, targetValues, calledFunction, calledOn.
  destruct (m_isLambda m).
  - unfold duk_pcall, bind, get_stack. cbn [stack].
    unfold size. rewrite !length_app. cbn [length].
    destruct (Z.leb_spec 0 (Z.of_nat (length pushed))); [|lia].
    destruct (Z.leb_spec (Z.of_nat (length pushed) + 1)
                (Z.of_nat (length below + (1 + length pushed)))); [|lia].
    simpl andb. cbv iota. rewrite Nat2Z.id.
    replace (length below + (1 + length pushed) - length pushed - 1)%nat
      with (length below) by lia.
    rewrite lookup_app_r by lia. rewrite Nat.sub_diag. simpl lookup.
    replace (length below + (1 + length pushed) - length pushed)%nat
      with (length (below ++ [jsHeapPtr])) by (rewrite length_app; simpl; lia).
    rewrite (app_assoc below [jsHeapPtr] pushed), drop_app_length.
    unfold finish_call, bind, get_stack, set_stack, ret. simpl.
    rewrite !length_app. cbn [length].
    replace (length below + 1 + length pushed - S (length pushed))%nat
      with (length below) by lia.
    rewrite <- app_assoc, take_app_length.
    by destruct (call jsHeapPtr JSUndefined pushed).
  - unfold bind at 1. unfold duk_pcall_prop, bind, get_stack. cbn [stack].
    unfold size. rewrite !length_app. cbn [length].
    destruct (Z.leb_spec 0 (Z.of_nat (length pushed))); [|lia].
    destruct (Z.leb_spec (Z.of_nat (length pushed) + 1)
                (Z.of_nat (length below + (2 + length pushed)))); [|lia].
    simpl andb. cbv iota. rewrite Nat2Z.id.
    assert (value_at (below ++ [jsHeapPtr; JSString (m_methodName m)] ++ pushed)
                     (Z.of_nat (length below)) = Some jsHeapPtr) as ->.
    { unfold value_at, normalize, size. rewrite !length_app. cbn [length].
      destruct (Z.ltb_spec (Z.of_nat (length below)) 0); [lia|].
      destruct (Z.leb_spec 0 (Z.of_nat (length below))); [|lia].
      destruct (Z.ltb_spec (Z.of_nat (length below))
                  (Z.of_nat (length below + (2 + length pushed)))); [|lia].
      simpl. rewrite Nat2Z.id, lookup_app_r by lia. by rewrite Nat.sub_diag. }
    replace (length below + (2 + length pushed) - length pushed - 1)%nat
      with (S (length below)) by lia.
    rewrite lookup_app_r by lia.
    replace (S (length below) - length below)%nat with 1%nat by lia. simpl lookup.
    replace (length below + (2 + length pushed) - length pushed)%nat
      with (length (below ++ [jsHeapPtr; JSString (m_methodName m)]))
      by (rewrite length_app; simpl; lia).
    rewrite (app_assoc below [_; _] pushed), drop_app_length.
    unfold finish_call, bind, get_stack, set_stack, ret. simpl.
    rewrite !length_app. cbn [length].
    replace (length below + 2 + length pushed - S (length pushed))%nat
      with (length (below ++ [jsHeapPtr])) by (rewrite length_app; simpl; lia).
    replace ((below ++ [jsHeapPtr; JSString (m_methodName m)]) ++ pushed)
      with ((below ++ [jsHeapPtr]) ++ JSString (m_methodName m) :: pushed)
      by (by rewrite <- !app_assoc).
    rewrite take_app_length.
    assert (∀ v, duk_remove (Z.of_nat (length below))
                   (mkContext ((below ++ [jsHeapPtr]) ++ [v]) lg)
                 = (Returns (), mkContext (below ++ [v]) lg)) as Hremove.
    { intros v. unfold duk_remove, bind, get_stack, set_stack. cbn [stack].
      unfold normalize, size. rewrite !length_app. cbn [length].
      destruct (Z.ltb_spec (Z.of_nat (length below)) 0); [lia|].
      destruct (Z.leb_spec 0 (Z.of_nat (length below))); [|lia].
      destruct (Z.ltb_spec (Z.of_nat (length below))
                  (Z.of_nat (length below + 1 + 1))); [|lia].
      simpl. rewrite Nat2Z.id, <- app_assoc. simpl.
      do 2 f_equal. apply delete_middle. }
    destruct (call (get_property jsHeapPtr (m_methodName m)) jsHeapPtr pushed) as [v|err];
      by rewrite Hremove.
Qed.

Lemma duk_performCall_returns (call : CallSemantics) (m : Duk.Method)
    (jsHeapPtr : JSValue) (javaArgs : JObjectArray) (values : list (list JSValue))
    (ctx : Context) :
  (if m_isLambda m then is_callable jsHeapPtr else is_object jsHeapPtr) = true →
  pushedFor m (default [] javaArgs) values →
  Duk.performCall call m jsHeapPtr javaArgs ctx
  = match call (calledFunction m jsHeapPtr) (calledOn m jsHeapPtr) (concat values) with
    | Returns v => (Returns DUK_EXEC_SUCCESS, mkContext (stack ctx ++ [v]) (log ctx))
    | Throws err => (Returns DUK_EXEC_ERROR, mkContext (stack ctx ++ [err]) (log ctx))
    end.
Proof.
  intros Hptr Hpushed. unfold Duk.performCall.
  rewrite (bind_Returns _ _ _ _ _ (pushTarget_spec m jsHeapPtr ctx Hptr)).
  assert (Duk.pushArguments m (Z.to_nat (numberOfArguments javaArgs)) 0
                            (numberOfArguments javaArgs) javaArgs
                            (mkContext (stack ctx ++ targetValues m jsHeapPtr) (log ctx))
          = (Returns (size (concat values)),
             mkContext ((stack ctx ++ targetValues m jsHeapPtr) ++ concat values)
                       (log ctx)))
    as Hrun.
  { destruct javaArgs as [args|]; simpl in *.
    - unfold size at 1. rewrite Nat2Z.id.
      rewrite (pushArguments_returns m args values
                 (stack ctx ++ targetValues m jsHeapPtr) Hpushed (length args) 0);
        [done | done | by right | by rewrite app_nil_r].
    - destruct Hpushed as [Hlen _]. destruct values; [|done].
      simpl. by rewrite app_nil_r. }
  rewrite (bind_Returns _ _ _ _ _ Hrun).
  rewrite <- app_assoc. apply callTarget_spec.
Qed.

(** X9.  Duktape [JavaScriptMethod::invoke], when the target is valid
    and every argument can be pushed: the script function is the lambda
    itself, called without a [this], or else the property of the object
    that has the name of the method, called on the object.  Its
    arguments are the values that the marshallers pushed, in the order
    of the Java arguments: one value for each, and for the last argument
    of a variadic method the values of the expanded array; there is none
    for the null argument array.  When the function returns, the result
    is popped off a stack that holds the returned value directly above
    what the stack held before [invoke]; when it throws,
    [getCurrentJsException] finds the error in that place.  The object,
    the method name and the arguments are gone from the stack in both
    cases. *)
Theorem duk_invoke_calls_with_pushed_arguments (call : CallSemantics)
    (getDeferredType : JsBridgeParameter → JavaType) (getCurrentJsException : Duk Thrown)
    (m : Duk.Method) (jsHeapPtr : JSValue) (javaArgs : JObjectArray)
    (values : list (list JSValue)) (awaitJsPromise : bool) (ctx : Context) :
  (if m_isLambda m then is_callable jsHeapPtr else is_object jsHeapPtr) = true →
  pushedFor m (default [] javaArgs) values →
  Duk.invoke call getDeferredType getCurrentJsException m jsHeapPtr javaArgs
             awaitJsPromise ctx
  = match call (calledFunction m jsHeapPtr) (calledOn m jsHeapPtr) (concat values) with
    | Returns v =>
        pop (dukResultMarshaller getDeferredType m awaitJsPromise (stack ctx ++ [v]))
            (mkContext (stack ctx ++ [v]) (log ctx))
    | Throws err =>
        (e <- getCurrentJsException ;; throw e) (mkContext (stack ctx ++ [err]) (log ctx))
    end.
Proof.
  intros Hptr Hpushed.
  pose proof (duk_performCall_returns call m jsHeapPtr javaArgs values ctx Hptr Hpushed)
    as Hrun.
  unfold Duk.invoke.
  destruct (call (calledFunction m jsHeapPtr) (calledOn m jsHeapPtr) (concat values))
    as [v|err]; rewrite (bind_Returns _ _ _ _ _ Hrun); simpl.
  - rewrite try_catch_rethrow. apply popResult_spec.
  - done.
Qed.

End DuktapeCallFacts.

Module DuktapeCallWitnesses.
Import Native JsValues JavaScriptMethod Duktape Notions MarshallingNotions.
Import DuktapeCallFacts InvokeSamples.
Local Open Scope Z_scope.
Local Open Scope cpp_scope.

Lemma nonNullType_pushesOne (z : Z) :
  pushesOne NativeSamples.Duk.nonNullType (JPrimitive z) (JSNumber z).
Proof. intros [st lg]. by exists 1. Qed.

Lemma anyType_pushesOne (a : JValue) :
  pushesOne NativeSamples.Duk.anyType a (NativeSamples.sampleToJs a).
Proof. intros [st lg]. by exists 1. Qed.

Lemma anyType_pushesAll (elements : list JValue) :
  pushesAll NativeSamples.Duk.anyType (JArray elements)
            (map NativeSamples.sampleToJs elements).
Proof. intros [st lg]. unfold size. by rewrite length_map. Qed.

(** [greeter.greet(1, 2)], which answers a promise, and
    [greeter.count(0, [5, 6])] of a variadic [count], which answers the
    number of its arguments. *)
Lemma duk_invoke_calls_with_pushed_arguments_witness :
  Duk.invoke sampleCall (λ _, Duk.deferredType) Duk.currentJsException Duk.greet
             greeter (Some [JPrimitive 1; JPrimitive 2]) false
             (NativeSamples.Duk.stackOf [JSNumber 7])
  = (Returns (JObject 0), NativeSamples.Duk.stackOf [JSNumber 7]) ∧
  sampleCall (JSFunction 1 []) greeter [JSNumber 1; JSNumber 2] = Returns promise ∧
  Duk.invoke sampleCall (λ _, Duk.deferredType) Duk.currentJsException Duk.count
             greeter (Some [JPrimitive 0; JArray [JPrimitive 5; JPrimitive 6]]) false
             (NativeSamples.Duk.stackOf [JSNumber 7])
  = (Returns (JPrimitive 3), NativeSamples.Duk.stackOf [JSNumber 7]) ∧
  sampleCall (JSFunction 2 []) greeter [JSNumber 0; JSNumber 5; JSNumber 6]
  = Returns (JSNumber 3).
Proof.
  split; [|split; [reflexivity|split; [|reflexivity]]].
  - rewrite (duk_invoke_calls_with_pushed_arguments sampleCall (λ _, Duk.deferredType)
               Duk.currentJsException Duk.greet greeter
               (Some [JPrimitive 1; JPrimitive 2]) [[JSNumber 1]; [JSNumber 2]] false
               (NativeSamples.Duk.stackOf [JSNumber 7])).
    + reflexivity.
    + reflexivity.
    + split; [reflexivity|].
      intros [|[|k]] a [= <-]; eexists _, _; (split; [reflexivity|]);
        (split; [reflexivity|]); simpl; eexists; (split; [reflexivity|]);
        apply nonNullType_pushesOne.
  - rewrite (duk_invoke_calls_with_pushed_arguments sampleCall (λ _, Duk.deferredType)
               Duk.currentJsException Duk.count greeter
               (Some [JPrimitive 0; JArray [JPrimitive 5; JPrimitive 6]])
               [[JSNumber 0]; [JSNumber 5; JSNumber 6]] false
               (NativeSamples.Duk.stackOf [JSNumber 7])).
    + reflexivity.
    + reflexivity.
    + split; [reflexivity|].
      intros [|[|k]] a [= <-]; eexists _, _; (split; [reflexivity|]);
        (split; [reflexivity|]); simpl.
      * eexists. split; [reflexivity|]. apply (anyType_pushesOne (JPrimitive 0)).
      * apply (anyType_pushesAll [JPrimitive 5; JPrimitive 6]).
Defined.

End DuktapeCallWitnesses.

(** ** JavaScriptObject.cpp: registration that succeeds, and [call] *)

Module DispatchFacts.
Import Native JsValues MonadFacts Notions DispatchNotions.
Import Reflection(JsBridgeParameter).
Import JavaScriptMethod(MethodInterface, getName, getJavaMethod, JavaScriptMethod,
                        new_JavaScriptMethod, JObjectArray).
Import JavaScriptObject JavaScriptObjectCall.
Import RegistrationFacts(duk_checkMethod_usable, duk_pop_top, duk_new_JavaScriptObject_valid,
                         qjs_checkMethod_usable).
Local Open Scope Z_scope.
Local Open Scope cpp_scope.

(** [emplace] never replaces: the table maps an id to the invoker of the
    first method that was added with it. *)
Lemma tableOf_lookup {T} (build : MethodInterface → JavaScriptMethod T)
    (methods : list MethodInterface) :
  ∀ (table : gmap Z (JavaScriptMethod T)) (methodId : Z),
    tableOf build methods table !! methodId
    = match table !! methodId with
      | Some jsMethod => Some jsMethod
      | None => build <$> firstWithId methods methodId
      end.
Proof.
  induction methods as [|mi methods IH]; intros table methodId; simpl.
  - by destruct (table !! methodId).
  - unfold tableOf in *. simpl. rewrite IH. unfold emplace, firstWithId. simpl.
    destruct (Z.eqb_spec (fromReflectedMethod (getJavaMethod mi)) methodId) as [->|Hne].
    + destruct (table !! methodId) as [jsMethod|] eqn:Hat.
      * by rewrite Hat.
      * by rewrite lookup_insert_eq.
    + destruct (table !! fromReflectedMethod (getJavaMethod mi)); [done|].
      by rewrite lookup_insert_ne.
Qed.

(** *** Duktape *)
Section Duktape.
Import Duktape.

Variable makeUniqueType : option JsBridgeParameter -> bool -> Outcome Thrown JavaType.
Variable getGenericParameter : JsBridgeParameter -> option JsBridgeParameter.

(** One round of the loop for a method that passes the check, if there
    is one, up to the construction of the invoker. *)
Lemma duk_check_passes (m_name : string) (check : bool) (mi : MethodInterface)
    (base : list JSValue) (obj : JSValue) (lg : list LogEntry) :
  is_object obj = true →
  (check = true → is_callable (get_property obj (getName mi)) = true) →
  (if check then Duk.checkMethod m_name (getName mi) else ret ())
    (mkContext (base ++ [obj]) lg)
  = (Returns (), mkContext (base ++ [obj]) lg).
Proof.
  intros Hobj Hcheck. destruct check; [|done].
  apply duk_checkMethod_usable; auto.
Qed.

Lemma duk_addMethods_succeeds (m_name : string) (check : bool)
    (base : list JSValue) (obj : JSValue) (lg : list LogEntry)
    (build : MethodInterface → JavaScriptMethod JavaType) :
  is_object obj = true →
  ∀ (methods : list MethodInterface) (table : gmap Z (JavaScriptMethod JavaType)),
    (check = true →
     ∀ mi, mi ∈ methods → is_callable (get_property obj (getName mi)) = true) →
    (∀ mi, mi ∈ methods →
       new_JavaScriptMethod makeUniqueType getGenericParameter mi (getName mi) false
       = Returns (build mi)) →
    Duk.addMethods makeUniqueType getGenericParameter m_name check methods table
                   (mkContext (base ++ [obj]) lg)
    = (Returns (tableOf build methods table), mkContext (base ++ [obj]) lg).
Proof.
  intros Hobj.
  induction methods as [|mi methods IH]; intros table Hcheck Hbuild; [done|].
  simpl. unfold bind at 1.
  rewrite duk_check_passes; [|done|].
  2:{ intros Hc. apply (Hcheck Hc). by left. }
  unfold bind at 1, try_catch. unfold bind at 1, lift.
  rewrite (Hbuild mi) by (by left). unfold ret at 1.
  apply IH.
  - intros Hc mi' Hin. apply (Hcheck Hc). by right.
  - intros mi' Hin. apply Hbuild. by right.
Qed.

Lemma duk_registration_succeeds (strName : string) (jsObjectIndex : Z)
    (methods : list MethodInterface) (check : bool) (ctx : Context) (obj : JSValue)
    (build : MethodInterface → JavaScriptMethod JavaType) :
  value_at (stack ctx) jsObjectIndex = Some obj →
  is_object obj = true →
  (check = true →
   ∀ mi, mi ∈ methods → is_callable (get_property obj (getName mi)) = true) →
  (∀ mi, mi ∈ methods →
     new_JavaScriptMethod makeUniqueType getGenericParameter mi (getName mi) false
     = Returns (build mi)) →
  Duk.new_JavaScriptObject makeUniqueType getGenericParameter strName jsObjectIndex
                           methods check ctx
  = (Returns (mkJavaScriptObject strName obj (tableOf build methods ∅)),
     mkContext (stack ctx)
               (log ctx ++ if has_property obj "then" then [RegisteringPromise] else [])).
Proof.
  intros Hat Hobj Hcheck Hbuild.
  rewrite (duk_new_JavaScriptObject_valid _ _ _ _ _ _ _ _ Hat Hobj).
  unfold bind at 1. rewrite (duk_addMethods_succeeds strName check _ _ _ build) by done.
  unfold bind, duk_pop. change 1 with (Z.of_nat 1).
  by rewrite (duk_pop_top 1 (stack ctx) [obj]).
Qed.

(** X10.  Duktape registration that succeeds.  When the value at
    [jsObjectIndex] is an object, the invoker of every listed method can
    be built and, if [check] is set, every listed name is a callable
    property of the object, the constructor returns; without [check]
    the properties of the object play no role.  The new proxy has the
    given name, points to the object, and maps a method id to the
    invoker of the first listed method with that id: a later method
    with the same id does not replace it, and an id that is not listed
    has no entry.  The value stack is what it was, and the only thing
    logged is the warning for an object that has a [then] property. *)
Theorem duk_registration_builds_method_table (strName : string) (jsObjectIndex : Z)
    (methods : list MethodInterface) (check : bool) (ctx : Context) (obj : JSValue)
    (build : MethodInterface → JavaScriptMethod JavaType) :
  value_at (stack ctx) jsObjectIndex = Some obj →
  is_object obj = true →
  (check = true →
   ∀ mi, mi ∈ methods → is_callable (get_property obj (getName mi)) = true) →
  (∀ mi, mi ∈ methods →
     new_JavaScriptMethod makeUniqueType getGenericParameter mi (getName mi) false
     = Returns (build mi)) →
  ∃ proxy,
    Duk.new_JavaScriptObject makeUniqueType getGenericParameter strName jsObjectIndex
                             methods check ctx
    = (Returns proxy,
       mkContext (stack ctx)
                 (log ctx ++ if has_property obj "then" then [RegisteringPromise] else [])) ∧
    m_name proxy = strName ∧
    m_jsHeapPtr proxy = obj ∧
    ∀ methodId, m_methods proxy !! methodId = build <$> firstWithId methods methodId.
Proof.
  intros Hat Hobj Hcheck Hbuild.
  eexists. split; [by apply duk_registration_succeeds|].
  repeat split. intros methodId. simpl. by rewrite tableOf_lookup, lookup_empty.
Qed.

Lemma duk_addMethods_build_fails (m_name : string) (check : bool)
    (base : list JSValue) (obj : JSValue) (lg : list LogEntry)
    (build : MethodInterface → JavaScriptMethod JavaType)
    (mi : MethodInterface) (rest : list MethodInterface) (e : Thrown) :
  is_object obj = true →
  (check = true → is_callable (get_property obj (getName mi)) = true) →
  new_JavaScriptMethod makeUniqueType getGenericParameter mi (getName mi) false
  = Throws e →
  ∀ (built : list MethodInterface) (table : gmap Z (JavaScriptMethod JavaType)),
    (check = true →
     ∀ g, g ∈ built → is_callable (get_property obj (getName g)) = true) →
    (∀ g, g ∈ built →
       new_JavaScriptMethod makeUniqueType getGenericParameter g (getName g) false
       = Returns (build g)) →
    Duk.addMethods makeUniqueType getGenericParameter m_name check
                   (built ++ mi :: rest) table (mkContext (base ++ [obj]) lg)
    = if is_std_invalid_argument e
      then (Throws (std_invalid_argument (inProxiedMethod m_name (getName mi) e)),
            mkContext base lg)
      else (Throws e, mkContext (base ++ [obj]) lg).
Proof.
  intros Hobj Hcheck Hfail.
  induction built as [|g built IH]; intros table Hchecks Hbuild.
  - simpl. unfold bind at 1. rewrite duk_check_passes by done.
    unfold bind at 1, try_catch. unfold bind at 1, lift. rewrite Hfail.
    destruct (is_std_invalid_argument e); [|done].
    unfold bind, duk_pop. change 1 with (Z.of_nat 1).
    by rewrite (duk_pop_top 1 base [obj]).
  - simpl. unfold bind at 1.
    rewrite duk_check_passes; [|done|].
    2:{ intros Hc. apply (Hchecks Hc). by left. }
    unfold bind at 1, try_catch. unfold bind at 1, lift.
    rewrite (Hbuild g) by (by left). unfold ret at 1.
    apply IH.
    + intros Hc g' Hin. apply (Hchecks Hc). by right.
    + intros g' Hin. apply Hbuild. by right.
Qed.

(** X11.  Duktape registration when the invoker of a listed method
    cannot be built, while the methods before it were added (and, if
    [check] is set, the method itself passed the check).  When
    [JavaScriptMethod]'s constructor threw [std::invalid_argument],
    the constructor of the proxy throws [std::invalid_argument] with
    the text [In proxied method "NAME.METHOD": ] followed by the text of
    the cause, and the value stack is what it was.  Any other exception
    leaves as it is, and the object that the constructor pushed stays on
    the value stack. *)
Theorem duk_registration_wraps_invalid_argument (strName : string) (jsObjectIndex : Z)
    (check : bool) (ctx : Context) (obj : JSValue)
    (build : MethodInterface → JavaScriptMethod JavaType)
    (built : list MethodInterface) (mi : MethodInterface)
    (rest : list MethodInterface) (e : Thrown) :
  value_at (stack ctx) jsObjectIndex = Some obj →
  is_object obj = true →
  (check = true →
   ∀ g, g ∈ built ++ [mi] → is_callable (get_property obj (getName g)) = true) →
  (∀ g, g ∈ built →
     new_JavaScriptMethod makeUniqueType getGenericParameter g (getName g) false
     = Returns (build g)) →
  new_JavaScriptMethod makeUniqueType getGenericParameter mi (getName mi) false
  = Throws e →
  let lg := log ctx ++ if has_property obj "then" then [RegisteringPromise] else [] in
  Duk.new_JavaScriptObject makeUniqueType getGenericParameter strName jsObjectIndex
                           (built ++ mi :: rest) check ctx
  = if is_std_invalid_argument e
    then (Throws (std_invalid_argument (inProxiedMethod strName (getName mi) e)),
          mkContext (stack ctx) lg)
    else (Throws e, mkContext (stack ctx ++ [obj]) lg).
Proof.
  intros Hat Hobj Hcheck Hbuild Hfail lg.
  rewrite (duk_new_JavaScriptObject_valid _ _ _ _ _ _ _ _ Hat Hobj).
  unfold bind at 1.
  rewrite (duk_addMethods_build_fails strName check _ _ _ build mi rest e); try done.
  - by destruct (is_std_invalid_argument e).
  - intros Hc. apply (Hcheck Hc). apply elem_of_app. right. by left.
  - intros Hc g Hin. apply (Hcheck Hc). apply elem_of_app. by left.
Qed.

(** X12.  Duktape registration of something that is no object: when
    [jsObjectIndex] is not a valid index of the value stack, or the
    value there is not an object (a number, a string, null, undefined),
    the constructor throws [std::invalid_argument] with the text
    [JavaScript object NAME cannot be accessed]; the context is
    untouched, and neither the methods nor [check] play a role. *)
Theorem duk_registration_rejects_non_object (strName : string) (jsObjectIndex : Z)
    (methods : list MethodInterface) (check : bool) (ctx : Context) :
  match value_at (stack ctx) jsObjectIndex with
  | Some v => is_object v = false
  | None => True
  end →
  Duk.new_JavaScriptObject makeUniqueType getGenericParameter strName jsObjectIndex
                           methods check ctx
  = (Throws (std_invalid_argument
               ("JavaScript object " +:+ strName +:+ " cannot be accessed")), ctx).
Proof.
  intros Hno. unfold Duk.new_JavaScriptObject.
  unfold bind at 1. unfold duk_is_object at 1, duk_test, bind, get_stack, ret.
  destruct (value_at (stack ctx) jsObjectIndex) as [v|]; [rewrite Hno|]; done.
Qed.

Section Call.

Variable callSemantics : CallSemantics.
Variable getDeferredType : JsBridgeParameter -> JavaType.
Variable getCurrentJsException : Duk Thrown.
Variable getJavaReflectedMethodName : Z -> string.

Lemma is_object_not_nullptr (obj : JSValue) :
  is_object obj = true → Duk.is_nullptr obj = false.
Proof. by destruct obj. Qed.

(** X13.  Duktape: [call] on a proxy that registration returned.  The
    reflected method selects, by its id, the invoker of the first
    listed method with that id, and [call] is the [invoke] of that
    invoker on the registered object, except that a
    [std::runtime_error] from it is thrown again as a
    [std::runtime_error] whose text starts with
    [Error while calling JS method NAME.METHOD: ]; every other exception
    passes unchanged.  For a method that was not listed [call] throws
    [std::invalid_argument] with the text
    [Could not find method NAME.METHOD], which the handler for
    [std::runtime_error] lets pass, and touches nothing. *)
Theorem duk_call_dispatches_on_method_id (strName : string) (jsObjectIndex : Z)
    (methods : list MethodInterface) (check : bool) (ctx ctx0 : Context)
    (obj : JSValue) (build : MethodInterface → JavaScriptMethod JavaType)
    (proxy : JavaScriptObject JavaType) :
  value_at (stack ctx0) jsObjectIndex = Some obj →
  is_object obj = true →
  (check = true →
   ∀ mi, mi ∈ methods → is_callable (get_property obj (getName mi)) = true) →
  (∀ mi, mi ∈ methods →
     new_JavaScriptMethod makeUniqueType getGenericParameter mi (getName mi) false
     = Returns (build mi)) →
  fst (Duk.new_JavaScriptObject makeUniqueType getGenericParameter strName
                                jsObjectIndex methods check ctx0)
  = Returns proxy →
  ∀ (javaMethod : Z) (args : JObjectArray) (awaitJsPromise : bool),
    Duk.call callSemantics getDeferredType getCurrentJsException
             getJavaReflectedMethodName proxy javaMethod args awaitJsPromise ctx
    = match firstWithId methods javaMethod with
      | None =>
          (Throws (std_invalid_argument
                     (couldNotFindMethod strName
                                         (getJavaReflectedMethodName javaMethod))), ctx)
      | Some mi =>
          match JavaScriptMethod.Duk.invoke callSemantics getDeferredType
                  getCurrentJsException (build mi) obj args awaitJsPromise ctx with
          | (Throws (std_runtime_error what), ctx') =>
              (Throws (std_runtime_error
                         (errorWhileCalling strName
                                            (getJavaReflectedMethodName javaMethod)
                                            (std_runtime_error what))), ctx')
          | outcome => outcome
          end
      end.
Proof.
  intros Hat Hobj Hcheck Hbuild Hnew javaMethod args awaitJsPromise.
  rewrite (duk_registration_succeeds _ _ _ _ _ _ build Hat Hobj Hcheck Hbuild) in Hnew.
  injection Hnew as <-.
  unfold Duk.call. simpl m_jsHeapPtr. rewrite is_object_not_nullptr by done.
  simpl m_methods. rewrite tableOf_lookup, lookup_empty. unfold fromReflectedMethod.
  unfold firstWithId, fromReflectedMethod.
  destruct (find _ methods) as [mi|]; simpl; [|done].
  unfold try_catch.
  destruct (JavaScriptMethod.Duk.invoke _ _ _ _ _ _ _ _) as [[v|e] ctx']; [done|].
  by destruct e.
Qed.

End Call.

End Duktape.

(** *** QuickJS *)
Section QuickJs.
Import QuickJs.

Variable makeUniqueType : option JsBridgeParameter -> bool -> Outcome Thrown JavaType.
Variable getGenericParameter : JsBridgeParameter -> option JsBridgeParameter.

Lemma qjs_check_passes (m_name : string) (check : bool) (mi : MethodInterface)
    (obj : JSValue) (tr : list Event) :
  (check = true → is_callable (get_property obj (getName mi)) = true) →
  (if check then Qjs.checkMethod m_name (getName mi) obj else ret ()) tr
  = (Returns (), tr ++ checkedProperties check obj [mi]).
Proof.
  intros Hcheck. destruct check; simpl.
  - apply qjs_checkMethod_usable; auto.
  - unfold ret. by rewrite app_nil_r.
Qed.

Lemma checkedProperties_cons (check : bool) (obj : JSValue) (mi : MethodInterface)
    (methods : list MethodInterface) :
  checkedProperties check obj (mi :: methods)
  = checkedProperties check obj [mi] ++ checkedProperties check obj methods.
Proof. by destruct check. Qed.

Lemma qjs_addMethods_succeeds (m_name : string) (check : bool) (obj : JSValue)
    (build : MethodInterface → JavaScriptMethod JavaType) :
  ∀ (methods : list MethodInterface) (table : gmap Z (JavaScriptMethod JavaType))
    (tr : list Event),
    (check = true →
     ∀ mi, mi ∈ methods → is_callable (get_property obj (getName mi)) = true) →
    (∀ mi, mi ∈ methods →
       new_JavaScriptMethod makeUniqueType getGenericParameter mi (getName mi) false
       = Returns (build mi)) →
    Qjs.addMethods makeUniqueType getGenericParameter m_name obj check methods table tr
    = (Returns (tableOf build methods table), tr ++ checkedProperties check obj methods).
Proof.
  induction methods as [|mi methods IH]; intros table tr Hcheck Hbuild.
  - simpl. unfold ret, checkedProperties. destruct check; by rewrite app_nil_r.
  - simpl. unfold bind at 1.
    rewrite qjs_check_passes.
    2:{ intros Hc. apply (Hcheck Hc). by left. }
    unfold bind at 1, try_catch. unfold bind at 1, lift.
    rewrite (Hbuild mi) by (by left). unfold ret at 1.
    rewrite IH.
    + by rewrite (checkedProperties_cons check obj mi methods), app_assoc.
    + intros Hc mi' Hin. apply (Hcheck Hc). by right.
    + intros mi' Hin. apply Hbuild. by right.
Qed.

Lemma qjs_registration_starts (strName : string) (obj : JSValue)
    (methods : list MethodInterface) (check : bool) (tr : list Event) :
  is_object obj = true →
  Qjs.new_JavaScriptObject makeUniqueType getGenericParameter strName obj methods
                           check tr
  = (m_methods <- Qjs.addMethods makeUniqueType getGenericParameter strName obj check
                                 methods ∅ ;;
     ret (mkJavaScriptObject strName obj m_methods))
      (tr ++ if has_property obj "then" then [Logged RegisteringPromise] else []).
Proof.
  intros Hobj. unfold Qjs.new_JavaScriptObject. rewrite Hobj.
  assert (is_null obj = false) as -> by (by destruct obj).
  simpl. unfold bind at 1.
  destruct (has_property obj "then"); [done|].
  unfold ret at 1. by rewrite app_nil_r.
Qed.

Lemma qjs_registration_succeeds (strName : string) (obj : JSValue)
    (methods : list MethodInterface) (check : bool) (tr : list Event)
    (build : MethodInterface → JavaScriptMethod JavaType) :
  is_object obj = true →
  (check = true →
   ∀ mi, mi ∈ methods → is_callable (get_property obj (getName mi)) = true) →
  (∀ mi, mi ∈ methods →
     new_JavaScriptMethod makeUniqueType getGenericParameter mi (getName mi) false
     = Returns (build mi)) →
  Qjs.new_JavaScriptObject makeUniqueType getGenericParameter strName obj methods
                           check tr
  = (Returns (mkJavaScriptObject strName obj (tableOf build methods ∅)),
     tr ++ (if has_property obj "then" then [Logged RegisteringPromise] else [])
        ++ checkedProperties check obj methods).
Proof.
  intros Hobj Hcheck Hbuild.
  rewrite qjs_registration_starts by done.
  unfold bind. rewrite (qjs_addMethods_succeeds strName check obj build) by done.
  unfold ret. by rewrite <- app_assoc.
Qed.

(** X14.  QuickJS registration that succeeds.  When the value is an
    object, the invoker of every listed method can be built and, if
    [check] is set, every listed name is a function property of the
    object, the constructor returns a proxy with the given name that
    maps a method id to the invoker of the first listed method with
    that id.  With [check] the property value of each listed name is
    fetched and freed, once per listed method and in the order of the
    list; without it no property is read.  Nothing else happens but the
    warning for an object that has a [then] property. *)
Theorem qjs_registration_builds_method_table (strName : string) (obj : JSValue)
    (methods : list MethodInterface) (check : bool) (tr : list Event)
    (build : MethodInterface → JavaScriptMethod JavaType) :
  is_object obj = true →
  (check = true →
   ∀ mi, mi ∈ methods → is_callable (get_property obj (getName mi)) = true) →
  (∀ mi, mi ∈ methods →
     new_JavaScriptMethod makeUniqueType getGenericParameter mi (getName mi) false
     = Returns (build mi)) →
  ∃ proxy,
    Qjs.new_JavaScriptObject makeUniqueType getGenericParameter strName obj methods
                             check tr
    = (Returns proxy,
       tr ++ (if has_property obj "then" then [Logged RegisteringPromise] else [])
          ++ (if check
              then map (λ mi, Free (get_property obj (getName mi))) methods
              else [])) ∧
    m_name proxy = strName ∧
    m_jsHeapPtr proxy = obj ∧
    ∀ methodId, m_methods proxy !! methodId = build <$> firstWithId methods methodId.
Proof.
  intros Hobj Hcheck Hbuild.
  eexists. split; [by apply qjs_registration_succeeds|].
  repeat split. intros methodId. simpl. by rewrite tableOf_lookup, lookup_empty.
Qed.

Lemma qjs_addMethods_build_fails (m_name : string) (check : bool) (obj : JSValue)
    (build : MethodInterface → JavaScriptMethod JavaType)
    (mi : MethodInterface) (rest : list MethodInterface) (e : Thrown) :
  (check = true → is_callable (get_property obj (getName mi)) = true) →
  new_JavaScriptMethod makeUniqueType getGenericParameter mi (getName mi) false
  = Throws e →
  ∀ (built : list MethodInterface) (table : gmap Z (JavaScriptMethod JavaType))
    (tr : list Event),
    (check = true →
     ∀ g, g ∈ built → is_callable (get_property obj (getName g)) = true) →
    (∀ g, g ∈ built →
       new_JavaScriptMethod makeUniqueType getGenericParameter g (getName g) false
       = Returns (build g)) →
    Qjs.addMethods makeUniqueType getGenericParameter m_name obj check
                   (built ++ mi :: rest) table tr
    = (Throws (if is_std_exception e
               then std_invalid_argument (inProxiedMethod m_name (getName mi) e)
               else e),
       tr ++ checkedProperties check obj (built ++ [mi])).
Proof.
  intros Hcheck Hfail.
  induction built as [|g built IH]; intros table tr Hchecks Hbuild.
  - simpl. unfold bind at 1. rewrite qjs_check_passes by done.
    unfold bind at 1, try_catch. unfold bind at 1, lift. rewrite Hfail.
    by destruct (is_std_exception e).
  - simpl. unfold bind at 1.
    rewrite qjs_check_passes.
    2:{ intros Hc. apply (Hchecks Hc). by left. }
    unfold bind at 1, try_catch. unfold bind at 1, lift.
    rewrite (Hbuild g) by (by left). unfold ret at 1.
    rewrite IH.
    + by rewrite (checkedProperties_cons check obj g (built ++ [mi])), app_assoc.
    + intros Hc g' Hin. apply (Hchecks Hc). by right.
    + intros g' Hin. apply Hbuild. by right.
Qed.

(** X15.  QuickJS registration when the invoker of a listed method
    cannot be built, while the methods before it were added (and, if
    [check] is set, the method itself passed the check).  Whatever
    [std::exception] the constructor of [JavaScriptMethod] threw, the
    constructor of the proxy throws [std::invalid_argument] with the
    text [In proxied method "NAME.METHOD": ] followed by the text of the
    cause; the methods behind it are not looked at, and every property
    value that the check fetched has been freed. *)
Theorem qjs_registration_wraps_exception (strName : string) (obj : JSValue)
    (check : bool) (tr : list Event)
    (build : MethodInterface → JavaScriptMethod JavaType)
    (built : list MethodInterface) (mi : MethodInterface)
    (rest : list MethodInterface) (e : Thrown) :
  is_object obj = true →
  (check = true →
   ∀ g, g ∈ built ++ [mi] → is_callable (get_property obj (getName g)) = true) →
  (∀ g, g ∈ built →
     new_JavaScriptMethod makeUniqueType getGenericParameter g (getName g) false
     = Returns (build g)) →
  new_JavaScriptMethod makeUniqueType getGenericParameter mi (getName mi) false
  = Throws e →
  is_std_exception e = true →
  Qjs.new_JavaScriptObject makeUniqueType getGenericParameter strName obj
                           (built ++ mi :: rest) check tr
  = (Throws (std_invalid_argument (inProxiedMethod strName (getName mi) e)),
     tr ++ (if has_property obj "then" then [Logged RegisteringPromise] else [])
        ++ (if check
            then map (λ g, Free (get_property obj (getName g))) (built ++ [mi])
            else [])).
Proof.
  intros Hobj Hcheck Hbuild Hfail Hstd.
  rewrite qjs_registration_starts by done.
  unfold bind.
  rewrite (qjs_addMethods_build_fails strName check obj build mi rest e); try done.
  - rewrite Hstd. by rewrite <- app_assoc.
  - intros Hc. apply (Hcheck Hc). apply elem_of_app. right. by left.
  - intros Hc g Hin. apply (Hcheck Hc). apply elem_of_app. by left.
Qed.

Section Call.

Variable callSemantics : CallSemantics.
Variable getDeferredType : JsBridgeParameter -> JavaType.
Variable getCurrentJsException : Qjs Thrown.
Variable getJavaReflectedMethodName : Z -> string.
Variable getNameOf : JavaScriptMethod JavaType -> string.

(** X16.  QuickJS: [call] on a proxy that registration returned.  A
    method that was not listed is refused first, with a
    [std::runtime_error] whose text is
    [Could not find method NAME.METHOD], whatever the object is.  For a
    listed method the object that is passed to [call] must be an
    object, or else [call] throws [std::invalid_argument]; the function
    is then the property of that object with the name that the invoker
    of the first listed method with the id reports, fetched at the time
    of the call and not checked to be a function, and it is freed when
    [invoke] is left, by a return or by an exception.  Exceptions of
    [invoke] pass unchanged. *)
Theorem qjs_call_dispatches_on_method_id (strName : string)
    (methods : list MethodInterface) (check : bool) (tr tr0 : list Event)
    (obj : JSValue) (build : MethodInterface → JavaScriptMethod JavaType)
    (proxy : JavaScriptObject JavaType) :
  is_object obj = true →
  (check = true →
   ∀ mi, mi ∈ methods → is_callable (get_property obj (getName mi)) = true) →
  (∀ mi, mi ∈ methods →
     new_JavaScriptMethod makeUniqueType getGenericParameter mi (getName mi) false
     = Returns (build mi)) →
  fst (Qjs.new_JavaScriptObject makeUniqueType getGenericParameter strName obj
                                methods check tr0)
  = Returns proxy →
  ∀ (jsObjectValue : JSValue) (javaMethod : Z) (args : JObjectArray)
    (awaitJsPromise : bool),
    Qjs.call callSemantics getDeferredType getCurrentJsException
             getJavaReflectedMethodName getNameOf proxy jsObjectValue javaMethod
             args awaitJsPromise tr
    = match firstWithId methods javaMethod with
      | None =>
          (Throws (std_runtime_error
                     (couldNotFindMethod strName
                                         (getJavaReflectedMethodName javaMethod))), tr)
      | Some mi =>
          if is_object jsObjectValue then
            let jsMethodValue := get_property jsObjectValue (getNameOf (build mi)) in
            let '(outcome, tr') :=
              JavaScriptMethod.Qjs.invoke callSemantics getDeferredType
                getCurrentJsException (build mi) jsMethodValue jsObjectValue args
                awaitJsPromise tr in
            (outcome, tr' ++ [Free jsMethodValue])
          else
            (Throws (std_invalid_argument
                       ("Cannot call " +:+ strName
                        +:+ ". It does not exist or is not a valid object.")), tr)
      end.
Proof.
  intros Hobj Hcheck Hbuild Hnew jsObjectValue javaMethod args awaitJsPromise.
  rewrite (qjs_registration_succeeds _ _ _ _ _ build Hobj Hcheck Hbuild) in Hnew.
  injection Hnew as <-.
  unfold Qjs.call. cbv zeta. cbn [m_methods m_name].
  rewrite tableOf_lookup, lookup_empty.
  unfold firstWithId, fromReflectedMethod.
  destruct (find _ methods) as [mi|]; simpl; [|done].
  destruct (is_object jsObjectValue) eqn:Hisobj; simpl.
  - assert (is_null jsObjectValue = false) as -> by (by destruct jsObjectValue).
    done.
  - done.
Qed.

End Call.

End QuickJs.

End DispatchFacts.

Module DispatchWitnesses.
Import Native JsValues Notions DispatchNotions.
Import JavaScriptMethod(MethodInterface, getName, getJavaMethod, JavaScriptMethod,
                        new_JavaScriptMethod, JObjectArray).
Import JavaScriptObject JavaScriptObjectCall DispatchFacts.
Import RegistrationSamples DispatchSamples InvokeSamples.
Local Open Scope Z_scope.
Local Open Scope cpp_scope.

Lemma sample_methods (P : MethodInterface → Prop) :
  P computeInterface → P resetInterface →
  ∀ mi, mi ∈ [computeInterface; resetInterface] → P mi.
Proof.
  intros Hc Hr mi Hin.
  apply elem_of_cons in Hin as [->|Hin]; [done|].
  apply elem_of_cons in Hin as [->|Hin]; [done|].
  by apply elem_of_nil in Hin.
Qed.

(** Registration without the check of an object that lacks [reset] *)
Lemma duk_registration_builds_method_table_witness :
  ∃ proxy,
    Duk.new_JavaScriptObject dukProvider (λ _, None) "calculator" 0
      [computeInterface; resetInterface] false
      (NativeSamples.Duk.stackOf [halfCalculator])
    = (Returns proxy, NativeSamples.Duk.stackOf [halfCalculator]) ∧
    m_name proxy = "calculator" ∧
    m_jsHeapPtr proxy = halfCalculator ∧
    ∀ methodId,
      m_methods proxy !! methodId
      = dukInvoker <$> firstWithId [computeInterface; resetInterface] methodId.
Proof.
  apply (duk_registration_builds_method_table dukProvider (λ _, None) "calculator" 0
           [computeInterface; resetInterface] false
           (NativeSamples.Duk.stackOf [halfCalculator]) halfCalculator dukInvoker).
  - reflexivity.
  - reflexivity.
  - intros [=].
  - apply sample_methods; reflexivity.
Defined.

(** Registration with a provider that knows no type *)
Lemma duk_registration_wraps_invalid_argument_witness :
  Duk.new_JavaScriptObject noType (λ _, None) "calculator" 0
    [computeInterface; resetInterface] true (NativeSamples.Duk.stackOf [calculator])
  = (Throws (std_invalid_argument (inProxiedMethod "calculator" "compute" unsupported)),
     NativeSamples.Duk.stackOf [calculator]).
Proof.
  apply (duk_registration_wraps_invalid_argument noType (λ _, None) "calculator" 0
           true (NativeSamples.Duk.stackOf [calculator]) calculator dukInvoker
           [] computeInterface [resetInterface] unsupported).
  - reflexivity.
  - reflexivity.
  - intros _ g Hin. apply list_elem_of_singleton in Hin as ->. reflexivity.
  - intros g Hin. by apply elem_of_nil in Hin.
  - reflexivity.
Defined.

(** Registration of a number *)
Lemma duk_registration_rejects_non_object_witness :
  Duk.new_JavaScriptObject dukProvider (λ _, None) "calculator" 0
    [computeInterface] true (NativeSamples.Duk.stackOf [JSNumber 1])
  = (Throws (std_invalid_argument "JavaScript object calculator cannot be accessed"),
     NativeSamples.Duk.stackOf [JSNumber 1]).
Proof.
  apply (duk_registration_rejects_non_object dukProvider (λ _, None) "calculator" 0
           [computeInterface] true (NativeSamples.Duk.stackOf [JSNumber 1])).
  reflexivity.
Defined.

(** [calculator.compute()], and a method that was not registered *)
Lemma duk_call_dispatches_on_method_id_witness :
  Duk.call sampleCall (λ _, InvokeSamples.Duk.deferredType)
           InvokeSamples.Duk.currentJsException methodNames dukCalculator 1 None false
           (NativeSamples.Duk.stackOf [])
  = (Returns (JPrimitive 0), NativeSamples.Duk.stackOf []) ∧
  Duk.call sampleCall (λ _, InvokeSamples.Duk.deferredType)
           InvokeSamples.Duk.currentJsException methodNames dukCalculator 3 None false
           (NativeSamples.Duk.stackOf [])
  = (Throws (std_invalid_argument "Could not find method calculator.toString"),
     NativeSamples.Duk.stackOf []).
Proof.
  pose proof (duk_call_dispatches_on_method_id dukProvider (λ _, None)
                sampleCall (λ _, InvokeSamples.Duk.deferredType)
                InvokeSamples.Duk.currentJsException methodNames
                "calculator" 0 [computeInterface; resetInterface] true
                (NativeSamples.Duk.stackOf [])
                (NativeSamples.Duk.stackOf [calculator]) calculator dukInvoker
                dukCalculator eq_refl eq_refl
                (λ _, sample_methods _ eq_refl eq_refl)
                (sample_methods _ eq_refl eq_refl) eq_refl) as Hcall.
  split.
  - exact (Hcall 1 None false).
  - exact (Hcall 3 None false).
Defined.

(** Two methods with one id: the first is the one that is kept *)
Lemma qjs_registration_builds_method_table_witness :
  ∃ proxy,
    Qjs.new_JavaScriptObject qjsProvider (λ _, None) "calculator" halfCalculator
      [computeInterface; computeInterface] true []
    = (Returns proxy,
       [QuickJs.Free (JSFunction 1 []); QuickJs.Free (JSFunction 1 [])]) ∧
    m_name proxy = "calculator" ∧
    m_jsHeapPtr proxy = halfCalculator ∧
    ∀ methodId,
      m_methods proxy !! methodId
      = qjsInvoker <$> firstWithId [computeInterface; computeInterface] methodId.
Proof.
  apply (qjs_registration_builds_method_table qjsProvider (λ _, None) "calculator"
           halfCalculator [computeInterface; computeInterface] true [] qjsInvoker).
  - reflexivity.
  - intros _ mi Hin.
    apply elem_of_cons in Hin as [->|Hin]; [reflexivity|].
    apply list_elem_of_singleton in Hin as ->. reflexivity.
  - intros mi Hin.
    apply elem_of_cons in Hin as [->|Hin]; [reflexivity|].
    apply list_elem_of_singleton in Hin as ->. reflexivity.
Defined.

Lemma qjs_registration_wraps_exception_witness :
  Qjs.new_JavaScriptObject noType (λ _, None) "calculator" calculator
    [computeInterface; resetInterface] true []
  = (Throws (std_invalid_argument (inProxiedMethod "calculator" "compute" unsupported)),
     [QuickJs.Free (JSFunction 2 [])]).
Proof.
  apply (qjs_registration_wraps_exception noType (λ _, None) "calculator" calculator
           true [] qjsInvoker [] computeInterface [resetInterface] unsupported).
  - reflexivity.
  - intros _ g Hin. apply list_elem_of_singleton in Hin as ->. reflexivity.
  - intros g Hin. by apply elem_of_nil in Hin.
  - reflexivity.
  - reflexivity.
Defined.

(** [calculator.reset()] on the object passed to [call], a method that
    was not registered, and a call on [undefined] *)
Lemma qjs_call_dispatches_on_method_id_witness :
  Qjs.call sampleCall (λ _, InvokeSamples.Qjs.deferredType)
           InvokeSamples.Qjs.currentJsException methodNames
           JavaScriptMethod.m_methodName qjsCalculator calculator 2 None false []
  = (Returns (JPrimitive 0), [QuickJs.Free (JSNumber 0); QuickJs.Free (JSFunction 2 [])]) ∧
  Qjs.call sampleCall (λ _, InvokeSamples.Qjs.deferredType)
           InvokeSamples.Qjs.currentJsException methodNames
           JavaScriptMethod.m_methodName qjsCalculator JSUndefined 3 None false []
  = (Throws (std_runtime_error "Could not find method calculator.toString"), []) ∧
  Qjs.call sampleCall (λ _, InvokeSamples.Qjs.deferredType)
           InvokeSamples.Qjs.currentJsException methodNames
           JavaScriptMethod.m_methodName qjsCalculator JSUndefined 2 None false []
  = (Throws (std_invalid_argument
               "Cannot call calculator. It does not exist or is not a valid object."), []).
Proof.
  pose proof (qjs_call_dispatches_on_method_id qjsProvider (λ _, None)
                sampleCall (λ _, InvokeSamples.Qjs.deferredType)
                InvokeSamples.Qjs.currentJsException methodNames
                JavaScriptMethod.m_methodName
                "calculator" [computeInterface; resetInterface] true
                [] [] calculator qjsInvoker qjsCalculator eq_refl
                (λ _, sample_methods _ eq_refl eq_refl)
                (sample_methods _ eq_refl eq_refl) eq_refl) as Hcall.
  split; [|split].
  - exact (Hcall calculator 2 None false).
  - exact (Hcall JSUndefined 3 None false).
  - exact (Hcall JSUndefined 2 None false).
Defined.

End DispatchWitnesses.

(** ** JavaMethod.cpp: the constructor and [callLambda] *)

Module JavaMethodConstructorFacts.
Import Native JsValues IntegerFacts JavaMethod JavaMethodConstructor MarshallingNotions.
Import Reflection(JsBridgeParameter).
Import JavaScriptMethod(MethodInterface, isVarArgs, getParameters, getReturnParameter,
                        getJavaMethod).
Local Open Scope Z_scope.
Local Open Scope cpp_scope.

Section Constructor.

Context {T St R : Type}.
Variable makeUniqueType : option JsBridgeParameter -> bool -> Outcome Thrown T.
Variable getGenericParameter : JsBridgeParameter -> option JsBridgeParameter.
Variable callNativeLambda : MethodInterface -> JValue -> list JValue -> Outcome JValue JValue.
Variable JniException : JValue -> Thrown.
Variable callMethod : T -> Z -> JValue -> list JValue -> M St JValue.
Variable returnToScript : T -> JValue -> M St R.

Lemma javaMethod_createJavaTypes_spec (isLambda variadic : bool)
    (parameters : list JsBridgeParameter) :
  ∀ (rest done : list JsBridgeParameter) (acc result : list T),
    parameters = done ++ rest →
    length acc = length done →
    (∀ i p t, done !! i = Some p → acc !! i = Some t →
       makeUniqueType (if variadic && bool_decide (S i = length parameters)
                       then getGenericParameter p else Some p) isLambda = Returns t) →
    createJavaTypes makeUniqueType getGenericParameter isLambda variadic
                    (size parameters) (Z.of_nat (length done)) rest acc
    = Returns result →
    length result = length parameters ∧
    ∀ i p t, parameters !! i = Some p → result !! i = Some t →
       makeUniqueType (if variadic && bool_decide (S i = length parameters)
                       then getGenericParameter p else Some p) isLambda = Returns t.
Proof.
  intros rest. induction rest as [|parameter rest IH];
    intros done acc result Hsplit Hlen Hacc Hrun.
  - simpl in Hrun. injection Hrun as <-. rewrite app_nil_r in Hsplit. subst done.
    split; [done|]. exact Hacc.
  - assert (length parameters = (length done + S (length rest))%nat) as Hcount
      by (rewrite Hsplit, length_app; done).
    assert (∀ javaType,
               makeUniqueType (if variadic && bool_decide (S (length done) = length parameters)
                               then getGenericParameter parameter else Some parameter)
                              isLambda = Returns javaType →
               ∀ i p t, (done ++ [parameter]) !! i = Some p →
                        (acc ++ [javaType]) !! i = Some t →
                 makeUniqueType (if variadic && bool_decide (S i = length parameters)
                                 then getGenericParameter p else Some p) isLambda
                 = Returns t) as Hstep.
    { intros javaType Hmake i p t Hp Ht.
      destruct (decide (i < length done)%nat) as [Hlt|Hge].
      - rewrite lookup_app_l in Hp by lia. rewrite lookup_app_l in Ht by lia.
        by eapply Hacc.
      - rewrite lookup_app_r in Hp by lia. rewrite lookup_app_r in Ht by lia.
        rewrite Hlen in Ht.
        destruct (i - length done)%nat as [|k] eqn:Hk; [|done].
        injection Hp as <-. injection Ht as <-.
        by replace i with (length done) by lia. }
    simpl in Hrun. unfold size in Hrun.
    destruct (Z.eqb_spec (Z.of_nat (length done)) (Z.of_nat (length parameters) - 1))
      as [Hlast|Hnotlast].
    + assert (rest = []) as -> by (destruct rest; [done | simpl in Hcount; lia]).
      rewrite bool_decide_eq_true_2 in Hstep by lia.
      destruct variadic; simpl in Hrun.
      * destruct (makeUniqueType (getGenericParameter parameter) isLambda)
          as [javaType|e] eqn:Hmake; simpl in Hrun; [|done].
        injection Hrun as <-. split.
        { rewrite length_app, Hlen, Hcount. simpl. lia. }
        intros i p t Hp Ht. rewrite Hsplit in Hp.
        exact (Hstep javaType Hmake i p t Hp Ht).
      * destruct (makeUniqueType (Some parameter) isLambda)
          as [javaType|e] eqn:Hmake; simpl in Hrun; [|done].
        injection Hrun as <-. split.
        { rewrite length_app, Hlen, Hcount. simpl. lia. }
        intros i p t Hp Ht. rewrite Hsplit in Hp.
        exact (Hstep javaType Hmake i p t Hp Ht).
    + rewrite andb_false_r in Hrun.
      rewrite bool_decide_eq_false_2, andb_false_r in Hstep by lia.
      destruct (makeUniqueType (Some parameter) isLambda)
        as [javaType|e] eqn:Hmake; simpl in Hrun; [|done].
      replace (Z.of_nat (length done) + 1)
        with (Z.of_nat (length (done ++ [parameter]))) in Hrun
        by (rewrite length_app; simpl; lia).
      apply (IH (done ++ [parameter]) (acc ++ [javaType]) result).
      * by rewrite <- app_assoc.
      * rewrite !length_app. simpl. lia.
      * by apply Hstep.
      * exact Hrun.
Qed.

(** What the constructor stores, read off a method that it built. *)
Lemma new_JavaMethod_fields (methodInterface : MethodInterface) (methodName : string)
    (isLambda : bool) (m : JavaMethod T (M St R)) :
  new_JavaMethod makeUniqueType getGenericParameter callNativeLambda JniException
                 callMethod returnToScript methodInterface methodName isLambda
  = Returns m →
  m_methodName m = methodName ∧
  m_isLambda m = isLambda ∧
  m_isVarArgs m = isVarArgs methodInterface ∧
  createJavaTypes makeUniqueType getGenericParameter isLambda (isVarArgs methodInterface)
                  (size (getParameters methodInterface)) 0
                  (getParameters methodInterface) []
  = Returns (m_argumentTypes m) ∧
  makeUniqueType (Some (getReturnParameter methodInterface)) isLambda
  = Returns (m_returnValueType m) ∧
  m_methodBody m
  = if isLambda then
      λ javaThis args,
        result <- callLambda callNativeLambda JniException methodInterface javaThis args ;;
        returnToScript (m_returnValueType m) result
    else
      λ javaThis args,
        result <- callMethod (m_returnValueType m)
                    (JavaScriptObject.fromReflectedMethod (getJavaMethod methodInterface))
                    javaThis args ;;
        returnToScript (m_returnValueType m) result.
Proof.
  unfold new_JavaMethod. intros Hnew.
  destruct (createJavaTypes _ _ _ _ _ _ _ _) as [types|e] eqn:Hloop;
    simpl in Hnew; [|done].
  destruct (makeUniqueType (Some (getReturnParameter methodInterface)) isLambda)
    as [returned|e] eqn:Hret; simpl in Hnew; [|done].
  injection Hnew as <-. simpl. by destruct isLambda.
Qed.

(** X17.  In a [JavaMethod] that the constructor built, every marshaller
    was requested with [boxed] equal to [isLambda]: the marshaller of
    the return value, the marshaller of each parameter, and for a
    variadic method the marshaller of the last parameter, which was
    requested for the element descriptor of that parameter
    ([getGenericParameter]) instead of the parameter itself.  There is
    one marshaller per parameter, and the method keeps the name, the
    lambda flag and the variadic flag it was given. *)
Theorem java_method_marshallers_boxed_iff_lambda
    (methodInterface : MethodInterface) (methodName : string) (isLambda : bool)
    (m : JavaMethod T (M St R)) :
  new_JavaMethod makeUniqueType getGenericParameter callNativeLambda JniException
                 callMethod returnToScript methodInterface methodName isLambda
  = Returns m →
  m_methodName m = methodName ∧
  m_isLambda m = isLambda ∧
  m_isVarArgs m = isVarArgs methodInterface ∧
  makeUniqueType (Some (getReturnParameter methodInterface)) isLambda
  = Returns (m_returnValueType m) ∧
  length (m_argumentTypes m) = length (getParameters methodInterface) ∧
  ∀ i p t,
    getParameters methodInterface !! i = Some p →
    m_argumentTypes m !! i = Some t →
    makeUniqueType (if isVarArgs methodInterface
                       && bool_decide (S i = length (getParameters methodInterface))
                    then getGenericParameter p else Some p) isLambda
    = Returns t.
Proof.
  intros Hnew.
  destruct (new_JavaMethod_fields _ _ _ _ Hnew)
    as (Hname & Hlambda & Hvar & Htypes & Hret & _).
  repeat (split; [done|]).
  apply (javaMethod_createJavaTypes_spec isLambda (isVarArgs methodInterface)
           (getParameters methodInterface)
           (getParameters methodInterface) [] [] (m_argumentTypes m)); try done.
Qed.

End Constructor.

(** X18.  A lambda from the script's point of view: a [JavaMethod] that
    the constructor built with [isLambda] for a method that is not
    variadic, invoked with one script argument per parameter.  The Java
    lambda ([callNativeLambda]) is called once, with the converted
    arguments in the order of the parameters.  The reference it returns
    goes through the marshaller of the return value ([push] in the
    Duktape variant, [fromJava] in the QuickJS variant), and that is the
    result of [invoke].  When the lambda leaves a Java exception
    pending, [invoke] throws the [JniException] made of it and the
    marshaller of the return value is not used. *)
Theorem lambda_call_runs_the_java_lambda :
  (∀ (makeUniqueType : option JsBridgeParameter → bool → Outcome Thrown Duktape.JavaType)
     (getGenericParameter : JsBridgeParameter → option JsBridgeParameter)
     (callNativeLambda : MethodInterface → JValue → list JValue → Outcome JValue JValue)
     (JniException : JValue → Thrown)
     (callMethod : Duktape.JavaType → Z → JValue → list JValue → Duktape.Duk JValue)
     (methodInterface : MethodInterface) (methodName : string)
     (m : JavaMethod.Duk.Method) (javaThis : JValue) (ctx : Duktape.Context),
      JavaMethodConstructor.Duk.new_JavaMethod makeUniqueType getGenericParameter
        callNativeLambda JniException callMethod methodInterface methodName true
      = Returns m →
      isVarArgs methodInterface = false →
      size (m_argumentTypes m) ≤ INT_MAX →
      length (Duktape.stack ctx) = length (m_argumentTypes m) →
      JavaMethod.Duk.invoke m javaThis ctx
      = (args <- popBackwards (m_argumentTypes m) ;;
         match callNativeLambda methodInterface javaThis args with
         | Returns result => Duktape.push (m_returnValueType m) result
         | Throws pending => throw (JniException pending)
         end) ctx) ∧
  (∀ (makeUniqueType : option JsBridgeParameter → bool → Outcome Thrown QuickJs.JavaType)
     (getGenericParameter : JsBridgeParameter → option JsBridgeParameter)
     (callNativeLambda : MethodInterface → JValue → list JValue → Outcome JValue JValue)
     (JniException : JValue → Thrown)
     (callMethod : QuickJs.JavaType → Z → JValue → list JValue → QuickJs.Qjs JValue)
     (methodInterface : MethodInterface) (methodName : string)
     (m : JavaMethod.Qjs.Method) (javaThis : JValue) (argv : list JSValue)
     (tr : list QuickJs.Event) (js : list JValue),
      JavaMethodConstructor.Qjs.new_JavaMethod makeUniqueType getGenericParameter
        callNativeLambda JniException callMethod methodInterface methodName true
      = Returns m →
      isVarArgs methodInterface = false →
      size (m_argumentTypes m) ≤ INT_MAX →
      length argv = length (m_argumentTypes m) →
      toJavaAll (m_argumentTypes m) argv = Returns js →
      JavaMethod.Qjs.invoke m javaThis argv tr
      = (match callNativeLambda methodInterface javaThis js with
         | Returns result => QuickJs.fromJava (m_returnValueType m) result
         | Throws pending => Throws (JniException pending)
         end, tr)).
Proof.
  split.
  - intros mut ggp cnl jni cm mi name m javaThis ctx Hnew Hfixed Hint Hargc.
    unfold JavaMethodConstructor.Duk.new_JavaMethod in Hnew.
    apply new_JavaMethod_fields in Hnew as (_ & _ & Hvar & _ & _ & Hbody).
    rewrite ArgumentLoadingFacts.duk_invoke_fixed;
      [|exact (eq_trans Hvar Hfixed)|done|done].
    unfold Duktape.Duk in *.
    rewrite Hbody. unfold bind, callLambda.
    destruct (popBackwards (m_argumentTypes m) ctx) as [[args|e] ctx1]; [|done].
    by destruct (cnl mi javaThis args).
  - intros mut ggp cnl jni cm mi name m javaThis argv tr js Hnew Hfixed Hint Hargc Hconv.
    unfold JavaMethodConstructor.Qjs.new_JavaMethod in Hnew.
    apply new_JavaMethod_fields in Hnew as (_ & _ & Hvar & _ & _ & Hbody).
    rewrite ArgumentLoadingFacts.qjs_invoke_fixed;
      [|exact (eq_trans Hvar Hfixed)|done|done].
    unfold QuickJs.Qjs in *.
    rewrite Hbody. unfold bind, lift, callLambda. rewrite Hconv.
    by destruct (cnl mi javaThis js).
Qed.

End JavaMethodConstructorFacts.

Module JavaMethodConstructorWitnesses.
Import Native JsValues JavaMethod JavaMethodConstructor JavaMethodConstructorFacts.
Import JavaScriptMethod(MethodInterface, isVarArgs, getParameters, getReturnParameter).
Import ConstructorSamples LambdaSamples RegistrationSamples.
Local Open Scope Z_scope.
Local Open Scope cpp_scope.

(** [fun join(separator: String, vararg parts: String): String], as a
    method and as a lambda *)
Lemma java_method_marshallers_boxed_iff_lambda_witness :
  ∃ m : JavaMethod (option Reflection.JsBridgeParameter * bool) (M unit unit),
    new_JavaMethod recordingProvider genericParameterOf javaAdd pendingException
                   noMethodCall (λ _ _, ret ()) joinInterface "join" false
    = Returns m ∧
    m_argumentTypes m = [(Some separatorParameter, false); (Some partParameter, false)] ∧
    m_methodName m = "join" ∧
    m_isLambda m = false ∧
    m_isVarArgs m = true ∧
    recordingProvider (Some returnParameter) false = Returns (m_returnValueType m) ∧
    length (m_argumentTypes m) = 2%nat ∧
    ∀ i p t,
      [separatorParameter; partsParameter] !! i = Some p →
      m_argumentTypes m !! i = Some t →
      recordingProvider (if true && bool_decide (S i = 2%nat)
                         then genericParameterOf p else Some p) false
      = Returns t.
Proof.
  eexists. split; [reflexivity|]. split; [reflexivity|].
  apply (java_method_marshallers_boxed_iff_lambda recordingProvider genericParameterOf
           javaAdd pendingException noMethodCall (λ _ _, ret ()) joinInterface
           "join" false).
  reflexivity.
Defined.

(** The script calls the lambda with [(1, 2)], and with [(1, null)] *)
Lemma lambda_call_runs_the_java_lambda_witness :
  ∃ m : JavaMethod.Qjs.Method,
    JavaMethodConstructor.Qjs.new_JavaMethod qjsProvider (λ _, None) javaAdd
      pendingException noMethodCall addInterface "invoke" true
    = Returns m ∧
    JavaMethod.Qjs.invoke m JNull [JSNumber 1; JSNumber 2] []
    = (Returns (JSNumber 3), []) ∧
    JavaMethod.Qjs.invoke m JNull [JSNumber 1; JSNull] []
    = (Throws (std_exception "JniException"), []).
Proof.
  destruct lambda_call_runs_the_java_lambda as [_ Hqjs].
  eexists. split; [reflexivity|]. split.
  - apply (Hqjs qjsProvider (λ _, None) javaAdd pendingException noMethodCall
             addInterface "invoke" _ JNull [JSNumber 1; JSNumber 2] []
             [JPrimitive 1; JPrimitive 2] eq_refl eq_refl);
      [by vm_compute | reflexivity | reflexivity].
  - apply (Hqjs qjsProvider (λ _, None) javaAdd pendingException noMethodCall
             addInterface "invoke" _ JNull [JSNumber 1; JSNull] []
             [JPrimitive 1; JNull] eq_refl eq_refl);
      [by vm_compute | reflexivity | reflexivity].
Defined.

End JavaMethodConstructorWitnesses.

(** ** Parameter.kt: element descriptors and the class loader *)

Module ElementDescriptorFacts.
Import Reflection ParameterAccessors.

Section WithClassLoader.

Variable forName : string -> Outcome Throwable JClass.

Lemma Parameter_ofKType_Returns (kotlinType : KType) (q : JsBridgeParameter) :
  Parameter_ofKType forName kotlinType = Returns q →
  parentMethod q = None ∧ name q = None ∧ isOptional q = false ∧
  Reflection.kotlinType q = Some kotlinType.
Proof.
  unfold Parameter_ofKType. intros H.
  destruct (findJavaClass forName kotlinType) as [c|t']; [|done].
  by injection H as <-.
Qed.

(** Where an element descriptor comes from: one of the two public
    constructors that take no parent method. *)
Lemma element_descriptor_origin (p q : JsBridgeParameter) :
  getGenericParameter forName p = Returns (Some q) ∨
  getComponentType forName p = Returns (Some q) →
  (∃ c, q = Parameter_ofClass c) ∨
  (∃ kt, Parameter_ofKType forName kt = Returns q).
Proof.
  assert (∀ kt, omap Some (Parameter_ofKType forName kt) = Returns (Some q) →
                Parameter_ofKType forName kt = Returns q) as HofKType.
  { intros kt H. unfold omap in H.
    destruct (Parameter_ofKType forName kt) as [r|t]; [|done].
    by injection H as ->. }
  assert (getGenericParameter forName p = Returns (Some q) →
          (∃ c, q = Parameter_ofClass c) ∨
          (∃ kt, Parameter_ofKType forName kt = Returns q)) as Hgeneric.
  { unfold getGenericParameter.
    destruct (kotlinType p) as [kt|].
    - destruct (firstArgumentType kt) as [element|]; [|done].
      intros H. right. exists element. by apply HofKType.
    - intros [= <-]. left. eauto. }
  intros [H|H]; [by apply Hgeneric|].
  unfold getComponentType in H.
  destruct (javaClass p ≫= c_componentType) as [c|].
  - destruct (c_isPrimitive c).
    { injection H as <-. left. eauto. }
    destruct (kotlinType p) as [kt|].
    + destruct (firstArgumentType kt) as [element|]; [|done].
      right. exists element. by apply HofKType.
    + injection H as <-. left. eauto.
  - destruct (kotlinType p) as [kt|].
    + destruct (firstArgumentType kt) as [element|]; [|done].
      right. exists element. by apply HofKType.
    + injection H as <-. left. eauto.
Qed.

Section WithMethodClass.

Variable javaMethodOf : Method -> option JMethod.
Variable nameOf : Method -> option string.

(** X20.  An element descriptor is anonymous.  Whatever parameter
    [getGenericParameter] or [getComponentType] is asked about, also one
    that has a parent method and is optional, the descriptor it returns
    has no parent method and is not optional, so that
    [getParentMethodName] answers [<Unknown>::<Unknown>] for it.  It
    carries either a Kotlin type and no name, or no Kotlin type and the
    name of its Java class. *)
Theorem element_descriptor_is_anonymous (p q : JsBridgeParameter) :
  getGenericParameter forName p = Returns (Some q) ∨
  getComponentType forName p = Returns (Some q) →
  parentMethod q = None ∧
  isOptional q = false ∧
  getParentMethodName javaMethodOf nameOf q = "<Unknown>::<Unknown>" ∧
  match kotlinType q with
  | Some _ => name q = None
  | None => name q = getJavaName q
  end.
Proof.
  intros H. apply element_descriptor_origin in H as [[c ->]|[kt Hq]].
  - done.
  - apply Parameter_ofKType_Returns in Hq as (Hparent & Hname & Hoptional & Hkt).
    unfold getParentMethodName. by rewrite Hparent, Hkt.
Qed.

End WithMethodClass.

End WithClassLoader.

(** X23.  When [invokeMethod] looks at the Java methods.  Without a
    Kotlin type the answer is the first Java method named [invoke], in
    the order of [Class.getMethods], as a [Method] without generic
    information (null when there is none).  With a Kotlin type whose
    member functions can be listed, the Kotlin side alone decides: the
    result is the first member function named [invoke], and it is null
    when there is no such member or when the classifier of the type is
    not a class, even if the Java class has a method named [invoke].
    The Java methods are a fallback for a lookup that throws, not for a
    lookup that finds nothing. *)
Theorem invokeMethod_java_fallback_only_on_failure (p : JsBridgeParameter) :
  (kotlinType p = None →
     invokeMethod p = Returns (MethodOfJava <$> javaInvoke p)) ∧
  (∀ kt, kotlinType p = Some kt → asKClass (kt_classifier kt) = None →
     invokeMethod p = Returns None) ∧
  (∀ kt k fs,
     kotlinType p = Some kt → asKClass (kt_classifier kt) = Some k →
     kc_memberFunctions k = Returns fs →
     invokeMethod p
     = Returns ((λ f, MethodOfKFunction f true)
                  <$> find (λ f, String.eqb (kf_name f) "invoke") fs)).
Proof.
  unfold invokeMethod, invokeMethod_try, invokeMethod_java.
  split; [|split].
  - intros ->. simpl. by destruct (javaInvoke p).
  - intros kt -> ->. done.
  - intros kt k fs -> -> ->. done.
Qed.

End ElementDescriptorFacts.

Module ElementDescriptorWitnesses.
Import Reflection ParameterAccessors ElementDescriptorFacts AccessorSamples.

(** The element of [vararg parts: String] *)
Lemma element_descriptor_is_anonymous_witness :
  getParentMethodName javaMethodOf nameOf joinParts = "Joiner::join" ∧
  parentMethod ConstructorSamples.partParameter = None ∧
  isOptional ConstructorSamples.partParameter = false ∧
  getParentMethodName javaMethodOf nameOf ConstructorSamples.partParameter
  = "<Unknown>::<Unknown>" ∧
  name ConstructorSamples.partParameter = None.
Proof.
  split; [reflexivity|].
  exact (element_descriptor_is_anonymous Samples.noClass javaMethodOf nameOf
           joinParts ConstructorSamples.partParameter (or_introl eq_refl)).
Defined.

End ElementDescriptorWitnesses.

(** ** JavaMethod.cpp: [invoke] on a call with too few arguments *)

Module ShortCallFacts.
Import Native JsValues JavaMethod IntegerFacts Notions MarshallingNotions MonadFacts.
Import JavaMethodFacts(vector_at_Some, vector_set_inside, duk_minArgs_fixed,
                       qjs_minArgs_fixed).
Import ArgumentLoadingFacts(toJavaAll_length, popBackwards_snoc, loop_start).
Local Open Scope Z_scope.
Local Open Scope cpp_scope.

Lemma toJavaAll_nil (types : list QuickJs.JavaType) : toJavaAll types [] = Returns [].
Proof. by destruct types. Qed.

(** The QuickJS loop over the fixed parameters, whatever the number of
    script arguments. *)
Lemma qjs_loadArguments_pads (m : Qjs.Method) (argv : list JSValue) (n : nat) :
  ∀ (i : nat) (args : list JValue) (tr : list QuickJs.Event),
    (i + n ≤ length (m_argumentTypes m))%nat →
    length args = length (m_argumentTypes m) →
    Qjs.loadArguments m n (Z.of_nat i) argv args tr
    = (omap (λ js, take i args ++ js ++ replicate (n - length js) JNull
                   ++ drop (i + n) args)
            (toJavaAll (take n (drop i (m_argumentTypes m))) (drop i argv)), tr).
Proof.
  induction n as [|n IH]; intros i args tr Hn Hlen.
  - simpl. rewrite Nat.add_0_r, take_drop. done.
  - assert (is_Some (m_argumentTypes m !! i)) as [t Ht]
      by (apply lookup_lt_is_Some; lia).
    rewrite (drop_S _ _ _ Ht).
    cbn [Qjs.loadArguments]. unfold bind at 1. rewrite (vector_at_Some _ _ _ _ _ Ht).
    unfold bind at 1.
    destruct (Z.geb_spec (Z.of_nat i) (size argv)) as [Hge|Hlt]; unfold size in *.
    + rewrite (drop_ge argv i) by lia. cbn [take toJavaAll]. unfold ret at 1.
      unfold bind at 1. rewrite vector_set_inside by lia.
      replace (Z.of_nat i + 1) with (Z.of_nat (S i)) by lia.
      rewrite IH by (rewrite ?length_insert; lia).
      rewrite (drop_ge argv (S i)) by lia. rewrite toJavaAll_nil. simpl.
      do 2 f_equal.
      rewrite (take_S_r _ _ JNull) by (apply list_lookup_insert_eq; lia).
      rewrite take_insert_ge by lia.
      rewrite drop_insert_lt by lia.
      rewrite Nat.sub_0_r, <- app_assoc. simpl.
      by replace (i + S n)%nat with (S (i + n)) by lia.
    + assert (is_Some (argv !! i)) as [v Hv] by (apply lookup_lt_is_Some; lia).
      rewrite (drop_S _ _ _ Hv).
      unfold bind at 1, Qjs.argv_at. rewrite (vector_at_Some _ _ _ _ _ Hv).
      cbn [take toJavaAll].
      unfold lift. destruct (QuickJs.toJava t v) as [j|e]; simpl; [|done].
      unfold bind at 1. rewrite vector_set_inside by lia.
      replace (Z.of_nat i + 1) with (Z.of_nat (S i)) by lia.
      rewrite IH by (rewrite ?length_insert; lia).
      destruct (toJavaAll _ _) as [js|e]; simpl; [|done].
      do 2 f_equal.
      rewrite (take_S_r _ _ j) by (apply list_lookup_insert_eq; lia).
      rewrite take_insert_ge by lia.
      rewrite drop_insert_lt by lia.
      rewrite <- app_assoc. simpl.
      by replace (i + S n)%nat with (S (i + n)) by lia.
Qed.

Lemma qjs_invoke_short (m : Qjs.Method) (javaThis : JValue)
    (argv : list JSValue) (tr : list QuickJs.Event) :
  m_isVarArgs m = false →
  size (m_argumentTypes m) ≤ INT_MAX →
  (length argv < length (m_argumentTypes m))%nat →
  Qjs.invoke m javaThis argv tr
  = (args <- lift (toJavaAll (m_argumentTypes m) argv) ;;
     m_methodBody m javaThis
       (args ++ replicate (length (m_argumentTypes m) - length argv) JNull))
      (tr ++ [QuickJs.Logged (NotEnoughParameters (m_methodName m)
                                (size (m_argumentTypes m)) (size argv))]).
Proof.
  intros Hfixed Hint Hargc.
  unfold Qjs.invoke. rewrite qjs_minArgs_fixed by done. rewrite Hfixed.
  unfold size.
  destruct (Z.ltb_spec (Z.of_nat (length argv))
                       (Z.of_nat (length (m_argumentTypes m)))); [|lia].
  destruct (Z.gtb_spec (Z.of_nat (length argv))
                       (Z.of_nat (length (m_argumentTypes m)))); [lia|].
  simpl negb. simpl andb. cbv iota.
  unfold bind at 1. unfold QuickJs.alog_warn, QuickJs.emit at 1.
  unfold bind at 1. rewrite Nat2Z.id.
  change 0 with (Z.of_nat 0).
  rewrite qjs_loadArguments_pads by (rewrite ?length_replicate; simpl; lia).
  rewrite !drop_0, firstn_all.
  unfold bind at 2. unfold lift.
  destruct (toJavaAll (m_argumentTypes m) argv) as [js|e] eqn:Hconv; simpl; [|done].
  apply toJavaAll_length in Hconv. rewrite Nat.min_r in Hconv by lia.
  unfold bind at 1. unfold ret at 1.
  rewrite drop_ge by (rewrite length_replicate; lia).
  by rewrite app_nil_r, Hconv.
Qed.

(** The Duktape loop over the fixed parameters, whatever the number of
    values on the stack. *)
Lemma duk_loadArguments_pads (m : Duk.Method) (argCount : nat) (n : nat) :
  ∀ (args : list JValue) (ctx : Duktape.Context),
    (n ≤ length (m_argumentTypes m))%nat →
    length args = length (m_argumentTypes m) →
    Duk.loadArguments m n (Z.of_nat argCount) args ctx
    = (values <- popBackwards (take (Nat.min n argCount) (m_argumentTypes m)) ;;
       ret (values ++ replicate (n - argCount) JNull ++ drop n args)) ctx.
Proof.
  induction n as [|n IH]; intros args ctx Hn Hlen.
  - done.
  - assert (is_Some (m_argumentTypes m !! n)) as [t Ht]
      by (apply lookup_lt_is_Some; lia).
    cbn [Duk.loadArguments]. unfold bind at 1. rewrite (vector_at_Some _ _ _ _ _ Ht).
    unfold bind at 1.
    destruct (Z.geb_spec (Z.of_nat n) (Z.of_nat argCount)) as [Hge|Hlt].
    + unfold ret at 1. unfold bind at 1. rewrite vector_set_inside by lia.
      rewrite IH by (rewrite ?length_insert; lia).
      replace (Nat.min (S n) argCount) with (Nat.min n argCount) by lia.
      unfold bind, ret.
      destruct (popBackwards _ ctx) as [[vs|e] c]; [|done].
      do 3 f_equal.
      rewrite insert_take_drop by lia.
      rewrite drop_app_length' by (rewrite length_take; lia).
      replace (S n - argCount)%nat with (S (n - argCount)) by lia.
      rewrite replicate_S_end, <- app_assoc. done.
    + replace (Nat.min (S n) argCount) with (S n) by lia.
      rewrite (take_S_r _ _ _ Ht).
      unfold bind at 2. rewrite popBackwards_snoc.
      unfold bind at 2.
      destruct (Duktape.pop t ctx) as [[v|e] c1]; [|done].
      unfold bind at 1. rewrite vector_set_inside by lia.
      rewrite IH by (rewrite ?length_insert; lia).
      replace (Nat.min n argCount) with n by lia.
      unfold bind, ret.
      destruct (popBackwards (take n (m_argumentTypes m)) c1) as [[vs|e] c2]; [|done].
      rewrite insert_take_drop by lia.
      rewrite drop_app_length' by (rewrite length_take; lia).
      replace (n - argCount)%nat with 0%nat by lia.
      replace (S n - argCount)%nat with 0%nat by lia.
      simpl. by rewrite <- app_assoc.
Qed.

Lemma duk_invoke_short (m : Duk.Method) (javaThis : JValue) (ctx : Duktape.Context) :
  m_isVarArgs m = false →
  size (m_argumentTypes m) ≤ INT_MAX →
  (length (Duktape.stack ctx) < length (m_argumentTypes m))%nat →
  Duk.invoke m javaThis ctx
  = (Duktape.alog_warn (NotEnoughParameters (m_methodName m)
                          (size (m_argumentTypes m)) (size (Duktape.stack ctx))) ;;;
     args <- popBackwards (take (length (Duktape.stack ctx)) (m_argumentTypes m)) ;;
     m_methodBody m javaThis
       (args ++ replicate (length (m_argumentTypes m) - length (Duktape.stack ctx))
                          JNull)) ctx.
Proof.
  intros Hfixed Hint Hargc.
  unfold Duk.invoke. rewrite duk_minArgs_fixed by done. rewrite Hfixed.
  unfold bind at 1. unfold Duktape.duk_get_top at 1.
  unfold size in *.
  rewrite to_size_t_small by lia.
  destruct (Z.ltb_spec (Z.of_nat (length (Duktape.stack ctx)))
                       (Z.of_nat (length (m_argumentTypes m)))); [|lia].
  destruct (Z.gtb_spec (Z.of_nat (length (Duktape.stack ctx)))
                       (Z.of_nat (length (m_argumentTypes m)))); [lia|].
  simpl negb. simpl andb. cbv iota.
  unfold bind at 1. unfold bind at 4.
  unfold Duktape.alog_warn.
  unfold bind at 1. unfold ret at 1.
  rewrite loop_start by lia. rewrite Nat2Z.id.
  unfold bind at 1.
  rewrite duk_loadArguments_pads by (rewrite ?length_replicate; lia).
  rewrite Nat.min_r by lia.
  unfold bind, ret.
  destruct (popBackwards _ _) as [[vs|e] c]; [|done].
  rewrite drop_ge by (rewrite length_replicate; lia).
  by rewrite app_nil_r.
Qed.

(** X21.  A method that is not variadic, called with fewer script
    arguments than it has parameters.  [invoke] first logs one warning
    that tells the name of the method, the number of parameters and the
    number of arguments received.  Then the arguments that were given
    are marshalled by the marshallers of the first parameters (popped
    last first in the Duktape variant, converted in order in the QuickJS
    variant), and [m_methodBody] runs on their values followed by one
    null for every parameter that got no argument.  A marshaller that
    throws ends the call after the warning, before the method body. *)
Theorem short_call_pads_with_null :
  (∀ (m : Duk.Method) (javaThis : JValue) (ctx : Duktape.Context),
      m_isVarArgs m = false →
      size (m_argumentTypes m) ≤ INT_MAX →
      (length (Duktape.stack ctx) < length (m_argumentTypes m))%nat →
      Duk.invoke m javaThis ctx
      = (Duktape.alog_warn (NotEnoughParameters (m_methodName m)
                              (size (m_argumentTypes m)) (size (Duktape.stack ctx))) ;;;
         args <- popBackwards (take (length (Duktape.stack ctx)) (m_argumentTypes m)) ;;
         m_methodBody m javaThis
           (args ++ replicate (length (m_argumentTypes m) - length (Duktape.stack ctx))
                              JNull)) ctx) ∧
  (∀ (m : Qjs.Method) (javaThis : JValue) (argv : list JSValue)
     (tr : list QuickJs.Event),
      m_isVarArgs m = false →
      size (m_argumentTypes m) ≤ INT_MAX →
      (length argv < length (m_argumentTypes m))%nat →
      Qjs.invoke m javaThis argv tr
      = (args <- lift (toJavaAll (m_argumentTypes m) argv) ;;
         m_methodBody m javaThis
           (args ++ replicate (length (m_argumentTypes m) - length argv) JNull))
          (tr ++ [QuickJs.Logged (NotEnoughParameters (m_methodName m)
                                    (size (m_argumentTypes m)) (size argv))])).
Proof.
  split.
  - intros. by apply duk_invoke_short.
  - intros. by apply qjs_invoke_short.
Qed.

End ShortCallFacts.

Module ShortCallWitnesses.
Import Native JsValues JavaMethod ShortCallFacts.
Local Open Scope Z_scope.

(** [add(1)] *)
Lemma short_call_pads_with_null_witness :
  Duk.invoke NativeSamples.Duk.add JNull (NativeSamples.Duk.stackOf [JSNumber 1])
  = NativeSamples.Duk.countingBody JNull [JPrimitive 1; JNull]
      (Duktape.mkContext [] [NotEnoughParameters "add" 2 1]) ∧
  Qjs.invoke NativeSamples.Qjs.add JNull [JSNumber 1] []
  = NativeSamples.Qjs.countingBody JNull [JPrimitive 1; JNull]
      [QuickJs.Logged (NotEnoughParameters "add" 2 1)].
Proof.
  destruct short_call_pads_with_null as [Hduk Hqjs].
  split.
  - exact (Hduk NativeSamples.Duk.add JNull (NativeSamples.Duk.stackOf [JSNumber 1])
             eq_refl ltac:(by vm_compute) ltac:(simpl; lia)).
  - exact (Hqjs NativeSamples.Qjs.add JNull [JSNumber 1] []
             eq_refl ltac:(by vm_compute) ltac:(simpl; lia)).
Defined.

End ShortCallWitnesses.

(** ** JavaScriptObject.cpp: what a failed check leaves behind *)

Module FailedCheckFacts.
Import Native JsValues MonadFacts Notions DispatchNotions.
Import Reflection(JsBridgeParameter).
Import JavaScriptMethod(MethodInterface, getName, getJavaMethod, JavaScriptMethod,
                        new_JavaScriptMethod).
Import JavaScriptObject.
Import RegistrationFacts(duk_addMethods_first_lacking, duk_new_JavaScriptObject_valid,
                         qjs_checkMethod_usable, qjs_checkMethod_lacking).
Import DispatchFacts(qjs_registration_starts).
Local Open Scope Z_scope.
Local Open Scope cpp_scope.

Lemma duk_failed_check (makeUniqueType : option JsBridgeParameter → bool → Outcome Thrown Duktape.JavaType)
    (getGenericParameter : JsBridgeParameter → option JsBridgeParameter)
    (strName : string) (jsObjectIndex : Z) (ctx : Duktape.Context) (obj : JSValue)
    (usable : list MethodInterface) (mi : MethodInterface)
    (rest : list MethodInterface) :
  Duktape.value_at (Duktape.stack ctx) jsObjectIndex = Some obj →
  is_object obj = true →
  (∀ g, g ∈ usable →
        ¬ lacksMethod obj (getName g) ∧
        ∃ jsMethod, new_JavaScriptMethod makeUniqueType getGenericParameter
                                         g (getName g) false = Returns jsMethod) →
  lacksMethod obj (getName mi) →
  Duk.new_JavaScriptObject makeUniqueType getGenericParameter strName jsObjectIndex
                           (usable ++ mi :: rest) true ctx
  = (Throws (std_invalid_argument (dukDiagnostic strName obj (getName mi))),
     Duktape.mkContext (Duktape.stack ctx)
       (Duktape.log ctx ++ if has_property obj "then" then [RegisteringPromise] else [])).
Proof.
  intros Hat Hobj Husable Hlacks.
  rewrite (duk_new_JavaScriptObject_valid _ _ _ _ _ _ _ _ Hat Hobj).
  unfold bind at 1.
  by rewrite (duk_addMethods_first_lacking makeUniqueType getGenericParameter strName
                (Duktape.stack ctx) obj _ mi rest Hobj Hlacks usable ∅ Husable).
Qed.

Lemma qjs_addMethods_check_fails
    (makeUniqueType : option JsBridgeParameter → bool → Outcome Thrown QuickJs.JavaType)
    (getGenericParameter : JsBridgeParameter → option JsBridgeParameter)
    (m_name : string) (obj : JSValue) (mi : MethodInterface)
    (rest : list MethodInterface) :
  lacksMethod obj (getName mi) →
  ∀ (usable : list MethodInterface) (table : gmap Z (JavaScriptMethod QuickJs.JavaType))
    (tr : list QuickJs.Event),
    (∀ g, g ∈ usable →
          ¬ lacksMethod obj (getName g) ∧
          ∃ jsMethod, new_JavaScriptMethod makeUniqueType getGenericParameter
                                           g (getName g) false = Returns jsMethod) →
    Qjs.addMethods makeUniqueType getGenericParameter m_name obj true
                   (usable ++ mi :: rest) table tr
    = (Throws (std_invalid_argument (qjsDiagnostic m_name obj (getName mi))),
       tr ++ checkedProperties true obj (usable ++ [mi])).
Proof.
  intros Hlacks.
  induction usable as [|g usable IH]; intros table tr Husable.
  - simpl. unfold bind at 1. by rewrite qjs_checkMethod_lacking.
  - destruct (Husable g ltac:(by left)) as [Hcallable [jsMethod Hbuild]].
    assert (is_callable (get_property obj (getName g)) = true) as Hg.
    { unfold lacksMethod in Hcallable.
      by destruct (is_callable (get_property obj (getName g))). }
    simpl. unfold bind at 1. rewrite qjs_checkMethod_usable by done.
    unfold bind at 1, try_catch. unfold bind at 1, lift. rewrite Hbuild.
    unfold ret at 1. rewrite IH.
    + by rewrite <- app_assoc.
    + intros g' Hin. apply Husable. by right.
Qed.

(** X22.  A registration that fails in the check leaves nothing behind.
    When the first listed method that the object lacks is reached
    (the methods before it are callable properties, and their invokers
    were built), the Duktape constructor throws with the value stack
    exactly as it found it: the object it pushed and the property value
    it fetched are popped.  The QuickJS constructor throws after it has
    freed every property value that it fetched, the one of the lacking
    method included, each once and in the order of the list.  In both
    variants the only thing logged is the warning for an object that has
    a [then] property. *)
Theorem failed_check_leaves_no_residue :
  (∀ (makeUniqueType : option JsBridgeParameter → bool → Outcome Thrown Duktape.JavaType)
     (getGenericParameter : JsBridgeParameter → option JsBridgeParameter)
     (strName : string) (jsObjectIndex : Z) (ctx : Duktape.Context) (obj : JSValue)
     (usable : list MethodInterface) (mi : MethodInterface)
     (rest : list MethodInterface),
      Duktape.value_at (Duktape.stack ctx) jsObjectIndex = Some obj →
      is_object obj = true →
      (∀ g, g ∈ usable →
            ¬ lacksMethod obj (getName g) ∧
            ∃ jsMethod, new_JavaScriptMethod makeUniqueType getGenericParameter
                                             g (getName g) false = Returns jsMethod) →
      lacksMethod obj (getName mi) →
      Duk.new_JavaScriptObject makeUniqueType getGenericParameter strName jsObjectIndex
                               (usable ++ mi :: rest) true ctx
      = (Throws (std_invalid_argument (dukDiagnostic strName obj (getName mi))),
         Duktape.mkContext (Duktape.stack ctx)
           (Duktape.log ctx
            ++ if has_property obj "then" then [RegisteringPromise] else []))) ∧
  (∀ (makeUniqueType : option JsBridgeParameter → bool → Outcome Thrown QuickJs.JavaType)
     (getGenericParameter : JsBridgeParameter → option JsBridgeParameter)
     (strName : string) (obj : JSValue) (tr : list QuickJs.Event)
     (usable : list MethodInterface) (mi : MethodInterface)
     (rest : list MethodInterface),
      is_object obj = true →
      (∀ g, g ∈ usable →
            ¬ lacksMethod obj (getName g) ∧
            ∃ jsMethod, new_JavaScriptMethod makeUniqueType getGenericParameter
                                             g (getName g) false = Returns jsMethod) →
      lacksMethod obj (getName mi) →
      Qjs.new_JavaScriptObject makeUniqueType getGenericParameter strName obj
                               (usable ++ mi :: rest) true tr
      = (Throws (std_invalid_argument (qjsDiagnostic strName obj (getName mi))),
         tr ++ (if has_property obj "then"
                then [QuickJs.Logged RegisteringPromise] else [])
            ++ map (λ g, QuickJs.Free (get_property obj (getName g))) (usable ++ [mi]))).
Proof.
  split.
  - intros. by apply duk_failed_check.
  - intros mut ggp strName obj tr usable mi rest Hobj Husable Hlacks.
    rewrite qjs_registration_starts by done.
    unfold bind.
    rewrite (qjs_addMethods_check_fails mut ggp strName obj mi rest Hlacks) by done.
    by rewrite <- app_assoc.
Qed.

End FailedCheckFacts.

Module FailedCheckWitnesses.
Import Native JsValues Notions JavaScriptObject FailedCheckFacts.
Import RegistrationSamples.
Import JavaScriptMethod(getName).
Local Open Scope Z_scope.

Lemma compute_is_usable :
  ∀ g, g ∈ [computeInterface] →
       ¬ lacksMethod halfCalculator (getName g) ∧
       ∃ jsMethod, JavaScriptMethod.new_JavaScriptMethod dukProvider (λ _, None)
                     g (getName g) false = Returns jsMethod.
Proof.
  intros g Hin. apply list_elem_of_singleton in Hin as ->.
  split; [done | by eexists].
Qed.

Lemma compute_is_usable_qjs :
  ∀ g, g ∈ [computeInterface] →
       ¬ lacksMethod halfCalculator (getName g) ∧
       ∃ jsMethod, JavaScriptMethod.new_JavaScriptMethod qjsProvider (λ _, None)
                     g (getName g) false = Returns jsMethod.
Proof.
  intros g Hin. apply list_elem_of_singleton in Hin as ->.
  split; [done | by eexists].
Qed.

(** [{ compute: ... }] registered for [compute] and [reset] *)
Lemma failed_check_leaves_no_residue_witness :
  Duk.new_JavaScriptObject dukProvider (λ _, None) "calculator" 0
    [computeInterface; resetInterface] true
    (NativeSamples.Duk.stackOf [halfCalculator])
  = (Throws (std_invalid_argument "JS global calculator has no method called reset"),
     NativeSamples.Duk.stackOf [halfCalculator]) ∧
  Qjs.new_JavaScriptObject qjsProvider (λ _, None) "calculator" halfCalculator
    [computeInterface; resetInterface] true []
  = (Throws (std_invalid_argument "JS global calculator has no method called reset"),
     [QuickJs.Free (JSFunction 1 []); QuickJs.Free JSUndefined]).
Proof.
  destruct failed_check_leaves_no_residue as [Hduk Hqjs].
  split.
  - exact (Hduk dukProvider (λ _, None) "calculator" 0
             (NativeSamples.Duk.stackOf [halfCalculator]) halfCalculator
             [computeInterface] resetInterface [] eq_refl eq_refl
             compute_is_usable eq_refl).
  - exact (Hqjs qjsProvider (λ _, None) "calculator" halfCalculator []
             [computeInterface] resetInterface [] eq_refl
             compute_is_usable_qjs eq_refl).
Defined.

End FailedCheckWitnesses.
